(** * Control core of the ESP32 relay firmware

    Shallow embedding of [src/esp32/improved_esp32.cpp] and of its
    rate-limited sibling [src/esp32/esp32debugtest.cpp], followed by the
    properties of the command pipeline, the manual-input debouncer, the
    session guard and the NVS snapshot, and by the invariants that
    [setup()] establishes and every pass of [loop()] keeps.

    Both sketches share most of their text.  The functions that are the
    same in the two files are embedded once at top level; the functions
    that differ live in [Module Improved] and [Module DebugTest].

    Conventions.
    - The sketch's globals, the FreeRTOS queue, the NVS namespace and the
      board's surroundings (clock, link status, pin levels) are the fields
      of one record [Device]; every C++ function becomes a function
      [Device -> Device] (returning a pair when the C++ returns a value).
    - [unsigned long] is 32 bits wide on the ESP32: [millis] is the true
      elapsed time modulo [2^32] and every difference of two time stamps
      is taken modulo [2^32] ([ulong_sub]).
    - A call reads the clock as often as the source does, but the clock
      does not advance inside one call; time passes between calls and
      where the source calls [delay].
    - JSON documents are values of [JsonVariant]; the text parser of
      ArduinoJson is not part of the control core.
    - [pinMode] has no effect the control core can observe and is left
      out; [digitalWrite] records the level, [digitalRead] asks the
      surroundings.  Both take their pin as [uint8_t]: the [int] the
      sketch passes is converted, so pin 260 is pin 4. *)

From Stdlib Require Import ZArith List Bool Lia.
From stdpp Require Import base decidable option list gmap strings pretty.

Local Open Scope Z_scope.

(** ** Constants of the sketches and of [config.h] *)

Definition LOW : Z := 0.
Definition HIGH : Z := 1.
Definition RELAY_ON_LEVEL : Z := LOW.
Definition RELAY_OFF_LEVEL : Z := HIGH.
Definition STATUS_LED_PIN : Z := 2.

Definition HEARTBEAT_MS : Z := 30000.
Definition STATE_DEBOUNCE_MS : Z := 200.
Definition MANUAL_DEBOUNCE_MS : Z := 30.
Definition MAX_COMMAND_QUEUE : nat := 16.
Definition COMMAND_PROCESS_INTERVAL : Z := 100.
Definition WIFI_RETRY_INTERVAL_MS : Z := 30000.
Definition IDENTIFY_RETRY_MS : Z := 10000.
Definition MAX_SWITCHES : nat := 8.
Definition CFG_SAVE_MIN_INTERVAL_MS : Z := 5000.

(** ** Machine arithmetic *)

Definition ULONG_MOD : Z := 2 ^ 32.

(** [a - b] on [unsigned long]. *)
Definition ulong_sub (a b : Z) : Z := (a - b) mod ULONG_MOD.

(** The cast [(long)x] of an [unsigned long]. *)
Definition to_long (x : Z) : Z := (x + 2 ^ 31) mod ULONG_MOD - 2 ^ 31.

Definition in_int_range (z : Z) : bool :=
  (- 2 ^ 31 <=? z) && (z <? 2 ^ 31).

(** ** Data model *)

Inductive ConnState := WIFI_DISCONNECTED | WIFI_ONLY | BACKEND_CONNECTED.

Record SwitchState := {
  gpio : Z;
  state : bool;
  name : string;
  manualGpio : Z;
  manualEnabled : bool;
  manualActiveLow : bool;
  manualMomentary : bool;
  lastManualLevel : Z;
  lastManualChangeMs : Z;
  stableManualLevel : Z;
  lastManualActive : bool;
  defaultState : bool;
  manualOverride : bool
}.

(** Field updates of [SwitchState] ([sw.f = v]). *)

Definition sw_set_state v (sw : SwitchState) : SwitchState :=
  Build_SwitchState (gpio sw) v (name sw) (manualGpio sw) (manualEnabled sw)
    (manualActiveLow sw) (manualMomentary sw) (lastManualLevel sw)
    (lastManualChangeMs sw) (stableManualLevel sw) (lastManualActive sw)
    (defaultState sw) (manualOverride sw).

Definition sw_set_lastManualLevel v (sw : SwitchState) : SwitchState :=
  Build_SwitchState (gpio sw) (state sw) (name sw) (manualGpio sw)
    (manualEnabled sw) (manualActiveLow sw) (manualMomentary sw) v
    (lastManualChangeMs sw) (stableManualLevel sw) (lastManualActive sw)
    (defaultState sw) (manualOverride sw).

Definition sw_set_lastManualChangeMs v (sw : SwitchState) : SwitchState :=
  Build_SwitchState (gpio sw) (state sw) (name sw) (manualGpio sw)
    (manualEnabled sw) (manualActiveLow sw) (manualMomentary sw)
    (lastManualLevel sw) v (stableManualLevel sw) (lastManualActive sw)
    (defaultState sw) (manualOverride sw).

Definition sw_set_stableManualLevel v (sw : SwitchState) : SwitchState :=
  Build_SwitchState (gpio sw) (state sw) (name sw) (manualGpio sw)
    (manualEnabled sw) (manualActiveLow sw) (manualMomentary sw)
    (lastManualLevel sw) (lastManualChangeMs sw) v (lastManualActive sw)
    (defaultState sw) (manualOverride sw).

Definition sw_set_lastManualActive v (sw : SwitchState) : SwitchState :=
  Build_SwitchState (gpio sw) (state sw) (name sw) (manualGpio sw)
    (manualEnabled sw) (manualActiveLow sw) (manualMomentary sw)
    (lastManualLevel sw) (lastManualChangeMs sw) (stableManualLevel sw) v
    (defaultState sw) (manualOverride sw).

Definition sw_set_defaultState v (sw : SwitchState) : SwitchState :=
  Build_SwitchState (gpio sw) (state sw) (name sw) (manualGpio sw)
    (manualEnabled sw) (manualActiveLow sw) (manualMomentary sw)
    (lastManualLevel sw) (lastManualChangeMs sw) (stableManualLevel sw)
    (lastManualActive sw) v (manualOverride sw).

Definition sw_set_manualOverride v (sw : SwitchState) : SwitchState :=
  Build_SwitchState (gpio sw) (state sw) (name sw) (manualGpio sw)
    (manualEnabled sw) (manualActiveLow sw) (manualMomentary sw)
    (lastManualLevel sw) (lastManualChangeMs sw) (stableManualLevel sw)
    (lastManualActive sw) (defaultState sw) v.


Record Command := {
  cmd_gpio : Z;
  cmd_state : bool;
  cmd_valid : bool;
  cmd_timestamp : Z
}.

Record GpioSeq := { gs_gpio : Z; gs_seq : Z }.

(** A parsed JSON document.  Numbers are integers; [JInt] carries the
    mathematical value and [is_int] checks the 32-bit range as
    [is<int>()] and [is<long>()] do on this target. *)
#[warnings="-register-all"]
Inductive JsonVariant :=
| JNull
| JBool (b : bool)
| JInt (z : Z)
| JStr (s : string)
| JArray (l : list JsonVariant)
| JObject (l : list (string * JsonVariant)).

(** Messages handed to [ws.sendTXT].  The MAC address, the device secret
    and the HMAC signature are the same in every message of a build and
    are left out. *)
Inductive Msg :=
| MIdentify
| MStateUpdate (seq ts : Z) (switches : list (Z * bool * bool))
| MHeartbeat (uptime : Z) (offline_mode : bool)
| MBulkSwitchResult (processed total : Z).

(** Lines printed on [Serial] that report what the pipeline did: a
    command queued, dropped or applied, a snapshot saved or loaded, a
    message sent.  Banners and traces of received text are not kept. *)
Inductive SerialLine :=
| LogCmdQueueFull
| LogCmdQueued (g : Z) (s : bool)
| LogSwitch (g : Z) (s : bool)
| LogSwitchUnknownGpio (g : Z)
| LogNvsSaved
| LogNvsNoValidConfig
| LogNvsLoaded (n : nat)
| LogWsStateUpdate
| LogWsHeartbeat
| LogBulkInvalidGpio
| LogBulkProcessed (n : Z).

(** Events the WebSocket library delivers to [onWsEvent].  [WStype_TEXT]
    carries the result of [deserializeJson]: [None] is a parse error. *)
Inductive WsEvent :=
| WStype_CONNECTED
| WStype_DISCONNECTED
| WStype_TEXT (payload : option JsonVariant)
| WStype_OTHER.

(** Values stored under a key of the NVS namespace ["switchcfg"]. *)
Inductive NvsValue :=
| NvsInt (z : Z)
| NvsBool (b : bool)
| NvsString (s : string).

Record Device := {
  (* globals of the sketch *)
  connState : ConnState;
  lastHeartbeat : Z;
  lastStateSent : Z;
  lastCommandProcess : Z;
  lastWiFiRetry : Z;
  lastIdentifyAttempt : Z;
  pendingState : bool;
  identified : bool;
  isOfflineMode : bool;
  cfgDirty : bool;              (* esp32debugtest.cpp only *)
  lastCfgSave : Z;              (* esp32debugtest.cpp only *)
  switchesLocal : list SwitchState;
  lastSeqs : list GpioSeq;
  (* runtime objects *)
  cmdQueue : list Command;      (* FreeRTOS queue, head first *)
  prefs : gmap string NvsValue; (* NVS namespace "switchcfg" *)
  (* surroundings *)
  clock : Z;                    (* true elapsed milliseconds *)
  wsConnected : bool;           (* ws.isConnected() *)
  wifiConnected : bool;         (* WiFi.status() == WL_CONNECTED *)
  pinIn : Z -> Z;               (* level digitalRead returns per pin *)
  (* effects, oldest first except nvsCommits *)
  pinOut : gmap Z Z;            (* last level written per pin *)
  tx : list Msg;                (* frames passed to ws.sendTXT *)
  serial : list SerialLine;
  nvsCommits : list Z           (* clock of every NVS save, newest first *)
}.

(** Field updates of [Device] (assignment to one global). *)

Definition set_connState v (d : Device) : Device :=
  Build_Device v (lastHeartbeat d) (lastStateSent d) (lastCommandProcess d)
    (lastWiFiRetry d) (lastIdentifyAttempt d) (pendingState d) (identified d)
    (isOfflineMode d) (cfgDirty d) (lastCfgSave d) (switchesLocal d)
    (lastSeqs d) (cmdQueue d) (prefs d) (clock d) (wsConnected d)
    (wifiConnected d) (pinIn d) (pinOut d) (tx d) (serial d) (nvsCommits d).

Definition set_lastHeartbeat v (d : Device) : Device :=
  Build_Device (connState d) v (lastStateSent d) (lastCommandProcess d)
    (lastWiFiRetry d) (lastIdentifyAttempt d) (pendingState d) (identified d)
    (isOfflineMode d) (cfgDirty d) (lastCfgSave d) (switchesLocal d)
    (lastSeqs d) (cmdQueue d) (prefs d) (clock d) (wsConnected d)
    (wifiConnected d) (pinIn d) (pinOut d) (tx d) (serial d) (nvsCommits d).

Definition set_lastStateSent v (d : Device) : Device :=
  Build_Device (connState d) (lastHeartbeat d) v (lastCommandProcess d)
    (lastWiFiRetry d) (lastIdentifyAttempt d) (pendingState d) (identified d)
    (isOfflineMode d) (cfgDirty d) (lastCfgSave d) (switchesLocal d)
    (lastSeqs d) (cmdQueue d) (prefs d) (clock d) (wsConnected d)
    (wifiConnected d) (pinIn d) (pinOut d) (tx d) (serial d) (nvsCommits d).

Definition set_lastCommandProcess v (d : Device) : Device :=
  Build_Device (connState d) (lastHeartbeat d) (lastStateSent d) v
    (lastWiFiRetry d) (lastIdentifyAttempt d) (pendingState d) (identified d)
    (isOfflineMode d) (cfgDirty d) (lastCfgSave d) (switchesLocal d)
    (lastSeqs d) (cmdQueue d) (prefs d) (clock d) (wsConnected d)
    (wifiConnected d) (pinIn d) (pinOut d) (tx d) (serial d) (nvsCommits d).

Definition set_lastWiFiRetry v (d : Device) : Device :=
  Build_Device (connState d) (lastHeartbeat d) (lastStateSent d)
    (lastCommandProcess d) v (lastIdentifyAttempt d) (pendingState d)
    (identified d) (isOfflineMode d) (cfgDirty d) (lastCfgSave d)
    (switchesLocal d) (lastSeqs d) (cmdQueue d) (prefs d) (clock d)
    (wsConnected d) (wifiConnected d) (pinIn d) (pinOut d) (tx d) (serial d)
    (nvsCommits d).

Definition set_lastIdentifyAttempt v (d : Device) : Device :=
  Build_Device (connState d) (lastHeartbeat d) (lastStateSent d)
    (lastCommandProcess d) (lastWiFiRetry d) v (pendingState d)
    (identified d) (isOfflineMode d) (cfgDirty d) (lastCfgSave d)
    (switchesLocal d) (lastSeqs d) (cmdQueue d) (prefs d) (clock d)
    (wsConnected d) (wifiConnected d) (pinIn d) (pinOut d) (tx d) (serial d)
    (nvsCommits d).

Definition set_pendingState v (d : Device) : Device :=
  Build_Device (connState d) (lastHeartbeat d) (lastStateSent d)
    (lastCommandProcess d) (lastWiFiRetry d) (lastIdentifyAttempt d) v
    (identified d) (isOfflineMode d) (cfgDirty d) (lastCfgSave d)
    (switchesLocal d) (lastSeqs d) (cmdQueue d) (prefs d) (clock d)
    (wsConnected d) (wifiConnected d) (pinIn d) (pinOut d) (tx d) (serial d)
    (nvsCommits d).

Definition set_identified v (d : Device) : Device :=
  Build_Device (connState d) (lastHeartbeat d) (lastStateSent d)
    (lastCommandProcess d) (lastWiFiRetry d) (lastIdentifyAttempt d)
    (pendingState d) v (isOfflineMode d) (cfgDirty d) (lastCfgSave d)
    (switchesLocal d) (lastSeqs d) (cmdQueue d) (prefs d) (clock d)
    (wsConnected d) (wifiConnected d) (pinIn d) (pinOut d) (tx d) (serial d)
    (nvsCommits d).

Definition set_isOfflineMode v (d : Device) : Device :=
  Build_Device (connState d) (lastHeartbeat d) (lastStateSent d)
    (lastCommandProcess d) (lastWiFiRetry d) (lastIdentifyAttempt d)
    (pendingState d) (identified d) v (cfgDirty d) (lastCfgSave d)
    (switchesLocal d) (lastSeqs d) (cmdQueue d) (prefs d) (clock d)
    (wsConnected d) (wifiConnected d) (pinIn d) (pinOut d) (tx d) (serial d)
    (nvsCommits d).

Definition set_cfgDirty v (d : Device) : Device :=
  Build_Device (connState d) (lastHeartbeat d) (lastStateSent d)
    (lastCommandProcess d) (lastWiFiRetry d) (lastIdentifyAttempt d)
    (pendingState d) (identified d) (isOfflineMode d) v (lastCfgSave d)
    (switchesLocal d) (lastSeqs d) (cmdQueue d) (prefs d) (clock d)
    (wsConnected d) (wifiConnected d) (pinIn d) (pinOut d) (tx d) (serial d)
    (nvsCommits d).

Definition set_lastCfgSave v (d : Device) : Device :=
  Build_Device (connState d) (lastHeartbeat d) (lastStateSent d)
    (lastCommandProcess d) (lastWiFiRetry d) (lastIdentifyAttempt d)
    (pendingState d) (identified d) (isOfflineMode d) (cfgDirty d) v
    (switchesLocal d) (lastSeqs d) (cmdQueue d) (prefs d) (clock d)
    (wsConnected d) (wifiConnected d) (pinIn d) (pinOut d) (tx d) (serial d)
    (nvsCommits d).

Definition set_switchesLocal v (d : Device) : Device :=
  Build_Device (connState d) (lastHeartbeat d) (lastStateSent d)
    (lastCommandProcess d) (lastWiFiRetry d) (lastIdentifyAttempt d)
    (pendingState d) (identified d) (isOfflineMode d) (cfgDirty d)
    (lastCfgSave d) v (lastSeqs d) (cmdQueue d) (prefs d) (clock d)
    (wsConnected d) (wifiConnected d) (pinIn d) (pinOut d) (tx d) (serial d)
    (nvsCommits d).

Definition set_lastSeqs v (d : Device) : Device :=
  Build_Device (connState d) (lastHeartbeat d) (lastStateSent d)
    (lastCommandProcess d) (lastWiFiRetry d) (lastIdentifyAttempt d)
    (pendingState d) (identified d) (isOfflineMode d) (cfgDirty d)
    (lastCfgSave d) (switchesLocal d) v (cmdQueue d) (prefs d) (clock d)
    (wsConnected d) (wifiConnected d) (pinIn d) (pinOut d) (tx d) (serial d)
    (nvsCommits d).

Definition set_cmdQueue v (d : Device) : Device :=
  Build_Device (connState d) (lastHeartbeat d) (lastStateSent d)
    (lastCommandProcess d) (lastWiFiRetry d) (lastIdentifyAttempt d)
    (pendingState d) (identified d) (isOfflineMode d) (cfgDirty d)
    (lastCfgSave d) (switchesLocal d) (lastSeqs d) v (prefs d) (clock d)
    (wsConnected d) (wifiConnected d) (pinIn d) (pinOut d) (tx d) (serial d)
    (nvsCommits d).

Definition set_prefs v (d : Device) : Device :=
  Build_Device (connState d) (lastHeartbeat d) (lastStateSent d)
    (lastCommandProcess d) (lastWiFiRetry d) (lastIdentifyAttempt d)
    (pendingState d) (identified d) (isOfflineMode d) (cfgDirty d)
    (lastCfgSave d) (switchesLocal d) (lastSeqs d) (cmdQueue d) v (clock d)
    (wsConnected d) (wifiConnected d) (pinIn d) (pinOut d) (tx d) (serial d)
    (nvsCommits d).

Definition set_clock v (d : Device) : Device :=
  Build_Device (connState d) (lastHeartbeat d) (lastStateSent d)
    (lastCommandProcess d) (lastWiFiRetry d) (lastIdentifyAttempt d)
    (pendingState d) (identified d) (isOfflineMode d) (cfgDirty d)
    (lastCfgSave d) (switchesLocal d) (lastSeqs d) (cmdQueue d) (prefs d) v
    (wsConnected d) (wifiConnected d) (pinIn d) (pinOut d) (tx d) (serial d)
    (nvsCommits d).

Definition set_wsConnected v (d : Device) : Device :=
  Build_Device (connState d) (lastHeartbeat d) (lastStateSent d)
    (lastCommandProcess d) (lastWiFiRetry d) (lastIdentifyAttempt d)
    (pendingState d) (identified d) (isOfflineMode d) (cfgDirty d)
    (lastCfgSave d) (switchesLocal d) (lastSeqs d) (cmdQueue d) (prefs d)
    (clock d) v (wifiConnected d) (pinIn d) (pinOut d) (tx d) (serial d)
    (nvsCommits d).

Definition set_wifiConnected v (d : Device) : Device :=
  Build_Device (connState d) (lastHeartbeat d) (lastStateSent d)
    (lastCommandProcess d) (lastWiFiRetry d) (lastIdentifyAttempt d)
    (pendingState d) (identified d) (isOfflineMode d) (cfgDirty d)
    (lastCfgSave d) (switchesLocal d) (lastSeqs d) (cmdQueue d) (prefs d)
    (clock d) (wsConnected d) v (pinIn d) (pinOut d) (tx d) (serial d)
    (nvsCommits d).

Definition set_pinIn v (d : Device) : Device :=
  Build_Device (connState d) (lastHeartbeat d) (lastStateSent d)
    (lastCommandProcess d) (lastWiFiRetry d) (lastIdentifyAttempt d)
    (pendingState d) (identified d) (isOfflineMode d) (cfgDirty d)
    (lastCfgSave d) (switchesLocal d) (lastSeqs d) (cmdQueue d) (prefs d)
    (clock d) (wsConnected d) (wifiConnected d) v (pinOut d) (tx d)
    (serial d) (nvsCommits d).

Definition set_pinOut v (d : Device) : Device :=
  Build_Device (connState d) (lastHeartbeat d) (lastStateSent d)
    (lastCommandProcess d) (lastWiFiRetry d) (lastIdentifyAttempt d)
    (pendingState d) (identified d) (isOfflineMode d) (cfgDirty d)
    (lastCfgSave d) (switchesLocal d) (lastSeqs d) (cmdQueue d) (prefs d)
    (clock d) (wsConnected d) (wifiConnected d) (pinIn d) v (tx d) (serial d)
    (nvsCommits d).

Definition set_tx v (d : Device) : Device :=
  Build_Device (connState d) (lastHeartbeat d) (lastStateSent d)
    (lastCommandProcess d) (lastWiFiRetry d) (lastIdentifyAttempt d)
    (pendingState d) (identified d) (isOfflineMode d) (cfgDirty d)
    (lastCfgSave d) (switchesLocal d) (lastSeqs d) (cmdQueue d) (prefs d)
    (clock d) (wsConnected d) (wifiConnected d) (pinIn d) (pinOut d) v
    (serial d) (nvsCommits d).

Definition set_serial v (d : Device) : Device :=
  Build_Device (connState d) (lastHeartbeat d) (lastStateSent d)
    (lastCommandProcess d) (lastWiFiRetry d) (lastIdentifyAttempt d)
    (pendingState d) (identified d) (isOfflineMode d) (cfgDirty d)
    (lastCfgSave d) (switchesLocal d) (lastSeqs d) (cmdQueue d) (prefs d)
    (clock d) (wsConnected d) (wifiConnected d) (pinIn d) (pinOut d) (tx d) v
    (nvsCommits d).

Definition set_nvsCommits v (d : Device) : Device :=
  Build_Device (connState d) (lastHeartbeat d) (lastStateSent d)
    (lastCommandProcess d) (lastWiFiRetry d) (lastIdentifyAttempt d)
    (pendingState d) (identified d) (isOfflineMode d) (cfgDirty d)
    (lastCfgSave d) (switchesLocal d) (lastSeqs d) (cmdQueue d) (prefs d)
    (clock d) (wsConnected d) (wifiConnected d) (pinIn d) (pinOut d) (tx d)
    (serial d) v.


(** ** ArduinoJson accessors *)

Fixpoint json_assoc (k : string) (l : list (string * JsonVariant)) : JsonVariant :=
  match l with
  | [] => JNull
  | (k', v) :: r => if String.eqb k k' then v else json_assoc k r
  end.

(** [v[k]]: null unless [v] is an object that has the member. *)
Definition member (k : string) (v : JsonVariant) : JsonVariant :=
  match v with
  | JObject l => json_assoc k l
  | _ => JNull
  end.

Notation "v .[ k ]" := (member k v) (at level 1, left associativity,
  format "v .[ k ]").

Definition is_int (v : JsonVariant) : bool :=
  match v with JInt z => in_int_range z | _ => false end.
Definition as_int (v : JsonVariant) : Z :=
  match v with JInt z => z | _ => 0 end.
Definition is_bool (v : JsonVariant) : bool :=
  match v with JBool _ => true | _ => false end.
Definition as_bool (v : JsonVariant) : bool :=
  match v with JBool b => b | _ => false end.
Definition is_str (v : JsonVariant) : bool :=
  match v with JStr _ => true | _ => false end.
Definition as_str (v : JsonVariant) : string :=
  match v with JStr s => s | _ => "" end.

(** [v | dflt] at the three types the sketches use. *)
Definition or_int (v : JsonVariant) (dflt : Z) : Z :=
  if is_int v then as_int v else dflt.
Definition or_bool (v : JsonVariant) (dflt : bool) : bool :=
  if is_bool v then as_bool v else dflt.
Definition or_str (v : JsonVariant) (dflt : string) : string :=
  if is_str v then as_str v else dflt.

(** ** Board primitives *)

Definition millis (d : Device) : Z := clock d mod ULONG_MOD.

Definition Serial_print (l : SerialLine) (d : Device) : Device :=
  set_serial (serial d ++ [l]) d.

(** The conversion of an [int] argument to a [uint8_t] parameter. *)
Definition uint8 (x : Z) : Z := x mod 256.

Arguments uint8 : simpl never.

(** [digitalWrite(uint8_t pin, uint8_t val)] and
    [digitalRead(uint8_t pin)] of the Arduino core. *)
Definition digitalWrite (pin level : Z) (d : Device) : Device :=
  set_pinOut (<[uint8 pin := uint8 level]> (pinOut d)) d.

Definition digitalRead (pin : Z) (d : Device) : Z := pinIn d (uint8 pin).

Definition relayLevel (s : bool) : Z :=
  if s then RELAY_ON_LEVEL else RELAY_OFF_LEVEL.

(** [delay(ms)] and any other passage of time. *)
Definition delay (ms : N) (d : Device) : Device :=
  set_clock (clock d + Z.of_N ms) d.

(** ** Functions that are the same in both sketches *)

Definition sendJson (doc : Msg) (d : Device) : Device :=
  if negb (wsConnected d) then d
  else set_tx (tx d ++ [doc]) d.

Definition identify (d : Device) : Device :=
  let d := sendJson MIdentify d in
  set_lastIdentifyAttempt (millis d) d.

Definition stateUpdateEntry (sw : SwitchState) : Z * bool * bool :=
  (gpio sw, state sw, manualOverride sw).

Definition sendStateUpdate (force : bool) (d : Device) : Device :=
  let now := millis d in
  if negb force && (ulong_sub now (lastStateSent d) <? STATE_DEBOUNCE_MS)
  then set_pendingState true d
  else
    let d := set_pendingState false d in
    let d := set_lastStateSent now d in
    if negb (wsConnected d) then d
    else
      let doc := MStateUpdate (to_long (millis d)) (to_long (millis d))
                   (map stateUpdateEntry (switchesLocal d)) in
      let d := sendJson doc d in
      Serial_print LogWsStateUpdate d.

Definition sendHeartbeat (d : Device) : Device :=
  let now := millis d in
  if ulong_sub now (lastHeartbeat d) <? HEARTBEAT_MS then d
  else
    let d := set_lastHeartbeat now d in
    if wsConnected d then
      let d := sendJson (MHeartbeat (millis d / 1000) (isOfflineMode d)) d in
      Serial_print LogWsHeartbeat d
    else d.

Fixpoint getLastSeq_from (l : list GpioSeq) (g : Z) : Z :=
  match l with
  | [] => -1
  | p :: r => if gs_gpio p =? g then gs_seq p else getLastSeq_from r g
  end.

Definition getLastSeq (g : Z) (d : Device) : Z := getLastSeq_from (lastSeqs d) g.

Fixpoint setLastSeq_in (l : list GpioSeq) (g seq : Z) : list GpioSeq :=
  match l with
  | [] => [ {| gs_gpio := g; gs_seq := seq |} ]
  | p :: r =>
      if gs_gpio p =? g then {| gs_gpio := g; gs_seq := seq |} :: r
      else p :: setLastSeq_in r g seq
  end.

Definition setLastSeq (g seq : Z) (d : Device) : Device :=
  set_lastSeqs (setLastSeq_in (lastSeqs d) g seq) d.

(** [xQueueSend(cmdQueue, &cmd, 0)]: with a zero wait the call returns at
    once, [None] standing for [errQUEUE_FULL]. *)
Definition xQueueSend (q : list Command) (cmd : Command) : option (list Command) :=
  if (length q <? MAX_COMMAND_QUEUE)%nat then Some (q ++ [cmd]) else None.

(** [xQueueReceive(cmdQueue, &cmd, 0)]. *)
Definition xQueueReceive (q : list Command) : option (Command * list Command) :=
  match q with
  | [] => None
  | cmd :: r => Some (cmd, r)
  end.

Definition queueSwitchCommand (g : Z) (s : bool) (d : Device) : Device :=
  let cmd := {| cmd_gpio := g; cmd_state := s; cmd_valid := true;
                cmd_timestamp := millis d |} in
  match xQueueSend (cmdQueue d) cmd with
  | None => Serial_print LogCmdQueueFull d
  | Some q => Serial_print (LogCmdQueued g s) (set_cmdQueue q d)
  end.

(** ** The NVS snapshot *)

(** The key [prefix + String(i)]. *)
Definition nvsKey (prefix : string) (i : nat) : string := prefix +:+ pretty i.

Definition putInt (k : string) (z : Z) (p : gmap string NvsValue) :
    gmap string NvsValue := <[k := NvsInt z]> p.
Definition putBool (k : string) (b : bool) (p : gmap string NvsValue) :
    gmap string NvsValue := <[k := NvsBool b]> p.
Definition putString (k : string) (s : string) (p : gmap string NvsValue) :
    gmap string NvsValue := <[k := NvsString s]> p.

(** The getters answer the default when the key is missing or holds a
    value of another type. *)
Definition getInt (k : string) (dflt : Z) (p : gmap string NvsValue) : Z :=
  match p !! k with Some (NvsInt z) => z | _ => dflt end.
Definition getBool (k : string) (dflt : bool) (p : gmap string NvsValue) : bool :=
  match p !! k with Some (NvsBool b) => b | _ => dflt end.
Definition getString (k : string) (dflt : string) (p : gmap string NvsValue) :
    string :=
  match p !! k with Some (NvsString s) => s | _ => dflt end.

(** Body of the [for] loop of [saveConfigToNVS]. *)
Definition saveSwitchToNVS (i : nat) (sw : SwitchState)
    (p : gmap string NvsValue) : gmap string NvsValue :=
  let p := putInt (nvsKey "gpio" i) (gpio sw) p in
  let p := putBool (nvsKey "state" i) (state sw) p in
  let p := putBool (nvsKey "default" i) (defaultState sw) p in
  let p := putBool (nvsKey "manual_en" i) (manualEnabled sw) p in
  let p := putInt (nvsKey "manual_gpio" i) (manualGpio sw) p in
  let p := putBool (nvsKey "active_low" i) (manualActiveLow sw) p in
  let p := putBool (nvsKey "momentary" i) (manualMomentary sw) p in
  let p := putString (nvsKey "name" i) (name sw) p in
  putBool (nvsKey "override" i) (manualOverride sw) p.

Definition saveSwitchesToNVS (sws : list SwitchState) (numSwitches : nat)
    (p : gmap string NvsValue) : gmap string NvsValue :=
  fold_left
    (fun p i => match sws !! i with
                | Some sw => saveSwitchToNVS i sw p
                | None => p
                end)
    (seq 0 numSwitches) p.

Definition saveConfigToNVS (d : Device) : Device :=
  let numSwitches := Nat.min (length (switchesLocal d)) MAX_SWITCHES in
  let p := putInt "count" (Z.of_nat numSwitches) (prefs d) in
  let p := saveSwitchesToNVS (switchesLocal d) numSwitches p in
  let d := set_prefs p d in
  let d := set_nvsCommits (clock d :: nvsCommits d) d in
  Serial_print LogNvsSaved d.

(** The block that configures a manual input and samples it once; the
    three loaders share its text. *)
Definition initManualInput (d : Device) (sw : SwitchState) : SwitchState :=
  if manualEnabled sw && (0 <=? manualGpio sw) then
    let lvl := digitalRead (manualGpio sw) d in
    let sw := sw_set_lastManualLevel lvl sw in
    let sw := sw_set_stableManualLevel lvl sw in
    sw_set_lastManualActive
      (if manualActiveLow sw then stableManualLevel sw =? LOW
       else stableManualLevel sw =? HIGH) sw
  else sw.

(** The fields read back for index [i]; [None] when the stored relay pin
    is invalid and the entry is skipped. *)
Definition readSwitchFromNVS (p : gmap string NvsValue) (i : nat) :
    option SwitchState :=
  let g := getInt (nvsKey "gpio" i) (-1) p in
  if g <? 0 then None
  else Some {|
    gpio := g;
    state := getBool (nvsKey "state" i) false p;
    name := getString (nvsKey "name" i) ("Switch " +:+ pretty (i + 1)%nat) p;
    manualGpio := getInt (nvsKey "manual_gpio" i) (-1) p;
    manualEnabled := getBool (nvsKey "manual_en" i) false p;
    manualActiveLow := getBool (nvsKey "active_low" i) true p;
    manualMomentary := getBool (nvsKey "momentary" i) false p;
    lastManualLevel := -1;
    lastManualChangeMs := 0;
    stableManualLevel := -1;
    lastManualActive := false;
    defaultState := getBool (nvsKey "default" i) false p;
    manualOverride := getBool (nvsKey "override" i) false p |}.

(** Drive the relay, set up the manual input and append the entry. *)
Definition installSwitch (sw : SwitchState) (d : Device) : Device :=
  let d := digitalWrite (gpio sw) (relayLevel (state sw)) d in
  let sw := initManualInput d sw in
  set_switchesLocal (switchesLocal d ++ [sw]) d.

Definition loadConfigFromNVS (d : Device) : Device :=
  let numSwitches := getInt "count" 0 (prefs d) in
  if (numSwitches <=? 0) || (Z.of_nat MAX_SWITCHES <? numSwitches)
  then Serial_print LogNvsNoValidConfig d
  else
    let d := set_switchesLocal [] d in
    let d :=
      fold_left
        (fun d i => match readSwitchFromNVS (prefs d) i with
                    | None => d
                    | Some sw => installSwitch sw d
                    end)
        (seq 0 (Z.to_nat numSwitches)) d in
    Serial_print (LogNvsLoaded (length (switchesLocal d))) d.

(** ** Manual inputs *)

Definition manualActive (sw : SwitchState) (rawLevel : Z) : bool :=
  if manualActiveLow sw then rawLevel =? LOW else rawLevel =? HIGH.

(** Body of the loop of [handleManualSwitches] for one enabled input:
    the updated entry, and the arguments of the [queueSwitchCommand] call
    it makes, if any. *)
Definition manualSwitchStep (now rawLevel : Z) (sw : SwitchState) :
    SwitchState * option (Z * bool) :=
  let sw :=
    if negb (rawLevel =? lastManualLevel sw)
    then sw_set_lastManualChangeMs now (sw_set_lastManualLevel rawLevel sw)
    else sw in
  if negb (rawLevel =? stableManualLevel sw)
     && (MANUAL_DEBOUNCE_MS <=? ulong_sub now (lastManualChangeMs sw))
  then
    let sw := sw_set_stableManualLevel rawLevel sw in
    let active := manualActive sw rawLevel in
    let '(sw, cmd) :=
      if manualMomentary sw then
        if active && negb (lastManualActive sw)
        then (sw_set_manualOverride true sw, Some (gpio sw, negb (state sw)))
        else (sw, None)
      else
        if negb (Bool.eqb active (state sw))
        then (sw_set_manualOverride true sw, Some (gpio sw, active))
        else (sw, None) in
    (sw_set_lastManualActive active sw, cmd)
  else (sw, None).

Fixpoint handleManualSwitches_loop (now : Z) (sws : list SwitchState)
    (d : Device) : list SwitchState * Device :=
  match sws with
  | [] => ([], d)
  | sw :: rest =>
      if negb (manualEnabled sw) || (manualGpio sw <? 0) then
        let '(rest', d) := handleManualSwitches_loop now rest d in
        (sw :: rest', d)
      else
        let '(sw', cmd) :=
          manualSwitchStep now (digitalRead (manualGpio sw) d) sw in
        let d := match cmd with
                 | Some (g, s) => queueSwitchCommand g s d
                 | None => d
                 end in
        let '(rest', d) := handleManualSwitches_loop now rest d in
        (sw' :: rest', d)
  end.

Definition handleManualSwitches (d : Device) : Device :=
  let '(sws, d') := handleManualSwitches_loop (millis d) (switchesLocal d) d in
  set_switchesLocal sws d'.

Definition blinkStatus (d : Device) : Device :=
  let now := millis d in
  let pattern :=
    match connState d with
    | WIFI_DISCONNECTED => now mod 500 <? 250
    | WIFI_ONLY => now mod 1000 <? 500
    | BACKEND_CONNECTED => now mod 2000 <? 1000
    end in
  digitalWrite STATUS_LED_PIN (if pattern then HIGH else LOW) d.

(** ** Message handling shared by both sketches *)

(** [o["relayGpio"]] if it is an [int], else [o["gpio"]], else [-1]. *)
Definition relayGpioOf (o : JsonVariant) : Z :=
  if is_int o.["relayGpio"] then as_int o.["relayGpio"]
  else if is_int o.["gpio"] then as_int o.["gpio"]
  else -1.

(** The [long seq] both command handlers read from the message. *)
Definition seqOf (o : JsonVariant) : Z :=
  if is_int o.["seq"] then as_int o.["seq"] else -1.

Section OnWsText.

(** The two sketches differ in how a [switches] array is loaded. *)
Variable loadConfigFromJsonArray : list JsonVariant -> Device -> Device.

Definition onIdentified (doc : JsonVariant) (d : Device) : Device :=
  let d := set_identified true d in
  let d := set_isOfflineMode false d in
  let d := digitalWrite STATUS_LED_PIN HIGH d in
  let d := set_lastSeqs [] d in
  match doc.["switches"] with
  | JArray arr => loadConfigFromJsonArray arr d
  | _ => d
  end.

Definition onConfigUpdate (doc : JsonVariant) (d : Device) : Device :=
  match doc.["switches"] with
  | JArray arr =>
      let d := set_lastSeqs [] d in
      loadConfigFromJsonArray arr d
  | _ => d
  end.

Definition onSwitchCommand (doc : JsonVariant) (d : Device) : Device :=
  let g := relayGpioOf doc in
  let requested := or_bool doc.["state"] false in
  let seq := seqOf doc in          (* printed, then dropped *)
  queueSwitchCommand g requested d.

Definition bulkEntry (acc : Z * Device) (cmd : JsonVariant) : Z * Device :=
  let '(processed, d) := acc in
  let g := relayGpioOf cmd in
  let requested := if is_bool cmd.["state"] then as_bool cmd.["state"] else false in
  let seq := seqOf cmd in          (* read, never used *)
  if 0 <=? g then (processed + 1, queueSwitchCommand g requested d)
  else (processed, Serial_print LogBulkInvalidGpio d).

Definition onBulkSwitchCommand (doc : JsonVariant) (d : Device) : Device :=
  match doc.["commands"] with
  | JArray cmds =>
      let '(processed, d) := fold_left bulkEntry cmds (0, d) in
      let d := Serial_print (LogBulkProcessed processed) d in
      sendJson (MBulkSwitchResult processed (Z.of_nat (length cmds))) d
  | _ => d
  end.

(** [case WStype_TEXT] of [onWsEvent]. *)
Definition onWsText (payload : option JsonVariant) (d : Device) : Device :=
  match payload with
  | None => d
  | Some doc =>
      let msgType := or_str doc.["type"] "" in
      if String.eqb msgType "identified" then onIdentified doc d
      else if String.eqb msgType "config_update" then onConfigUpdate doc d
      else if String.eqb msgType "state_ack" then d
      else if String.eqb msgType "switch_command" then onSwitchCommand doc d
      else if String.eqb msgType "bulk_switch_command"
           then onBulkSwitchCommand doc d
      else d
  end.

End OnWsText.

(** The supervision block at the head of [loop()]. *)
Definition loop_connectivity (d : Device) : Device :=
  if negb (wifiConnected d) then
    let d := set_connState WIFI_DISCONNECTED d in
    let d := set_isOfflineMode true d in
    let now := millis d in
    if WIFI_RETRY_INTERVAL_MS <=? ulong_sub now (lastWiFiRetry d)
    then set_lastWiFiRetry now d
    else d
  else if negb (wsConnected d) then
    let d := set_connState WIFI_ONLY d in
    let d := set_isOfflineMode true d in
    let now := millis d in
    if negb (identified d)
       && (IDENTIFY_RETRY_MS <=? ulong_sub now (lastIdentifyAttempt d))
    then identify d
    else d
  else
    let d := set_connState BACKEND_CONNECTED d in
    set_isOfflineMode false d.

(** What the WebSocket client does to its own status before it calls the
    handler. *)
Definition ws_status (ev : WsEvent) (d : Device) : Device :=
  match ev with
  | WStype_CONNECTED => set_wsConnected true d
  | WStype_DISCONNECTED => set_wsConnected false d
  | _ => d
  end.

(** ** Factory defaults ([config.h]) *)

Record SwitchConfig := {
  relayPin : Z;
  manualPin : Z;
  cfg_name : string;
  cfg_manualActiveLow : bool
}.

Definition defaultSwitchConfigs : list SwitchConfig := [
  {| relayPin := 4; manualPin := 25; cfg_name := "Fan1"; cfg_manualActiveLow := true |};
  {| relayPin := 16; manualPin := 27; cfg_name := "Fan2"; cfg_manualActiveLow := true |};
  {| relayPin := 17; manualPin := 32; cfg_name := "Light1"; cfg_manualActiveLow := true |};
  {| relayPin := 5; manualPin := 33; cfg_name := "Light2"; cfg_manualActiveLow := true |};
  {| relayPin := 19; manualPin := 12; cfg_name := "Projector"; cfg_manualActiveLow := true |};
  {| relayPin := 18; manualPin := 14; cfg_name := "NComputing"; cfg_manualActiveLow := true |};
  {| relayPin := 21; manualPin := 13; cfg_name := "AC Unit"; cfg_manualActiveLow := true |};
  {| relayPin := 22; manualPin := 15; cfg_name := "Printer"; cfg_manualActiveLow := true |} ].

Definition installDefault (d : Device) (cfg : SwitchConfig) : Device :=
  let d := digitalWrite (relayPin cfg) RELAY_OFF_LEVEL d in
  let lvl := digitalRead (manualPin cfg) d in
  let sw := {|
    gpio := relayPin cfg; state := false; name := cfg_name cfg;
    manualGpio := manualPin cfg; manualEnabled := true;
    manualActiveLow := cfg_manualActiveLow cfg; manualMomentary := false;
    lastManualLevel := lvl; lastManualChangeMs := 0;
    stableManualLevel := lvl;
    lastManualActive :=
      if cfg_manualActiveLow cfg then lvl =? LOW else lvl =? HIGH;
    defaultState := false; manualOverride := false |} in
  set_switchesLocal (switchesLocal d ++ [sw]) d.

Definition setupRelays (d : Device) : Device :=
  let d := loadConfigFromNVS d in
  match switchesLocal d with
  | [] =>
      let d := fold_left installDefault defaultSwitchConfigs d in
      saveConfigToNVS d
  | sws =>
      fold_left (fun d sw => digitalWrite (gpio sw) (relayLevel (state sw)) d)
        sws d
  end.

(** Write [state] and [defaultState] of the first entry whose relay pin
    is [g]; [None] when no entry has it. *)
Fixpoint setSwitch (g : Z) (s : bool) (sws : list SwitchState) :
    option (list SwitchState) :=
  match sws with
  | [] => None
  | sw :: rest =>
      if gpio sw =? g
      then Some (sw_set_defaultState s (sw_set_state s sw) :: rest)
      else option_map (cons sw) (setSwitch g s rest)
  end.

(** ** [improved_esp32.cpp] *)

Module Improved.

Definition applySwitchState (g : Z) (s : bool) (d : Device) : bool * Device :=
  match setSwitch g s (switchesLocal d) with
  | Some sws =>
      let d := set_switchesLocal sws d in
      let d := digitalWrite g (relayLevel s) d in
      let d := Serial_print (LogSwitch g s) d in
      let d := saveConfigToNVS d in
      let d := sendStateUpdate true d in
      (true, d)
  | None => (false, Serial_print (LogSwitchUnknownGpio g) d)
  end.

Definition processCommandQueue (d : Device) : Device :=
  let now := millis d in
  if ulong_sub now (lastCommandProcess d) <? COMMAND_PROCESS_INTERVAL then d
  else
    let d := set_lastCommandProcess now d in
    match xQueueReceive (cmdQueue d) with
    | Some (cmd, q) =>
        let d := set_cmdQueue q d in
        if cmd_valid cmd
        then snd (applySwitchState (cmd_gpio cmd) (cmd_state cmd) d)
        else d
    | None => d
    end.

(** One element of the [switches] array; [None] when it is skipped.  A
    field the loop does not assign keeps the member initialiser of
    [SwitchState sw {}]. *)
Definition parseSwitch (o : JsonVariant) : option SwitchState :=
  let g := relayGpioOf o in
  if g <? 0 then None
  else
    let desiredState :=
      if is_bool o.["state"] then as_bool o.["state"] else false in
    let manual :=
      is_bool o.["manualSwitchEnabled"] && as_bool o.["manualSwitchEnabled"]
      && is_int o.["manualSwitchGpio"] in
    Some {|
      gpio := g;
      state := desiredState;
      name := if is_str o.["name"] then as_str o.["name"] else "";
      manualGpio := if manual then as_int o.["manualSwitchGpio"] else -1;
      manualEnabled := manual;
      manualActiveLow :=
        if manual && is_bool o.["manualActiveLow"]
        then as_bool o.["manualActiveLow"] else true;
      manualMomentary :=
        if manual && is_str o.["manualMode"]
        then String.eqb (as_str o.["manualMode"]) "momentary" else false;
      lastManualLevel := -1;
      lastManualChangeMs := 0;
      stableManualLevel := -1;
      lastManualActive := false;
      defaultState := desiredState;
      manualOverride := false |}.

Definition loadConfigFromJsonArray (arr : list JsonVariant) (d : Device) :
    Device :=
  let d := set_switchesLocal [] d in
  let d :=
    fold_left
      (fun d o => match parseSwitch o with
                  | None => d
                  | Some sw => installSwitch sw d
                  end)
      arr d in
  let d := saveConfigToNVS d in
  sendStateUpdate true d.

Definition onWsEvent (ev : WsEvent) (d : Device) : Device :=
  match ev with
  | WStype_CONNECTED =>
      let d := set_identified false d in
      let d := set_isOfflineMode false d in
      let d := set_connState BACKEND_CONNECTED d in
      let d := digitalWrite STATUS_LED_PIN HIGH d in
      let d := identify d in
      sendStateUpdate true d
  | WStype_TEXT payload => onWsText loadConfigFromJsonArray payload d
  | WStype_DISCONNECTED =>
      let d := set_identified false d in
      let d := set_isOfflineMode true d in
      let d := set_connState WIFI_ONLY d in
      digitalWrite STATUS_LED_PIN LOW d
  | WStype_OTHER => d
  end.

(** [ws.loop()] delivering the events [evs]. *)
Definition ws_loop (evs : list WsEvent) (d : Device) : Device :=
  fold_left (fun d ev => onWsEvent ev (ws_status ev d)) evs d.

Definition loop (evs : list WsEvent) (d : Device) : Device :=
  let d := loop_connectivity d in
  let d := ws_loop evs d in
  let d := processCommandQueue d in
  let d := handleManualSwitches d in
  let d := sendHeartbeat d in
  let d := blinkStatus d in
  let d := if pendingState d then sendStateUpdate true d else d in
  delay 10 d.

End Improved.

(** ** [esp32debugtest.cpp] *)

Module DebugTest.

Definition applySwitchState (g : Z) (s : bool) (d : Device) : bool * Device :=
  match setSwitch g s (switchesLocal d) with
  | Some sws =>
      let d := set_switchesLocal sws d in
      let d := digitalWrite g (relayLevel s) d in
      let d := Serial_print (LogSwitch g s) d in
      let d := set_cfgDirty true d in
      let d := sendStateUpdate true d in
      (true, d)
  | None => (false, Serial_print (LogSwitchUnknownGpio g) d)
  end.

Definition maybeSaveConfig (d : Device) : Device :=
  if negb (cfgDirty d) then d
  else if ulong_sub (millis d) (lastCfgSave d) <? CFG_SAVE_MIN_INTERVAL_MS
  then d
  else
    let d := saveConfigToNVS d in
    let d := set_lastCfgSave (millis d) d in
    set_cfgDirty false d.

(** The [while (maxPerTick-- && xQueueReceive(...) == pdTRUE)] loop. *)
Fixpoint drainQueue (maxPerTick : nat) (d : Device) : Device :=
  match maxPerTick with
  | O => d
  | S n =>
      match xQueueReceive (cmdQueue d) with
      | Some (cmd, q) =>
          let d := set_cmdQueue q d in
          let d := if cmd_valid cmd
                   then snd (applySwitchState (cmd_gpio cmd) (cmd_state cmd) d)
                   else d in
          drainQueue n d
      | None => d
      end
  end.

Definition processCommandQueue (d : Device) : Device :=
  let now := millis d in
  if ulong_sub now (lastCommandProcess d) <? COMMAND_PROCESS_INTERVAL then d
  else
    let d := set_lastCommandProcess now d in
    drainQueue 4 d.

(** One element of the [switches] array; [None] when it is skipped. *)
Definition parseSwitch (obj : JsonVariant) : option SwitchState :=
  let g := or_int obj.["gpio"] (-1) in
  if g <? 0 then None
  else Some {|
    gpio := g;
    state := or_bool obj.["state"] false;
    name := if is_str obj.["name"] then as_str obj.["name"]
            else "Switch " +:+ pretty g;
    manualGpio := or_int obj.["manual_gpio"] (-1);
    manualEnabled := or_bool obj.["manual_en"] false;
    manualActiveLow := or_bool obj.["active_low"] true;
    manualMomentary := or_bool obj.["momentary"] false;
    lastManualLevel := -1;
    lastManualChangeMs := 0;
    stableManualLevel := -1;
    lastManualActive := false;
    defaultState := or_bool obj.["default"] false;
    manualOverride := or_bool obj.["override"] false |}.

Definition loadConfigFromJsonArray (arr : list JsonVariant) (d : Device) :
    Device :=
  let d := set_switchesLocal [] d in
  fold_left
    (fun d obj => match parseSwitch obj with
                  | None => d
                  | Some sw => installSwitch sw d
                  end)
    arr d.

Definition onWsEvent (ev : WsEvent) (d : Device) : Device :=
  match ev with
  | WStype_CONNECTED =>
      let d := set_identified false d in
      let d := set_isOfflineMode false d in
      let d := set_connState BACKEND_CONNECTED d in
      let d := digitalWrite STATUS_LED_PIN HIGH d in
      let d := identify d in
      sendStateUpdate true d
  | WStype_TEXT payload => onWsText loadConfigFromJsonArray payload d
  | WStype_DISCONNECTED =>
      let d := set_identified false d in
      let d := set_isOfflineMode true d in
      let d := set_connState WIFI_ONLY d in
      let d := digitalWrite STATUS_LED_PIN LOW d in
      let d := set_cfgDirty true d in
      maybeSaveConfig d
  | WStype_OTHER => d
  end.

Definition ws_loop (evs : list WsEvent) (d : Device) : Device :=
  fold_left (fun d ev => onWsEvent ev (ws_status ev d)) evs d.

(** The health telemetry at the end of [loop()] only prints. *)
Definition loop (evs : list WsEvent) (d : Device) : Device :=
  let d := loop_connectivity d in
  let d := ws_loop evs d in
  let d := processCommandQueue d in
  let d := handleManualSwitches d in
  let d := sendHeartbeat d in
  let d := blinkStatus d in
  let d := if pendingState d then sendStateUpdate true d else d in
  let d := maybeSaveConfig d in
  delay 10 d.

End DebugTest.

(** ** A device at power-up *)

(** The globals as initialised by the sketch, an empty queue and NVS,
    every input pin idle high (pull-ups), no link. *)
Definition boot : Device := {|
  connState := WIFI_DISCONNECTED;
  lastHeartbeat := 0; lastStateSent := 0; lastCommandProcess := 0;
  lastWiFiRetry := 0; lastIdentifyAttempt := 0;
  pendingState := false; identified := false; isOfflineMode := true;
  cfgDirty := false; lastCfgSave := 0;
  switchesLocal := []; lastSeqs := [];
  cmdQueue := []; prefs := ∅;
  clock := 0; wsConnected := false; wifiConnected := false;
  pinIn := fun _ => HIGH;
  pinOut := ∅; tx := []; serial := []; nvsCommits := [] |}.


(** ** [setup()] *)

(** The loop [while (WiFi.status() != WL_CONNECTED && millis() -
    startAttempt < 10000) delay(500)].  Time passes inside it, so the
    answer of [WiFi.status()] is taken from [wifi], the status of the
    link at every instant; [polls] bounds the number of passes. *)
Fixpoint awaitWiFi (polls : nat) (wifi : Z -> bool) (startAttempt : Z)
    (d : Device) : Device :=
  match polls with
  | O => d
  | S n =>
      if negb (wifi (clock d)) && (ulong_sub (millis d) startAttempt <? 10000)
      then awaitWiFi n wifi startAttempt (delay 500 d)
      else d
  end.

(** [setup()]: the queue is created, the registry is set up, the LED is
    switched off, and the sketch waits for the WiFi link.  The watchdog,
    the serial banner and the calls that start the WiFi and WebSocket
    clients leave no trace in the control core. *)
Definition setup (wifi : Z -> bool) (d : Device) : Device :=
  let d := set_cmdQueue [] d in
  let d := set_isOfflineMode true d in
  let d := set_connState WIFI_DISCONNECTED d in
  let d := setupRelays d in
  let d := digitalWrite STATUS_LED_PIN LOW d in
  let startAttempt := millis d in
  let d := awaitWiFi 21 wifi startAttempt d in
  let d :=
    if wifi (clock d)
    then set_isOfflineMode false (set_connState WIFI_ONLY d)
    else set_isOfflineMode true d in
  let d := set_lastHeartbeat (millis d) d in
  let d := set_lastCommandProcess (millis d) d in
  set_lastWiFiRetry (millis d) d.


(** * Notions used by the statements *)

(** ** Manual inputs *)

(** A sample commits a stable transition when it changes the debounced
    level of the entry. *)
Definition stableTransition (now rawLevel : Z) (sw : SwitchState) : bool :=
  negb (stableManualLevel (fst (manualSwitchStep now rawLevel sw))
        =? stableManualLevel sw).

(** The time stamp the second test of the loop body compares with. *)
Definition windowStart (now rawLevel : Z) (sw : SwitchState) : Z :=
  if rawLevel =? lastManualLevel sw then lastManualChangeMs sw else now.

(** Running the loop body over the samples [(t, rawLevel)] of one input,
    [t] being the true time of the sample: the number of stable
    transitions and the final entry. *)
Fixpoint sampleRun (samples : list (Z * Z)) (sw : SwitchState) :
    nat * SwitchState :=
  match samples with
  | [] => (O, sw)
  | (t, rawLevel) :: rest =>
      let now := t mod ULONG_MOD in
      let '(n, sw') :=
        sampleRun rest (fst (manualSwitchStep now rawLevel sw)) in
      ((if stableTransition now rawLevel sw then S n else n), sw')
  end.

(** A burst: time does not run backwards, and every flip of the raw level
    after the flip at [lastFlip] arrives less than the debounce window
    after the flip before it.  [lvl] is the level of the previous
    sample. *)
Fixpoint burst (lastFlip : option Z) (prev lvl : Z) (samples : list (Z * Z)) :
    Prop :=
  match samples with
  | [] => True
  | (t, rawLevel) :: rest =>
      prev <= t /\
      if rawLevel =? lvl then burst lastFlip t lvl rest
      else
        match lastFlip with
        | Some c => t - c < MANUAL_DEBOUNCE_MS
        | None => True
        end /\ burst (Some t) t rawLevel rest
  end.

(** A maintained, active-low wall switch resting high. *)
Definition wallSwitch : SwitchState := {|
  gpio := 4; state := false; name := "Fan1";
  manualGpio := 25; manualEnabled := true; manualActiveLow := true;
  manualMomentary := false; lastManualLevel := 1; lastManualChangeMs := 0;
  stableManualLevel := 1; lastManualActive := false;
  defaultState := false; manualOverride := false |}.

(** A contact that bounces three times within 20 and then rests low. *)
Definition bounce : list (Z * Z) :=
  [(1000, 0); (1010, 1); (1020, 0); (1030, 0); (1060, 0); (1070, 0)].

(** Two deliberate operations of the switch, each held for 40. *)
Definition onThenOff : list (Z * Z) :=
  [(1000, 0); (1040, 0); (1100, 1); (1140, 1)].

(** [wallSwitch] 40 after its contact went low. *)
Definition wallSwitchPressed : SwitchState :=
  sw_set_lastManualChangeMs 1020 (sw_set_lastManualLevel 0 wallSwitch).

(** The loop body as [handleManualSwitches] runs it on one entry: an
    entry without an enabled manual input is skipped, and the level is
    the one [digitalRead] finds on the input pin, [pins] being the
    levels of the pins. *)
Definition manualStepOf (now : Z) (pins : Z -> Z) (sw : SwitchState) :
    SwitchState * option (Z * bool) :=
  if negb (manualEnabled sw) || (manualGpio sw <? 0) then (sw, None)
  else manualSwitchStep now (pins (uint8 (manualGpio sw))) sw.

(** The commands one pass over the registry generates, in order. *)
Definition manualCommands (now : Z) (pins : Z -> Z) (sws : list SwitchState) :
    list (Z * bool) :=
  flat_map
    (fun sw => match snd (manualStepOf now pins sw) with
               | Some c => [c]
               | None => []
               end)
    sws.

(** The commands the samples of one input generate, in order. *)
Fixpoint sampleCommands (samples : list (Z * Z)) (sw : SwitchState) :
    list (Z * bool) :=
  match samples with
  | [] => []
  | (t, rawLevel) :: rest =>
      let r := manualSwitchStep (t mod ULONG_MOD) rawLevel sw in
      match snd r with
      | Some c => c :: sampleCommands rest (fst r)
      | None => sampleCommands rest (fst r)
      end
  end.

(** A momentary, active-low push button resting high; its channel is on. *)
Definition pushButton : SwitchState := {|
  gpio := 16; state := true; name := "Fan2";
  manualGpio := 27; manualEnabled := true; manualActiveLow := true;
  manualMomentary := true; lastManualLevel := 1; lastManualChangeMs := 0;
  stableManualLevel := 1; lastManualActive := false;
  defaultState := true; manualOverride := false |}.

(** The button is pressed at 1000 and released at 1200. *)
Definition pressAndRelease : list (Z * Z) :=
  [(1000, 0); (1010, 0); (1030, 0); (1040, 0);
   (1200, 1); (1210, 1); (1230, 1); (1240, 1)].

(** A momentary push button wired active high, resting low, whose
    contact went high at 1020; its channel is on. *)
Definition pushButtonHigh : SwitchState := {|
  gpio := 17; state := true; name := "Light1";
  manualGpio := 32; manualEnabled := true; manualActiveLow := false;
  manualMomentary := true; lastManualLevel := 1; lastManualChangeMs := 1020;
  stableManualLevel := 0; lastManualActive := false;
  defaultState := true; manualOverride := false |}.

(** The passes of [handleManualSwitches] over a device: the pass at true
    time [t] finds the input pins at the levels [pins].  The result is
    the number of passes that changed the stable level of the registry
    entry at index [i], and the device after the last pass. *)
Fixpoint manualPasses (i : nat) (passes : list (Z * (Z -> Z))) (d : Device) :
    nat * Device :=
  match passes with
  | [] => (O, d)
  | (t, pins) :: rest =>
      let d0 := set_pinIn pins (set_clock t d) in
      let d1 := handleManualSwitches d0 in
      let changed :=
        match switchesLocal d0 !! i, switchesLocal d1 !! i with
        | Some old, Some new =>
            negb (stableManualLevel new =? stableManualLevel old)
        | _, _ => false
        end in
      let '(n, d') := manualPasses i rest d1 in
      ((if changed then S n else n), d')
  end.

(** What the passes show of the input of the entry [sw]: the level
    [digitalRead] finds on its pin at each pass. *)
Definition samplesAt (sw : SwitchState) (passes : list (Z * (Z -> Z))) :
    list (Z * Z) :=
  map (fun p => (fst p, snd p (uint8 (manualGpio sw)))) passes.

(** The input pins while a contact on pin [pin] follows [samples]: pin
    [pin] carries the level of the sample, every other pin rests high. *)
Definition contactOn (pin : Z) (samples : list (Z * Z)) :
    list (Z * (Z -> Z)) :=
  map (fun s => (fst s, fun p => if p =? pin then snd s else HIGH)) samples.

(** A device with [wallSwitchPressed] first and [pushButtonHigh] second
    in its registry, at time 1060, with both contacts closed: pin 25 low
    and pin 32 high. *)
Definition pressedDevice : Device :=
  set_clock 1060
    (set_pinIn (fun p => if p =? 25 then LOW else HIGH)
       (set_switchesLocal [wallSwitchPressed; pushButtonHigh] boot)).

(** A device with [wallSwitch] alone in its registry. *)
Definition wallSwitchDevice : Device := set_switchesLocal [wallSwitch] boot.

(** ** Command pipeline *)

Definition enqueueAll (cs : list (Z * bool)) (d : Device) : Device :=
  fold_left (fun d c => queueSwitchCommand (fst c) (snd c) d) cs d.

(** The drain step fires at this instant. *)
Definition processDue (d : Device) : bool :=
  COMMAND_PROCESS_INTERVAL <=? ulong_sub (millis d) (lastCommandProcess d).

(** [n] drain ticks, one every COMMAND_PROCESS_INTERVAL. *)
Fixpoint drain (process : Device -> Device) (n : nat) (d : Device) : Device :=
  match n with
  | O => d
  | S n => drain process n (delay 100 (process d))
  end.

(** What applying a command does to the registry, and the line it
    prints. *)
Definition applyToRegistry (sws : list SwitchState) (c : Z * bool) :
    list SwitchState :=
  match setSwitch (fst c) (snd c) sws with
  | Some sws' => sws'
  | None => sws
  end.

Definition reportOf (sws : list SwitchState) (c : Z * bool) : SerialLine :=
  match setSwitch (fst c) (snd c) sws with
  | Some _ => LogSwitch (fst c) (snd c)
  | None => LogSwitchUnknownGpio (fst c)
  end.

(** The lines commands print when applied one after the other. *)
Fixpoint applyTrace (sws : list SwitchState) (cs : list (Z * bool)) :
    list SerialLine :=
  match cs with
  | [] => []
  | c :: rest => reportOf sws c :: applyTrace (applyToRegistry sws c) rest
  end.

Definition isApplyLine (l : SerialLine) : bool :=
  match l with
  | LogSwitch _ _ | LogSwitchUnknownGpio _ => true
  | _ => false
  end.

(** The applications a log records, in order. *)
Definition applied (log : list SerialLine) : list SerialLine :=
  List.filter isApplyLine log.

Definition isDropLine (l : SerialLine) : bool :=
  match l with LogCmdQueueFull => true | _ => false end.

(** The drops a log reports. *)
Definition dropsReported (log : list SerialLine) : nat :=
  length (List.filter isDropLine log).

Definition commandOf (cmd : Command) : Z * bool := (cmd_gpio cmd, cmd_state cmd).

(** The queue entry [queueSwitchCommand] builds at time [t]. *)
Definition queued (t : Z) (c : Z * bool) : Command :=
  {| cmd_gpio := fst c; cmd_state := snd c; cmd_valid := true;
     cmd_timestamp := t |}.

Definition allValid (q : list Command) : Prop :=
  Forall (fun cmd => cmd_valid cmd = true) q.

(** Twenty commands over four channels. *)
Definition twentyCommands : list (Z * bool) :=
  flat_map (fun s => [(4, s); (16, s); (17, s); (5, s)])
    [true; false; true; false; true].

(** A device with the factory registry, 100 after its last drain tick. *)
Definition factoryDevice : Device :=
  set_lastCommandProcess 0 (delay 100 (setupRelays boot)).

(** [d2] is what is left when exactly the commands [cs] have been applied
    to the registry of [d], in that order, and the queue is empty. *)
Definition appliedInOrder (d : Device) (cs : list (Z * bool)) (d2 : Device) :
    Prop :=
  cmdQueue d2 = []
  /\ applied (serial d2) = applied (serial d) ++ applyTrace (switchesLocal d) cs
  /\ switchesLocal d2 = fold_left applyToRegistry cs (switchesLocal d).

(** ** The NVS snapshot *)

(** The prefixes under which [saveConfigToNVS] stores a switch. *)
Definition nvsFieldNames : list string :=
  ["gpio"; "state"; "default"; "manual_en"; "manual_gpio"; "active_low";
   "momentary"; "name"; "override"].

(** What an entry looks like when it has just been read back: the
    debounce tracker holds the member initialisers. *)
Definition persistent (sw : SwitchState) : SwitchState := {|
  gpio := gpio sw; state := state sw; name := name sw;
  manualGpio := manualGpio sw; manualEnabled := manualEnabled sw;
  manualActiveLow := manualActiveLow sw;
  manualMomentary := manualMomentary sw;
  lastManualLevel := -1; lastManualChangeMs := 0;
  stableManualLevel := -1; lastManualActive := false;
  defaultState := defaultState sw; manualOverride := manualOverride sw |}.

(** The configuration and state of a channel that the snapshot is meant
    to carry: id, logical and default state, name, override flag and
    manual configuration. *)
Definition channelConfig (sw : SwitchState) :
    Z * bool * bool * string * bool * (bool * Z * bool * bool) :=
  (gpio sw, state sw, defaultState sw, name sw, manualOverride sw,
   (manualEnabled sw, manualGpio sw, manualActiveLow sw, manualMomentary sw)).

(** Body of the [for] loop of [loadConfigFromNVS]. *)
Definition loadBody (d : Device) (i : nat) : Device :=
  match readSwitchFromNVS (prefs d) i with
  | None => d
  | Some sw => installSwitch sw d
  end.

(** Every relay pin of the registry is a valid pin number. *)
Definition validRegistry (sws : list SwitchState) : Prop :=
  Forall (fun sw => 0 <= gpio sw) sws.

(** A power cycle: the globals start afresh, the NVS keeps its content. *)
Definition powerCycle (d : Device) : Device := set_prefs (prefs d) boot.

Definition switchSpec (g : Z) : JsonVariant :=
  JObject [("gpio", JInt g); ("state", JBool true); ("name", JStr "relay")].

(** An [identified] message that configures nine channels. *)
Definition identifiedNine : JsonVariant :=
  JObject [("type", JStr "identified"); ("mode", JStr "normal");
           ("switches",
            JArray (map switchSpec [4; 16; 17; 5; 19; 18; 21; 22; 23]))].

(** The device after that message. *)
Definition nineChannels : Device :=
  Improved.onWsEvent (WStype_TEXT (Some identifiedNine)) boot.

(** ** The session guard *)

(** The session is established once the socket is up and the backend has
    answered [identify] with [identified]. *)
Definition sessionEstablished (d : Device) : bool :=
  match connState d with
  | BACKEND_CONNECTED => identified d
  | _ => false
  end.

(** A device whose socket connected 30 s ago and whose backend has not
    answered yet. *)
Definition awaitingIdentified : Device :=
  delay 30000 (Improved.ws_loop [WStype_CONNECTED] (set_wifiConnected true boot)).

(** [f] transmits nothing, and leaves the socket down, when the socket is
    down. *)
Definition quiet (f : Device -> Device) : Prop :=
  forall d : Device,
    wsConnected d = false ->
    wsConnected (f d) = false /\ tx (f d) = tx d.

(** ** Broadcasts *)

(** An [identified] message that configures one channel, relay pin 4. *)
Definition identifiedOne : JsonVariant :=
  JObject [("type", JStr "identified");
           ("switches",
            JArray [JObject [("gpio", JInt 4); ("state", JBool false)]])].

(** A device in session: socket connected, [identified] received. *)
Definition sessionDevice : Device :=
  Improved.ws_loop [WStype_CONNECTED; WStype_TEXT (Some identifiedOne)]
    (set_wifiConnected true boot).

(** The [state_update] a device would send now. *)
Definition stateUpdateOf (d : Device) : Msg :=
  MStateUpdate (to_long (millis d)) (to_long (millis d))
    (map stateUpdateEntry (switchesLocal d)).

(** The tail of [loop()] that flushes a pending broadcast. *)
Definition flushPending (d : Device) : Device :=
  if pendingState d then sendStateUpdate true d else d.

(** The registry of [sessionDevice] with channel 4 switched on. *)
Definition channel4On : list SwitchState :=
  [ sw_set_defaultState true (sw_set_state true
      {| gpio := 4; state := false; name := "";
         manualGpio := -1; manualEnabled := false; manualActiveLow := true;
         manualMomentary := false; lastManualLevel := -1;
         lastManualChangeMs := 0; stableManualLevel := -1;
         lastManualActive := false; defaultState := false;
         manualOverride := false |}) ].

(** ** Frames *)

(** [f] leaves the observation [obs] of the device as it was. *)
Definition keeps {A : Type} (obs : Device -> A) (f : Device -> Device) : Prop :=
  forall d : Device, obs (f d) = obs d.

(** ** The sequence tracker *)

Definition is_array (v : JsonVariant) : bool :=
  match v with JArray _ => true | _ => false end.

(** The events that empty [lastSeqs]: an [identified] message, and a
    [config_update] message that carries a [switches] array. *)
Definition clearsTracker (ev : WsEvent) : bool :=
  match ev with
  | WStype_TEXT (Some doc) =>
      let msgType := or_str doc.["type"] "" in
      String.eqb msgType "identified"
      || (String.eqb msgType "config_update" && is_array doc.["switches"])
  | _ => false
  end.

Definition switchCommand (g : Z) (s : bool) (seq : Z) : JsonVariant :=
  JObject [("type", JStr "switch_command"); ("gpio", JInt g);
           ("state", JBool s); ("seq", JInt seq)].

(** [sessionDevice] with sequence 10 on record for channel 4. *)
Definition trackedDevice : Device := setLastSeq 4 10 sessionDevice.

(** A [config_update] that keeps the one channel. *)
Definition configUpdateOne : JsonVariant :=
  JObject [("type", JStr "config_update");
           ("switches",
            JArray [JObject [("gpio", JInt 4); ("state", JBool false)]])].

(** ** Pacing of NVS saves *)

(** Save times, newest first, any two neighbours at least
    CFG_SAVE_MIN_INTERVAL_MS apart. *)
Fixpoint spaced (l : list Z) : Prop :=
  match l with
  | t2 :: rest =>
      match rest with
      | t1 :: _ => CFG_SAVE_MIN_INTERVAL_MS <= t2 - t1
      | [] => True
      end /\ spaced rest
  | [] => True
  end.

(** What can happen to a running device: time passes, the surroundings
    change (socket and WiFi status, input levels), or [loop()] makes a
    pass during which the socket library delivers [evs]. *)
Inductive Action :=
| Wait (ms : N)
| Surroundings (ws wifi : bool) (pins : Z -> Z)
| Pass (evs : list WsEvent).

Definition surroundings (ws wifi : bool) (pins : Z -> Z) (d : Device) : Device :=
  set_pinIn pins (set_wifiConnected wifi (set_wsConnected ws d)).

Definition runWith (loop : list WsEvent -> Device -> Device)
    (acts : list Action) (d : Device) : Device :=
  fold_left
    (fun d a => match a with
                | Wait ms => delay ms d
                | Surroundings ws wifi pins => surroundings ws wifi pins d
                | Pass evs => loop evs d
                end)
    acts d.

(** The saves made since the log read [base] are spaced, and the sketch
    remembers the time of the last of them. *)
Definition paced (base : list Z) (d : Device) : Prop :=
  exists new : list Z,
    nvsCommits d = new ++ base
    /\ spaced new
    /\ match new with
       | t :: _ => lastCfgSave d = t mod ULONG_MOD /\ t <= clock d
       | [] => True
       end.

(** What the pacing argument observes of a device. *)
Definition saveLog (d : Device) : list Z * Z * Z :=
  (nvsCommits d, lastCfgSave d, clock d).

(** Two commands for channel 4 that arrive 100 apart, and the passes of
    [loop()] that drain them. *)
Definition twoToggles : list Action :=
  [ Pass [WStype_TEXT (Some (switchCommand 4 true 1))]; Wait 90;
    Pass [WStype_TEXT (Some (switchCommand 4 false 2))]; Wait 90;
    Pass [] ].

(** * Notions used by the further properties *)
(** ** The sequence tracker *)

(** The pin has an entry in the tracker. *)
Definition tracked (g : Z) (l : list GpioSeq) : bool :=
  existsb (fun p => gs_gpio p =? g) l.

(** ** Applying a command *)

(** What [applySwitchState] writes into the entry it finds. *)
Definition switched (s : bool) (sw : SwitchState) : SwitchState :=
  sw_set_defaultState s (sw_set_state s sw).

(** ** Bulk commands *)

(** The arguments of the [queueSwitchCommand] call the bulk loop makes
    for one element of [commands]; [None] when the element is rejected. *)
Definition bulkCommand (cmd : JsonVariant) : option (Z * bool) :=
  let g := relayGpioOf cmd in
  if 0 <=? g
  then Some (g, if is_bool cmd.["state"] then as_bool cmd.["state"] else false)
  else None.

(** A [bulk_switch_command] with five entries, two of them without a
    usable pin. *)
Definition bulkFive : JsonVariant :=
  JObject [("type", JStr "bulk_switch_command");
           ("commands",
            JArray [ JObject [("gpio", JInt 4); ("state", JBool true)];
                     JObject [("state", JBool true)];
                     JObject [("relayGpio", JInt 16); ("state", JBool false)];
                     JStr "17";
                     JObject [("gpio", JInt 5)] ])].

(** A [switch_command] that names no pin. *)
Definition commandWithoutPin : JsonVariant :=
  JObject [("type", JStr "switch_command"); ("state", JBool true)].

(** The one channel of [sessionDevice]. *)
Definition channel4 : SwitchState := {|
  gpio := 4; state := false; name := "";
  manualGpio := -1; manualEnabled := false; manualActiveLow := true;
  manualMomentary := false; lastManualLevel := -1;
  lastManualChangeMs := 0; stableManualLevel := -1;
  lastManualActive := false; defaultState := false;
  manualOverride := false |}.

(** ** Traffic *)

Definition isIdentify (m : Msg) : bool :=
  match m with MIdentify => true | _ => false end.

(** The [identify] frames among the frames sent so far. *)
Definition identifiesSent (d : Device) : list Msg :=
  List.filter isIdentify (tx d).

Definition isConnect (ev : WsEvent) : bool :=
  match ev with WStype_CONNECTED => true | _ => false end.

(** The number of [WStype_CONNECTED] events among [evs]. *)
Definition connects (evs : list WsEvent) : nat :=
  length (List.filter isConnect evs).

(** ** Link supervision *)

(** What the supervision block at the head of [loop()] makes of the
    link status. *)
Definition linkState (d : Device) : ConnState :=
  if negb (wifiConnected d) then WIFI_DISCONNECTED
  else if negb (wsConnected d) then WIFI_ONLY
  else BACKEND_CONNECTED.

(** What the handler makes of a socket event. *)
Definition linkAfterEvent (c : ConnState) (ev : WsEvent) : ConnState :=
  match ev with
  | WStype_CONNECTED => BACKEND_CONNECTED
  | WStype_DISCONNECTED => WIFI_ONLY
  | _ => c
  end.

(** The level [blinkStatus] gives the status LED. *)
Definition blinkLevel (c : ConnState) (now : Z) : Z :=
  let pattern :=
    match c with
    | WIFI_DISCONNECTED => now mod 500 <? 250
    | WIFI_ONLY => now mod 1000 <? 500
    | BACKEND_CONNECTED => now mod 2000 <? 1000
    end in
  if pattern then HIGH else LOW.

(** ** Factory defaults *)

(** The configuration [setupRelays] gives the channel of a
    [defaultSwitchConfigs] entry: off, manual input enabled,
    maintained. *)
Definition factoryConfig (cfg : SwitchConfig) :
    Z * bool * bool * string * bool * (bool * Z * bool * bool) :=
  (relayPin cfg, false, false, cfg_name cfg, false,
   (true, manualPin cfg, cfg_manualActiveLow cfg, false)).

(** No usable snapshot: [count] is missing, not a number, zero, negative
    or above MAX_SWITCHES. *)
Definition noSnapshot (p : gmap string NvsValue) : bool :=
  (getInt "count" 0 p <=? 0) || (Z.of_nat MAX_SWITCHES <? getInt "count" 0 p).

(** An NVS whose [count] claims three channels but holds none of their
    keys. *)
Definition brokenSnapshot : gmap string NvsValue :=
  {[ "count" := NvsInt 3 ]}.

(** ** Manual inputs and the registry *)

(** What a channel is and does, apart from the debounce tracker and the
    override flag. *)
Definition channelCore (sw : SwitchState) :
    Z * bool * bool * string * (bool * Z * bool * bool) :=
  (gpio sw, state sw, defaultState sw, name sw,
   (manualEnabled sw, manualGpio sw, manualActiveLow sw, manualMomentary sw)).

(** The override flag is raised or left alone. *)
Definition overrideKept (old new : SwitchState) : Prop :=
  manualOverride old = true -> manualOverride new = true.

(** The debounce tracker of an enabled manual input agrees with the
    level its pin carries. *)
Definition settledInput (pins : Z -> Z) (sw : SwitchState) : Prop :=
  negb (manualEnabled sw) || (manualGpio sw <? 0) = false ->
  lastManualLevel sw = pins (uint8 (manualGpio sw))
  /\ stableManualLevel sw = pins (uint8 (manualGpio sw)).

Definition settled (d : Device) : Prop :=
  Forall (settledInput (pinIn d)) (switchesLocal d).

(** An [identified] message with a maintained wall switch on pin 25
    for the relay on pin 4. *)
Definition identifiedWithSwitch : list JsonVariant :=
  [ JObject [("relayGpio", JInt 4); ("state", JBool false);
             ("manualSwitchEnabled", JBool true);
             ("manualSwitchGpio", JInt 25);
             ("manualMode", JStr "maintained")] ].

(** Every input pin reads low: every active-low switch is closed. *)
Definition allSwitchesClosed (d : Device) : Device :=
  set_pinIn (fun _ => LOW) d.

(** ** Timers *)

(** A device whose clock stands just before the wrap of [millis()], with
    the socket up and the last heartbeat sent 29 s ago. *)
Definition nearWrap : Device :=
  set_lastHeartbeat (2 ^ 32 - 29001)
    (set_wsConnected true (set_clock (2 ^ 32 - 1) boot)).

(** ** Invariants *)

(** [f] keeps the invariant [P]. *)
Definition preserves (P : Device -> Prop) (f : Device -> Device) : Prop :=
  forall d : Device, P d -> P (f d).

(** What the relay of a channel depends on. *)
Definition relayView (sw : SwitchState) : Z * bool := (gpio sw, state sw).

(** The queue is within its capacity and holds valid commands only. *)
Definition queueOk (d : Device) : Prop :=
  (length (cmdQueue d) <= MAX_COMMAND_QUEUE)%nat /\ allValid (cmdQueue d).

(** No debounced broadcast is waiting. *)
Definition nothingPending (d : Device) : Prop := pendingState d = false.

(** The pin [digitalWrite] drives for a channel. *)
Definition outputPin (sw : SwitchState) : Z := uint8 (gpio sw).

(** Every relay pin of the registry, the pin of the status LED apart,
    carries the relay level of the state of a channel on that pin (of
    the channel itself when no two channels share a pin). *)
Definition relaysFollow (d : Device) : Prop :=
  forall sw : SwitchState,
    In sw (switchesLocal d) -> outputPin sw <> STATUS_LED_PIN ->
    exists sw' : SwitchState,
      In sw' (switchesLocal d) /\ outputPin sw' = outputPin sw
      /\ pinOut d !! outputPin sw = Some (relayLevel (state sw')).

(** No two channels drive one pin, none drives the pin of the status
    LED. *)
Definition distinctPins (sws : list SwitchState) : Prop :=
  List.NoDup (map outputPin sws) /\ ~ In STATUS_LED_PIN (map outputPin sws).

(** Every channel's relay pin carries the level of its own state. *)
Definition relaysAgree (d : Device) : Prop :=
  Forall (fun sw => pinOut d !! outputPin sw = Some (relayLevel (state sw)))
    (switchesLocal d).

(** A configuration with channels on 4 and on 260, both off. *)
Definition aliasedChannels : list JsonVariant :=
  [ JObject [("relayGpio", JInt 4); ("state", JBool false)];
    JObject [("relayGpio", JInt 260); ("state", JBool false)] ].

Definition registryValid (d : Device) : Prop :=
  validRegistry (switchesLocal d).

(** A day in the life of the factory device: the socket connects, the
    backend identifies the device with one channel, commands and a bulk
    command arrive, a wall switch is closed, the socket drops. *)
Definition busyDay : list Action :=
  [ Surroundings true true (fun _ => HIGH);
    Pass [WStype_CONNECTED; WStype_TEXT (Some identifiedOne)];
    Wait 90;
    Pass [WStype_TEXT (Some (switchCommand 4 true 1));
          WStype_TEXT (Some bulkFive)];
    Wait 90;
    Pass [];
    Surroundings true true (fun _ => LOW);
    Wait 40;
    Pass [WStype_TEXT (Some commandWithoutPin)];
    Wait 90;
    Pass [WStype_DISCONNECTED];
    Surroundings false true (fun _ => LOW);
    Wait 90; Pass []; Wait 90; Pass []; Wait 90; Pass [] ].

(** ** Start-up *)

(** The condition of that loop. *)
Definition stillWaiting (wifi : Z -> bool) (startAttempt : Z) (d : Device) :
    bool :=
  negb (wifi (clock d)) && (ulong_sub (millis d) startAttempt <? 10000).

(** A link that comes up 1.2 s after power-up. *)
Definition wifiAfter1200 (t : Z) : bool := 1200 <=? t.


(** * Properties *)

(** ** Time stamps *)

Lemma ulong_sub_millis (t c : Z) :
  ulong_sub (t mod ULONG_MOD) (c mod ULONG_MOD) = (t - c) mod ULONG_MOD.
Proof. unfold ulong_sub. symmetry. apply Zminus_mod. Qed.

Lemma ulong_sub_le (t c : Z) :
  c <= t -> ulong_sub (t mod ULONG_MOD) (c mod ULONG_MOD) <= t - c.
Proof.
  intros H. rewrite ulong_sub_millis. apply Z.mod_le; [lia | reflexivity].
Qed.

Lemma ulong_sub_self (a : Z) : ulong_sub a a = 0.
Proof. unfold ulong_sub. now rewrite Z.sub_diag. Qed.

(** ** Pin levels *)

Lemma uint8_relayLevel (s : bool) : uint8 (relayLevel s) = relayLevel s.
Proof. now destruct s. Qed.

Lemma digitalWrite_relay (pin : Z) (s : bool) (d : Device) :
  digitalWrite pin (relayLevel s) d
  = set_pinOut (<[uint8 pin := relayLevel s]> (pinOut d)) d.
Proof. unfold digitalWrite. now rewrite uint8_relayLevel. Qed.

(** ** Manual inputs: debounce *)

Lemma stableTransition_spec (now rawLevel : Z) (sw : SwitchState) :
  stableTransition now rawLevel sw =
  negb (rawLevel =? stableManualLevel sw)
  && (MANUAL_DEBOUNCE_MS <=? ulong_sub now (windowStart now rawLevel sw)).
Proof.
  unfold stableTransition, manualSwitchStep, windowStart.
  destruct (rawLevel =? lastManualLevel sw) eqn:El; simpl;
    destruct (rawLevel =? stableManualLevel sw) eqn:Es; simpl.
  - now rewrite Z.eqb_refl.
  - destruct (MANUAL_DEBOUNCE_MS <=? _); simpl.
    + repeat match goal with |- context [if ?c then _ else _] => destruct c end;
        simpl; now rewrite Es.
    + now rewrite Z.eqb_refl.
  - now rewrite Z.eqb_refl.
  - destruct (MANUAL_DEBOUNCE_MS <=? _); simpl.
    + repeat match goal with |- context [if ?c then _ else _] => destruct c end;
        simpl; now rewrite Es.
    + now rewrite Z.eqb_refl.
Qed.

Lemma manualSwitchStep_tracker (now rawLevel : Z) (sw : SwitchState) :
  let sw' := fst (manualSwitchStep now rawLevel sw) in
  lastManualLevel sw' = rawLevel
  /\ lastManualChangeMs sw' = windowStart now rawLevel sw
  /\ stableManualLevel sw' =
       (if stableTransition now rawLevel sw then rawLevel
        else stableManualLevel sw).
Proof.
  rewrite stableTransition_spec.
  unfold manualSwitchStep, windowStart.
  destruct (rawLevel =? lastManualLevel sw) eqn:El; simpl;
    destruct (negb (rawLevel =? stableManualLevel sw)
              && (MANUAL_DEBOUNCE_MS <=? _)); simpl;
    repeat match goal with |- context [if ?c then _ else _] => destruct c end;
    simpl; repeat split; try reflexivity;
    apply Z.eqb_eq in El; congruence.
Qed.

Section Debounce.

(** Once the window of the last flip has closed on a level that is the
    stable one, the burst is over and nothing more is committed. *)
Lemma sampleRun_settled (samples : list (Z * Z)) :
  forall (c prev lvl : Z) (sw : SwitchState),
    burst (Some c) prev lvl samples ->
    c + MANUAL_DEBOUNCE_MS <= prev ->
    lastManualLevel sw = lvl ->
    stableManualLevel sw = lvl ->
    fst (sampleRun samples sw) = O.
Proof.
  induction samples as [|[t raw] rest IH]; intros c prev lvl sw Hb Hc Hl Hs;
    [reflexivity|].
  simpl in Hb. destruct Hb as [Hle Hb]. simpl.
  destruct (raw =? lvl) eqn:E.
  - apply Z.eqb_eq in E. subst raw.
    pose proof (manualSwitchStep_tracker (t mod ULONG_MOD) lvl sw) as (T1 & _ & T3).
    assert (Hst : stableTransition (t mod ULONG_MOD) lvl sw = false).
    { rewrite stableTransition_spec, Hs, Z.eqb_refl. reflexivity. }
    rewrite Hst in *.
    specialize (IH c t lvl _ Hb ltac:(lia) T1 ltac:(congruence)).
    destruct (sampleRun rest _) as [n sw']. simpl in *. exact IH.
  - destruct Hb as [Hlt _]. lia.
Qed.

(** After a flip at [c] that has not been committed, at most one
    transition follows. *)
Lemma sampleRun_in_burst (samples : list (Z * Z)) :
  forall (c prev lvl : Z) (sw : SwitchState),
    burst (Some c) prev lvl samples ->
    c <= prev ->
    lastManualLevel sw = lvl ->
    lastManualChangeMs sw = c mod ULONG_MOD ->
    (fst (sampleRun samples sw) <= 1)%nat.
Proof.
  induction samples as [|[t raw] rest IH]; intros c prev lvl sw Hb Hc Hl Hm;
    [simpl; lia|].
  simpl in Hb. destruct Hb as [Hle Hb]. simpl.
  pose proof (manualSwitchStep_tracker (t mod ULONG_MOD) raw sw) as (T1 & T2 & T3).
  pose proof (stableTransition_spec (t mod ULONG_MOD) raw sw) as S.
  unfold windowStart in T2, S. rewrite Hl in T2, S.
  destruct (raw =? lvl) eqn:E.
  - apply Z.eqb_eq in E. subst raw. rewrite Hm in T2, S.
    destruct (stableTransition (t mod ULONG_MOD) lvl sw) eqn:Hst.
    + (* committed: the window of the flip at [c] has closed *)
      symmetry in S. apply andb_true_iff in S as [_ S].
      apply Z.leb_le in S.
      pose proof (ulong_sub_le t c ltac:(lia)).
      pose proof (sampleRun_settled rest c t lvl _ Hb ltac:(lia) T1 T3) as H0.
      destruct (sampleRun rest _) as [n sw']. simpl in *. lia.
    + specialize (IH c t lvl _ Hb ltac:(lia) T1 ltac:(congruence)).
      destruct (sampleRun rest _) as [n sw']. simpl in *. exact IH.
  - destruct Hb as [Hlt Hb].
    assert (Hst : stableTransition (t mod ULONG_MOD) raw sw = false).
    { rewrite S, ulong_sub_self. apply andb_false_r. }
    rewrite Hst in *.
    specialize (IH t t raw _ Hb ltac:(lia) T1 T2).
    destruct (sampleRun rest _) as [n sw']. simpl in *. exact IH.
Qed.

(** Before the first flip a settled input commits nothing. *)
Lemma sampleRun_before_burst (samples : list (Z * Z)) :
  forall (prev lvl : Z) (sw : SwitchState),
    burst None prev lvl samples ->
    lastManualLevel sw = lvl ->
    stableManualLevel sw = lvl ->
    (fst (sampleRun samples sw) <= 1)%nat.
Proof.
  induction samples as [|[t raw] rest IH]; intros prev lvl sw Hb Hl Hs;
    [simpl; lia|].
  simpl in Hb. destruct Hb as [Hle Hb]. simpl.
  pose proof (manualSwitchStep_tracker (t mod ULONG_MOD) raw sw) as (T1 & T2 & T3).
  pose proof (stableTransition_spec (t mod ULONG_MOD) raw sw) as S.
  unfold windowStart in T2, S. rewrite Hl in T2, S.
  destruct (raw =? lvl) eqn:E.
  - apply Z.eqb_eq in E. subst raw.
    assert (Hst : stableTransition (t mod ULONG_MOD) lvl sw = false).
    { rewrite S, Hs, Z.eqb_refl. reflexivity. }
    rewrite Hst in *.
    specialize (IH t lvl _ Hb T1 ltac:(congruence)).
    destruct (sampleRun rest _) as [n sw']. simpl in *. exact IH.
  - destruct Hb as [_ Hb].
    assert (Hst : stableTransition (t mod ULONG_MOD) raw sw = false).
    { rewrite S, ulong_sub_self. apply andb_false_r. }
    rewrite Hst in *.
    pose proof (sampleRun_in_burst rest t t raw _ Hb ltac:(lia) T1 T2) as H0.
    destruct (sampleRun rest _) as [n sw']. simpl in *. exact H0.
Qed.

End Debounce.

(** The bounce above does commit its one transition, at the sample taken
    30 after the last flip. *)
Example bounce_commits_once : fst (sampleRun bounce wallSwitch) = 1%nat.
Proof. reflexivity. Qed.

(** Levels that are each held for the window are no burst, and each is
    committed. *)
Example held_levels_commit_each_time :
  fst (sampleRun onThenOff wallSwitch) = 2%nat
  /\ ~ burst None 0 (lastManualLevel wallSwitch) onThenOff.
Proof. split; [reflexivity|]. vm_compute. intuition discriminate. Qed.

(** ** Manual inputs: the command of a stable transition *)

Lemma manualSwitchStep_idle (now rawLevel : Z) (sw : SwitchState) :
  stableTransition now rawLevel sw = false ->
  snd (manualSwitchStep now rawLevel sw) = None
  /\ manualOverride (fst (manualSwitchStep now rawLevel sw)) = manualOverride sw.
Proof.
  rewrite stableTransition_spec. unfold manualSwitchStep, windowStart.
  destruct (rawLevel =? lastManualLevel sw); simpl; intros ->; simpl; auto.
Qed.

(** ** Frame facts of the shared functions *)

Ltac case_if :=
  match goal with
  | |- context [if ?c then _ else _] => destruct c eqn:?
  | |- context [match ?c with Some _ => _ | None => _ end] => destruct c eqn:?
  end.

Lemma applied_app (l1 l2 : list SerialLine) :
  applied (l1 ++ l2) = applied l1 ++ applied l2.
Proof. apply List.filter_app. Qed.

Lemma dropsReported_app (l1 l2 : list SerialLine) :
  dropsReported (l1 ++ l2) = (dropsReported l1 + dropsReported l2)%nat.
Proof. unfold dropsReported. now rewrite List.filter_app, length_app. Qed.

Lemma sendStateUpdate_frame (force : bool) (d : Device) :
  let d' := sendStateUpdate force d in
  switchesLocal d' = switchesLocal d /\ cmdQueue d' = cmdQueue d
  /\ clock d' = clock d /\ lastCommandProcess d' = lastCommandProcess d
  /\ wsConnected d' = wsConnected d /\ pinOut d' = pinOut d
  /\ prefs d' = prefs d /\ nvsCommits d' = nvsCommits d
  /\ cfgDirty d' = cfgDirty d /\ lastCfgSave d' = lastCfgSave d
  /\ lastSeqs d' = lastSeqs d
  /\ applied (serial d') = applied (serial d)
  /\ dropsReported (serial d') = dropsReported (serial d).
Proof.
  unfold sendStateUpdate, sendJson, Serial_print.
  repeat case_if; simpl; rewrite ?applied_app, ?dropsReported_app; simpl;
    rewrite ?app_nil_r, ?Nat.add_0_r; repeat split; reflexivity.
Qed.

Lemma saveConfigToNVS_frame (d : Device) :
  let d' := saveConfigToNVS d in
  switchesLocal d' = switchesLocal d /\ cmdQueue d' = cmdQueue d
  /\ clock d' = clock d /\ lastCommandProcess d' = lastCommandProcess d
  /\ wsConnected d' = wsConnected d /\ pinOut d' = pinOut d
  /\ tx d' = tx d /\ lastStateSent d' = lastStateSent d
  /\ pendingState d' = pendingState d
  /\ cfgDirty d' = cfgDirty d /\ lastCfgSave d' = lastCfgSave d
  /\ lastSeqs d' = lastSeqs d
  /\ nvsCommits d' = clock d :: nvsCommits d
  /\ applied (serial d') = applied (serial d)
  /\ dropsReported (serial d') = dropsReported (serial d).
Proof.
  unfold saveConfigToNVS, Serial_print. simpl.
  rewrite ?applied_app, ?dropsReported_app; simpl;
    rewrite ?app_nil_r, ?Nat.add_0_r; repeat split; reflexivity.
Qed.

Lemma queueSwitchCommand_spec (g : Z) (s : bool) (d : Device) :
  let d' := queueSwitchCommand g s d in
  (if (length (cmdQueue d) <? MAX_COMMAND_QUEUE)%nat
   then cmdQueue d' = cmdQueue d ++
          [ {| cmd_gpio := g; cmd_state := s; cmd_valid := true;
               cmd_timestamp := millis d |} ]
        /\ serial d' = serial d ++ [LogCmdQueued g s]
   else cmdQueue d' = cmdQueue d
        /\ serial d' = serial d ++ [LogCmdQueueFull])
  /\ switchesLocal d' = switchesLocal d /\ clock d' = clock d
  /\ lastCommandProcess d' = lastCommandProcess d
  /\ wsConnected d' = wsConnected d /\ tx d' = tx d
  /\ pinOut d' = pinOut d /\ prefs d' = prefs d
  /\ nvsCommits d' = nvsCommits d /\ cfgDirty d' = cfgDirty d
  /\ lastCfgSave d' = lastCfgSave d /\ lastSeqs d' = lastSeqs d
  /\ pinIn d' = pinIn d.
Proof.
  unfold queueSwitchCommand, xQueueSend, Serial_print.
  destruct (length (cmdQueue d) <? MAX_COMMAND_QUEUE)%nat; simpl;
    repeat split; reflexivity.
Qed.

(** [handleManualSwitches] runs the loop body on every entry and hands
    the commands it generates to [queueSwitchCommand], in registry
    order. *)
Lemma handleManualSwitches_loop_spec (now : Z) (sws : list SwitchState) :
  forall d : Device,
    handleManualSwitches_loop now sws d
    = (map (fun sw => fst (manualStepOf now (pinIn d) sw)) sws,
       enqueueAll (manualCommands now (pinIn d) sws) d).
Proof.
  induction sws as [|sw rest IH]; intros d; [reflexivity|].
  simpl. unfold manualStepOf at 1 3.
  destruct (negb (manualEnabled sw) || (manualGpio sw <? 0)).
  - rewrite IH. reflexivity.
  - unfold digitalRead.
    destruct (manualSwitchStep now (pinIn d (uint8 (manualGpio sw))) sw)
      as [sw' [[g s]|]]; simpl.
    + rewrite IH.
      destruct (queueSwitchCommand_spec g s d)
        as (_ & _ & _ & _ & _ & _ & _ & _ & _ & _ & _ & _ & Hp).
      now rewrite Hp.
    + rewrite IH. reflexivity.
Qed.

Lemma handleManualSwitches_spec (d : Device) :
  handleManualSwitches d
  = set_switchesLocal
      (map (fun sw => fst (manualStepOf (millis d) (pinIn d) sw))
         (switchesLocal d))
      (enqueueAll (manualCommands (millis d) (pinIn d) (switchesLocal d)) d).
Proof.
  unfold handleManualSwitches. now rewrite handleManualSwitches_loop_spec.
Qed.

(** A press of a momentary button toggles its channel once; the release
    generates nothing. *)
Example momentary_press_toggles_once :
  sampleCommands pressAndRelease pushButton = [(16, false)].
Proof. reflexivity. Qed.

(** A maintained switch that already agrees with its channel generates
    nothing when its level is confirmed. *)
Example maintained_in_agreement_is_silent :
  sampleCommands bounce (sw_set_state true wallSwitch) = [].
Proof. reflexivity. Qed.

Example maintained_follows_position :
  sampleCommands bounce wallSwitch = [(4, true)].
Proof. reflexivity. Qed.

(** ** The bounded queue *)

Lemma enqueueAll_spec (cs : list (Z * bool)) :
  forall d : Device,
    let room := (MAX_COMMAND_QUEUE - length (cmdQueue d))%nat in
    let d' := enqueueAll cs d in
    cmdQueue d' = cmdQueue d ++ map (queued (millis d)) (firstn room cs)
    /\ serial d' = serial d
         ++ map (fun c => LogCmdQueued (fst c) (snd c)) (firstn room cs)
         ++ repeat LogCmdQueueFull (length cs - room)
    /\ switchesLocal d' = switchesLocal d /\ clock d' = clock d
    /\ lastCommandProcess d' = lastCommandProcess d
    /\ wsConnected d' = wsConnected d /\ tx d' = tx d
    /\ pinOut d' = pinOut d /\ nvsCommits d' = nvsCommits d.
Proof.
  induction cs as [|[g s] cs IH]; intros d; simpl.
  - rewrite firstn_nil. simpl. rewrite !app_nil_r. repeat split; reflexivity.
  - pose proof (queueSwitchCommand_spec g s d) as
      (Hq & Hsw & Hck & Hlcp & Hws & Htx & Hpo & _ & Hnv & _).
    specialize (IH (queueSwitchCommand g s d)).
    unfold enqueueAll in IH. simpl in IH.
    destruct IH as (I1 & I2 & I3 & I4 & I5 & I6 & I7 & I8 & I9).
    assert (Hm : millis (queueSwitchCommand g s d) = millis d)
      by (unfold millis; now rewrite Hck).
    unfold enqueueAll. simpl.
    rewrite I1, I2, I3, I4, I5, I6, I7, I8, I9, Hm.
    destruct (length (cmdQueue d) <? MAX_COMMAND_QUEUE)%nat eqn:E.
    + apply Nat.ltb_lt in E. destruct Hq as [Hq1 Hq2].
      rewrite Hq1, Hq2, length_app. simpl.
      replace (MAX_COMMAND_QUEUE - length (cmdQueue d))%nat
        with (S (MAX_COMMAND_QUEUE - (length (cmdQueue d) + 1)))%nat by lia.
      simpl. rewrite <- !app_assoc. simpl. repeat split; auto.
    + apply Nat.ltb_ge in E. destruct Hq as [Hq1 Hq2].
      rewrite Hq1, Hq2.
      replace (MAX_COMMAND_QUEUE - length (cmdQueue d))%nat with O by lia.
      simpl. rewrite !app_nil_r, Nat.sub_0_r. rewrite <- app_assoc. simpl.
      repeat split; auto.
Qed.

(** ** Manual inputs: the passes of [handleManualSwitches] *)

Lemma manualSwitchStep_input (now rawLevel : Z) (sw : SwitchState) :
  manualEnabled (fst (manualSwitchStep now rawLevel sw)) = manualEnabled sw
  /\ manualGpio (fst (manualSwitchStep now rawLevel sw)) = manualGpio sw.
Proof.
  unfold manualSwitchStep.
  repeat match goal with |- context [if ?c then _ else _] => destruct c end;
    simpl; auto.
Qed.

Lemma manualStepOf_enabled (now : Z) (pins : Z -> Z) (sw : SwitchState) :
  manualEnabled sw = true -> 0 <= manualGpio sw ->
  manualStepOf now pins sw
  = manualSwitchStep now (pins (uint8 (manualGpio sw))) sw.
Proof.
  intros He Hg. unfold manualStepOf. rewrite He.
  apply Z.ltb_ge in Hg. now rewrite Hg.
Qed.

Lemma handleManualSwitches_registry (d : Device) :
  switchesLocal (handleManualSwitches d)
  = map (fun sw => fst (manualStepOf (millis d) (pinIn d) sw))
      (switchesLocal d).
Proof. now rewrite handleManualSwitches_spec. Qed.

(** The passes of [handleManualSwitches] change the stable level of an
    enabled entry as often as the loop body does on the levels of its
    pin. *)
Lemma manualPasses_sampleRun (i : nat) (passes : list (Z * (Z -> Z))) :
  forall (d : Device) (sw : SwitchState),
    switchesLocal d !! i = Some sw ->
    manualEnabled sw = true -> 0 <= manualGpio sw ->
    fst (manualPasses i passes d) = fst (sampleRun (samplesAt sw passes) sw).
Proof.
  induction passes as [|[t pins] rest IH]; intros d sw Hi He Hg;
    [reflexivity|].
  cbn [manualPasses samplesAt map sampleRun fst snd].
  set (d0 := set_pinIn pins (set_clock t d)).
  set (raw := pins (uint8 (manualGpio sw))).
  assert (H1 : switchesLocal (handleManualSwitches d0) !! i
               = Some (fst (manualSwitchStep (t mod ULONG_MOD) raw sw))).
  { rewrite handleManualSwitches_registry, list_lookup_fmap.
    change (switchesLocal d0) with (switchesLocal d). rewrite Hi.
    cbn [fmap option_fmap option_map].
    now rewrite (manualStepOf_enabled _ _ _ He Hg). }
  change (switchesLocal d0) with (switchesLocal d). rewrite Hi, H1.
  destruct (manualSwitchStep_input (t mod ULONG_MOD) raw sw) as [E1 E2].
  specialize (IH (handleManualSwitches d0) _ H1
                ltac:(now rewrite E1) ltac:(now rewrite E2)).
  unfold samplesAt in IH. rewrite E2 in IH.
  destruct (manualPasses i rest (handleManualSwitches d0)) as [n d'].
  destruct (sampleRun _ _) as [m sw'].
  cbn [fst] in *. subst n. reflexivity.
Qed.

(** C6.  A burst of raw level flips in which every flip arrives less
    than MANUAL_DEBOUNCE_MS = 30 after the one before it commits at most
    one stable transition, on an input that is settled (raw level equal
    to the stable level) when the burst starts: of the loop body run on
    the levels, and of the passes of handleManualSwitches over a device
    for the entry of any enabled input.  In every state of the tracker a
    raw level change stores the level and restarts the window at the
    current time, leaving the stable level alone, and a sample at the
    same level leaves the time stamp alone; a level is committed only if
    it differs from the stable level and at least 30 have elapsed since
    the last raw change.  handleManualSwitches runs that body on every
    enabled entry with the level digitalRead finds on its pin. *)
Theorem C6_debounce_burst_at_most_one_transition
    (samples : list (Z * Z)) (t0 : Z) (sw : SwitchState) :
  (lastManualLevel sw = stableManualLevel sw ->
   burst None t0 (lastManualLevel sw) samples ->
   (fst (sampleRun samples sw) <= 1)%nat)
  /\ (forall now rawLevel,
        let sw' := fst (manualSwitchStep now rawLevel sw) in
        (rawLevel <> lastManualLevel sw ->
         lastManualLevel sw' = rawLevel
         /\ lastManualChangeMs sw' = now
         /\ stableManualLevel sw' = stableManualLevel sw)
        /\ (rawLevel = lastManualLevel sw ->
            lastManualLevel sw' = rawLevel
            /\ lastManualChangeMs sw' = lastManualChangeMs sw))
  /\ (forall now rawLevel,
        stableTransition now rawLevel sw = true ->
        let sw' := fst (manualSwitchStep now rawLevel sw) in
        rawLevel <> stableManualLevel sw
        /\ MANUAL_DEBOUNCE_MS <= ulong_sub now (lastManualChangeMs sw')
        /\ stableManualLevel sw' = rawLevel)
  /\ (forall (d : Device) (i : nat) (passes : list (Z * (Z -> Z))),
        switchesLocal d !! i = Some sw ->
        manualEnabled sw = true -> 0 <= manualGpio sw ->
        lastManualLevel sw = stableManualLevel sw ->
        burst None t0 (lastManualLevel sw) (samplesAt sw passes) ->
        (fst (manualPasses i passes d) <= 1)%nat)
  /\ (forall d : Device,
        switchesLocal (handleManualSwitches d)
        = map (fun x =>
                 if negb (manualEnabled x) || (manualGpio x <? 0) then x
                 else fst (manualSwitchStep (millis d)
                             (digitalRead (manualGpio x) d) x))
            (switchesLocal d)).
Proof.
  split; [|split; [|split; [|split]]].
  - intros Hs Hb. eapply sampleRun_before_burst; eauto.
  - intros now raw sw'.
    pose proof (manualSwitchStep_tracker now raw sw) as (T1 & T2 & T3).
    pose proof (stableTransition_spec now raw sw) as S.
    unfold windowStart in T2, S. split.
    + intros Hne. apply Z.eqb_neq in Hne. rewrite Hne in T2, S.
      rewrite ulong_sub_self in S. rewrite andb_false_r in S.
      rewrite S in T3. auto.
    + intros He. apply Z.eqb_eq in He. rewrite He in T2. auto.
  - intros now raw Ht sw'.
    pose proof (manualSwitchStep_tracker now raw sw) as (T1 & T2 & T3).
    pose proof (stableTransition_spec now raw sw) as S.
    rewrite Ht in S, T3. symmetry in S.
    apply andb_true_iff in S as [S1 S2].
    apply negb_true_iff, Z.eqb_neq in S1. apply Z.leb_le in S2.
    subst sw'. rewrite T2. auto.
  - intros d i passes Hi He Hg Hs Hb.
    rewrite (manualPasses_sampleRun i passes d sw Hi He Hg).
    eapply sampleRun_before_burst; eauto.
  - intros d. rewrite handleManualSwitches_registry.
    apply map_ext. intros x. unfold manualStepOf, digitalRead.
    now destruct (negb (manualEnabled x) || (manualGpio x <? 0)).
Qed.

Lemma C6_witness :
  (fst (sampleRun bounce wallSwitch) <= 1)%nat
  /\ (fst (manualPasses 0 (contactOn 25 bounce) wallSwitchDevice) <= 1)%nat
  /\ stableTransition 1060 0 wallSwitchPressed = true
  /\ MANUAL_DEBOUNCE_MS
     <= ulong_sub 1060
          (lastManualChangeMs (fst (manualSwitchStep 1060 0 wallSwitchPressed))).
Proof.
  assert (H1 : lastManualLevel wallSwitch = stableManualLevel wallSwitch)
    by reflexivity.
  assert (H2 : burst None 0 (lastManualLevel wallSwitch) bounce)
    by (vm_compute; intuition discriminate).
  assert (H3 : stableTransition 1060 0 wallSwitchPressed = true)
    by reflexivity.
  pose proof (C6_debounce_burst_at_most_one_transition bounce 0 wallSwitch)
    as (B1 & _ & _ & B4 & _).
  pose proof (C6_debounce_burst_at_most_one_transition [] 0 wallSwitchPressed)
    as (_ & _ & B3 & _).
  split; [exact (B1 H1 H2)|].
  split; [exact (B4 wallSwitchDevice 0%nat (contactOn 25 bounce) eq_refl
                   eq_refl ltac:(discriminate) H1 H2)|].
  split; [exact H3|]. exact (proj1 (proj2 (B3 1060 0 H3))).
Defined.

(** The passes of [handleManualSwitches] over the bouncing contact do
    commit one transition, and it queues one command. *)
Example bounce_on_device :
  let r := manualPasses 0 (contactOn 25 bounce) wallSwitchDevice in
  fst r = 1%nat /\ map commandOf (cmdQueue (snd r)) = [(4, true)].
Proof. split; reflexivity. Qed.

(** C7.  On a debounced stable transition of a manual input, with
    active = (manualActiveLow ? rawLevel == LOW : rawLevel == HIGH): in
    momentary mode a command is generated exactly on the rising edge
    into active (active now, not active at the previous stable level)
    and it asks for the negation of the channel's current state; in
    maintained mode a command is generated exactly when the active level
    differs from the channel's current state and it asks for that active
    level; and whenever a command is generated manualOverride is set.
    handleManualSwitches, finding that transition on the entry of an
    enabled input, writes the entry with the flag back to the registry
    and hands the command to queueSwitchCommand, between the commands
    of the entries before and after it: it is queued at the current time
    as far as the queue has room. *)
Theorem C7_manual_transition_command (now rawLevel : Z) (sw : SwitchState) :
  stableTransition now rawLevel sw = true ->
  let active :=
    if manualActiveLow sw then rawLevel =? LOW else rawLevel =? HIGH in
  let sw' := fst (manualSwitchStep now rawLevel sw) in
  let cmd := snd (manualSwitchStep now rawLevel sw) in
  (manualMomentary sw = true ->
     cmd = if active && negb (lastManualActive sw)
           then Some (gpio sw, negb (state sw)) else None)
  /\ (manualMomentary sw = false ->
     cmd = if negb (Bool.eqb active (state sw))
           then Some (gpio sw, active) else None)
  /\ (cmd <> None -> manualOverride sw' = true)
  /\ (cmd = None -> manualOverride sw' = manualOverride sw)
  /\ lastManualActive sw' = active
  /\ (forall (d : Device) (l1 l2 : list SwitchState),
        switchesLocal d = l1 ++ sw :: l2 ->
        manualEnabled sw = true -> 0 <= manualGpio sw ->
        millis d = now -> digitalRead (manualGpio sw) d = rawLevel ->
        let d' := handleManualSwitches d in
        let others :=
          map (fun x => fst (manualStepOf now (pinIn d) x)) in
        let cmds :=
          manualCommands now (pinIn d) l1
          ++ match cmd with Some c => [c] | None => [] end
          ++ manualCommands now (pinIn d) l2 in
        let room := (MAX_COMMAND_QUEUE - length (cmdQueue d))%nat in
        switchesLocal d' = others l1 ++ sw' :: others l2
        /\ d' = set_switchesLocal (switchesLocal d') (enqueueAll cmds d)
        /\ cmdQueue d' = cmdQueue d ++ map (queued now) (firstn room cmds)).
Proof.
  intros Ht active sw' cmd.
  assert (Hstep : (manualMomentary sw = true ->
     cmd = if active && negb (lastManualActive sw)
           then Some (gpio sw, negb (state sw)) else None)
  /\ (manualMomentary sw = false ->
     cmd = if negb (Bool.eqb active (state sw))
           then Some (gpio sw, active) else None)
  /\ (cmd <> None -> manualOverride sw' = true)
  /\ (cmd = None -> manualOverride sw' = manualOverride sw)
  /\ lastManualActive sw' = active).
  { subst active sw' cmd. revert Ht. rewrite stableTransition_spec.
    unfold manualSwitchStep, windowStart, manualActive.
    destruct (rawLevel =? lastManualLevel sw); simpl; intros ->; simpl;
      destruct (manualMomentary sw); simpl;
      repeat match goal with |- context [if ?c then _ else _] => destruct c end;
      simpl; repeat split; congruence. }
  destruct Hstep as (P1 & P2 & P3 & P4 & P5).
  repeat (split; [assumption|]).
  intros d l1 l2 Hsw He Hg Hnow Hraw d' others cmds room.
  assert (Hs : manualStepOf now (pinIn d) sw = manualSwitchStep now rawLevel sw).
  { rewrite (manualStepOf_enabled _ _ _ He Hg). now rewrite <- Hraw. }
  assert (Hd : d' = set_switchesLocal (others l1 ++ sw' :: others l2)
                      (enqueueAll cmds d)).
  { subst d' others cmds. rewrite handleManualSwitches_spec, Hnow, Hsw.
    rewrite map_app. cbn [map]. unfold manualCommands.
    rewrite flat_map_app. cbn [flat_map]. rewrite Hs. reflexivity. }
  assert (Hr : switchesLocal d' = others l1 ++ sw' :: others l2)
    by (rewrite Hd; reflexivity).
  split; [exact Hr|]. split; [now rewrite Hr|].
  rewrite Hd. cbn [cmdQueue set_switchesLocal].
  destruct (enqueueAll_spec cmds d) as (Q & _). cbv zeta in Q.
  now rewrite Q, Hnow.
Qed.

Lemma C7_witness :
  (stableTransition 1060 0 wallSwitchPressed = true
   /\ stableTransition 1060 1 pushButtonHigh = true)
  /\ snd (manualSwitchStep 1060 0 wallSwitchPressed) = Some (4, true)
  /\ snd (manualSwitchStep 1060 1 pushButtonHigh) = Some (17, false)
  /\ map commandOf (cmdQueue (handleManualSwitches pressedDevice))
     = [(4, true); (17, false)]
  /\ map manualOverride (switchesLocal (handleManualSwitches pressedDevice))
     = [true; true].
Proof.
  pose proof (C7_manual_transition_command 1060 0 wallSwitchPressed eq_refl)
    as (_ & M & _ & _ & _ & D1).
  pose proof (C7_manual_transition_command 1060 1 pushButtonHigh eq_refl)
    as (P & _ & _ & _ & _ & _).
  cbv zeta in *.
  destruct (D1 pressedDevice [] [pushButtonHigh] eq_refl eq_refl
              ltac:(discriminate) eq_refl eq_refl) as (R & _ & Q).
  split; [split; reflexivity|].
  split; [exact (M eq_refl)|]. split; [exact (P eq_refl)|].
  split; [rewrite Q|rewrite R]; reflexivity.
Defined.

Lemma applyTrace_app (a b : list (Z * bool)) :
  forall sws : list SwitchState,
    applyTrace sws (a ++ b)
    = applyTrace sws a ++ applyTrace (fold_left applyToRegistry a sws) b.
Proof.
  induction a as [|c a IH]; intros sws; simpl; [reflexivity|].
  now rewrite IH.
Qed.

Lemma Improved_applySwitchState_spec (g : Z) (s : bool) (d : Device) :
  let d' := snd (Improved.applySwitchState g s d) in
  switchesLocal d' = applyToRegistry (switchesLocal d) (g, s)
  /\ applied (serial d') = applied (serial d) ++ [reportOf (switchesLocal d) (g, s)]
  /\ dropsReported (serial d') = dropsReported (serial d)
  /\ cmdQueue d' = cmdQueue d /\ clock d' = clock d
  /\ lastCommandProcess d' = lastCommandProcess d
  /\ wsConnected d' = wsConnected d.
Proof.
  unfold Improved.applySwitchState, applyToRegistry, reportOf. simpl.
  destruct (setSwitch g s (switchesLocal d)) as [sws|]; simpl.
  - match goal with |- context [sendStateUpdate true ?x] =>
      pose proof (sendStateUpdate_frame true x) as
        (F1 & F2 & F3 & F4 & F5 & _ & _ & _ & _ & _ & _ & F6 & F7);
      pose proof (saveConfigToNVS_frame
        (Serial_print (LogSwitch g s)
           (digitalWrite g (relayLevel s) (set_switchesLocal sws d)))) as
        (G1 & G2 & G3 & G4 & G5 & _ & _ & _ & _ & _ & _ & _ & _ & G6 & G7)
    end.
    cbv zeta in *.
    rewrite F1, F2, F3, F4, F5, F6, F7, G1, G2, G3, G4, G5, G6, G7.
    unfold Serial_print; simpl. rewrite applied_app, dropsReported_app. simpl.
    rewrite Nat.add_0_r. repeat split; reflexivity.
  - unfold Serial_print; simpl. rewrite applied_app, dropsReported_app. simpl.
    rewrite Nat.add_0_r. repeat split; reflexivity.
Qed.

Lemma DebugTest_applySwitchState_spec (g : Z) (s : bool) (d : Device) :
  let d' := snd (DebugTest.applySwitchState g s d) in
  switchesLocal d' = applyToRegistry (switchesLocal d) (g, s)
  /\ applied (serial d') = applied (serial d) ++ [reportOf (switchesLocal d) (g, s)]
  /\ dropsReported (serial d') = dropsReported (serial d)
  /\ cmdQueue d' = cmdQueue d /\ clock d' = clock d
  /\ lastCommandProcess d' = lastCommandProcess d
  /\ wsConnected d' = wsConnected d
  /\ nvsCommits d' = nvsCommits d /\ prefs d' = prefs d
  /\ lastCfgSave d' = lastCfgSave d.
Proof.
  unfold DebugTest.applySwitchState, applyToRegistry, reportOf. simpl.
  destruct (setSwitch g s (switchesLocal d)) as [sws|]; simpl.
  - match goal with |- context [sendStateUpdate true ?x] =>
      pose proof (sendStateUpdate_frame true x) as
        (F1 & F2 & F3 & F4 & F5 & _ & F8 & F9 & _ & F10 & _ & F6 & F7)
    end.
    cbv zeta in *.
    rewrite F1, F2, F3, F4, F5, F6, F7, F8, F9, F10.
    unfold Serial_print; simpl. rewrite applied_app, dropsReported_app. simpl.
    rewrite Nat.add_0_r. repeat split; reflexivity.
  - unfold Serial_print; simpl. rewrite applied_app, dropsReported_app. simpl.
    rewrite Nat.add_0_r. repeat split; reflexivity.
Qed.

Lemma processDue_after_interval (d : Device) :
  lastCommandProcess d = millis d -> processDue (delay 100 d) = true.
Proof.
  intros H. unfold processDue, delay, millis in *. simpl. rewrite H.
  rewrite ulong_sub_millis.
  replace (clock d + 100 - clock d) with 100 by lia. reflexivity.
Qed.

Section Drain.

(** A drain step that, when due, takes the first [perTick] commands off
    the queue and applies them in order. *)
Variable process : Device -> Device.
Variable perTick : nat.

Hypothesis process_due : forall d : Device,
  processDue d = true -> allValid (cmdQueue d) ->
  let batch := map commandOf (take perTick (cmdQueue d)) in
  cmdQueue (process d) = drop perTick (cmdQueue d)
  /\ switchesLocal (process d) = fold_left applyToRegistry batch (switchesLocal d)
  /\ applied (serial (process d)) = applied (serial d) ++ applyTrace (switchesLocal d) batch
  /\ dropsReported (serial (process d)) = dropsReported (serial d)
  /\ clock (process d) = clock d
  /\ lastCommandProcess (process d) = millis d.

Lemma drain_spec (n : nat) :
  forall d : Device,
    processDue d = true -> allValid (cmdQueue d) ->
    let done := map commandOf (take (n * perTick) (cmdQueue d)) in
    cmdQueue (drain process n d) = drop (n * perTick) (cmdQueue d)
    /\ switchesLocal (drain process n d)
       = fold_left applyToRegistry done (switchesLocal d)
    /\ applied (serial (drain process n d))
       = applied (serial d) ++ applyTrace (switchesLocal d) done
    /\ dropsReported (serial (drain process n d)) = dropsReported (serial d).
Proof.
  induction n as [|n IH]; intros d Hdue Hval; simpl.
  - rewrite app_nil_r. auto.
  - destruct (process_due d Hdue Hval) as (P1 & P2 & P3 & P4 & P5 & P6).
    assert (Hdue' : processDue (delay 100 (process d)) = true).
    { apply processDue_after_interval. unfold millis. now rewrite P5. }
    assert (Hval' : allValid (cmdQueue (delay 100 (process d)))).
    { simpl. rewrite P1. unfold allValid in *.
      rewrite <- (take_drop perTick (cmdQueue d)) in Hval.
      apply Forall_app in Hval. tauto. }
    destruct (IH _ Hdue' Hval') as (I1 & I2 & I3 & I4).
    simpl in I1, I2, I3, I4 |- *.
    rewrite I1, I2, I3, I4, P1, P2, P3, P4.
    rewrite drop_drop.
    rewrite <- (take_take_drop (cmdQueue d) perTick (n * perTick)).
    rewrite map_app, fold_left_app, applyTrace_app, app_assoc.
    auto.
Qed.

End Drain.

Lemma Improved_processCommandQueue_due (d : Device) :
  processDue d = true -> allValid (cmdQueue d) ->
  let batch := map commandOf (take 1 (cmdQueue d)) in
  cmdQueue (Improved.processCommandQueue d) = drop 1 (cmdQueue d)
  /\ switchesLocal (Improved.processCommandQueue d)
     = fold_left applyToRegistry batch (switchesLocal d)
  /\ applied (serial (Improved.processCommandQueue d))
     = applied (serial d) ++ applyTrace (switchesLocal d) batch
  /\ dropsReported (serial (Improved.processCommandQueue d))
     = dropsReported (serial d)
  /\ clock (Improved.processCommandQueue d) = clock d
  /\ lastCommandProcess (Improved.processCommandQueue d) = millis d.
Proof.
  intros Hdue Hval. unfold processDue in Hdue. apply Z.leb_le in Hdue.
  unfold Improved.processCommandQueue.
  destruct (ulong_sub (millis d) (lastCommandProcess d) <? COMMAND_PROCESS_INTERVAL)
    eqn:E; [apply Z.ltb_lt in E; lia|].
  simpl. destruct (cmdQueue d) as [|cmd q] eqn:Eq; simpl; rewrite ?Eq.
  - rewrite app_nil_r. repeat split; reflexivity.
  - inversion Hval as [|? ? Hv _]; subst. rewrite Hv.
    pose proof (Improved_applySwitchState_spec (cmd_gpio cmd) (cmd_state cmd)
      (set_cmdQueue q (set_lastCommandProcess (millis d) d)))
      as (A1 & A2 & A3 & A4 & A5 & A6 & _).
    cbv zeta in *. rewrite A1, A2, A3, A4, A5, A6. simpl.
    rewrite drop_0. repeat split; reflexivity.
Qed.

Lemma DebugTest_drainQueue_spec (k : nat) :
  forall d : Device,
    allValid (cmdQueue d) ->
    let batch := map commandOf (take k (cmdQueue d)) in
    cmdQueue (DebugTest.drainQueue k d) = drop k (cmdQueue d)
    /\ switchesLocal (DebugTest.drainQueue k d)
       = fold_left applyToRegistry batch (switchesLocal d)
    /\ applied (serial (DebugTest.drainQueue k d))
       = applied (serial d) ++ applyTrace (switchesLocal d) batch
    /\ dropsReported (serial (DebugTest.drainQueue k d))
       = dropsReported (serial d)
    /\ clock (DebugTest.drainQueue k d) = clock d
    /\ lastCommandProcess (DebugTest.drainQueue k d) = lastCommandProcess d
    /\ nvsCommits (DebugTest.drainQueue k d) = nvsCommits d
    /\ prefs (DebugTest.drainQueue k d) = prefs d
    /\ lastCfgSave (DebugTest.drainQueue k d) = lastCfgSave d.
Proof.
  induction k as [|k IH]; intros d Hval; simpl.
  - rewrite app_nil_r, drop_0. repeat split; reflexivity.
  - destruct (cmdQueue d) as [|cmd q] eqn:Eq; simpl; rewrite ?Eq; simpl.
    + rewrite app_nil_r. repeat split; reflexivity.
    + inversion Hval as [|? ? Hv Hq]; subst. rewrite Hv.
      pose proof (DebugTest_applySwitchState_spec (cmd_gpio cmd) (cmd_state cmd)
        (set_cmdQueue q d)) as (A1 & A2 & A3 & A4 & A5 & A6 & _ & A7 & A8 & A9).
      cbv zeta in *. simpl in A1, A2, A3, A4, A5, A6, A7, A8, A9.
      match goal with |- context [DebugTest.drainQueue k ?x] =>
        destruct (IH x) as (I1 & I2 & I3 & I4 & I5 & I6 & I7 & I8 & I9);
          [now rewrite A4|]
      end.
      rewrite I1, I2, I3, I4, I5, I6, I7, I8, I9.
      rewrite A1, A2, A3, A4, A5, A6, A7, A8, A9.
      rewrite <- app_assoc. repeat split; reflexivity.
Qed.

Lemma DebugTest_processCommandQueue_due (d : Device) :
  processDue d = true -> allValid (cmdQueue d) ->
  let batch := map commandOf (take 4 (cmdQueue d)) in
  cmdQueue (DebugTest.processCommandQueue d) = drop 4 (cmdQueue d)
  /\ switchesLocal (DebugTest.processCommandQueue d)
     = fold_left applyToRegistry batch (switchesLocal d)
  /\ applied (serial (DebugTest.processCommandQueue d))
     = applied (serial d) ++ applyTrace (switchesLocal d) batch
  /\ dropsReported (serial (DebugTest.processCommandQueue d))
     = dropsReported (serial d)
  /\ clock (DebugTest.processCommandQueue d) = clock d
  /\ lastCommandProcess (DebugTest.processCommandQueue d) = millis d.
Proof.
  intros Hdue Hval. unfold processDue in Hdue. apply Z.leb_le in Hdue.
  unfold DebugTest.processCommandQueue.
  destruct (ulong_sub (millis d) (lastCommandProcess d) <? COMMAND_PROCESS_INTERVAL)
    eqn:E; [apply Z.ltb_lt in E; lia|].
  destruct (DebugTest_drainQueue_spec 4
              (set_lastCommandProcess (millis d) d) Hval)
    as (I1 & I2 & I3 & I4 & I5 & I6 & _).
  cbv zeta. rewrite I1, I2, I3, I4, I5, I6. repeat split; reflexivity.
Qed.

Lemma allValid_queued (t : Z) (cs : list (Z * bool)) :
  allValid (map (queued t) cs).
Proof. apply Forall_map, Forall_forall. intros; reflexivity. Qed.

Lemma commandOf_queued (t : Z) (cs : list (Z * bool)) :
  map commandOf (map (queued t) cs) = cs.
Proof.
  rewrite map_map. rewrite <- (map_id cs) at 2. apply map_ext.
  intros [g s]; reflexivity.
Qed.

Lemma dropsReported_repeat (n : nat) :
  dropsReported (repeat LogCmdQueueFull n) = n.
Proof.
  unfold dropsReported. induction n as [|n IH]; simpl; [reflexivity|].
  now rewrite IH.
Qed.

Lemma applied_repeat (n : nat) : applied (repeat LogCmdQueueFull n) = [].
Proof. unfold applied. induction n; simpl; auto. Qed.

Lemma dropsReported_queued (cs : list (Z * bool)) :
  dropsReported (map (fun c => LogCmdQueued (fst c) (snd c)) cs) = O.
Proof. unfold dropsReported. induction cs; simpl; auto. Qed.

Lemma applied_queued (cs : list (Z * bool)) :
  applied (map (fun c => LogCmdQueued (fst c) (snd c)) cs) = [].
Proof. unfold applied. induction cs; simpl; auto. Qed.

(** C5.  The command queue holds at most MAX_COMMAND_QUEUE = 16 commands.
    Enqueueing never waits: of any commands enqueued into an empty queue
    the first 16 are accepted in order and every later one is dropped,
    each drop with its own report line.  Draining then applies exactly
    the accepted commands, in FIFO order and with nothing left in the
    queue, in both sketches (one command per tick in
    improved_esp32.cpp, four in esp32debugtest.cpp).  For 20 commands
    that is 16 applied and 4 reported dropped. *)
Theorem C5_bounded_queue_drops_newest_fifo
    (cs : list (Z * bool)) (d : Device) :
  cmdQueue d = [] ->
  processDue d = true ->
  let d1 := enqueueAll cs d in
  let accepted := take MAX_COMMAND_QUEUE cs in
  map commandOf (cmdQueue d1) = accepted
  /\ (length (cmdQueue d1) <= MAX_COMMAND_QUEUE)%nat
  /\ dropsReported (serial d1)
     = (dropsReported (serial d) + (length cs - MAX_COMMAND_QUEUE))%nat
  /\ appliedInOrder d accepted (drain Improved.processCommandQueue 16 d1)
  /\ appliedInOrder d accepted (drain DebugTest.processCommandQueue 4 d1)
  /\ (length cs = 20%nat ->
        length accepted = 16%nat
        /\ dropsReported (serial d1) = (dropsReported (serial d) + 4)%nat).
Proof.
  intros Hq Hdue d1 accepted.
  destruct (enqueueAll_spec cs d) as (E1 & E2 & E3 & E4 & E5 & _).
  rewrite Hq in E1, E2. simpl in E1, E2. fold d1 in E1, E2, E3, E4, E5.
  change (take 16 cs) with accepted in E1, E2.
  assert (Hacc : (length accepted <= 16)%nat)
    by (subst accepted; rewrite length_take; unfold MAX_COMMAND_QUEUE; lia).
  assert (Hdrops : dropsReported (serial d1)
                   = (dropsReported (serial d) + (length cs - 16))%nat).
  { rewrite E2, !dropsReported_app, dropsReported_queued, dropsReported_repeat.
    reflexivity. }
  assert (Hdue1 : processDue d1 = true).
  { unfold processDue, millis in *. now rewrite E4, E5. }
  assert (Hval1 : allValid (cmdQueue d1)).
  { rewrite E1. apply allValid_queued. }
  assert (Happl : applied (serial d1) = applied (serial d)).
  { rewrite E2, !applied_app, applied_queued, applied_repeat.
    now rewrite !app_nil_r. }
  assert (Hall : take 16 (cmdQueue d1) = cmdQueue d1)
    by (apply take_ge; rewrite E1, length_map; exact Hacc).
  assert (Hnone : drop 16 (cmdQueue d1) = [])
    by (apply drop_ge; rewrite E1, length_map; exact Hacc).
  assert (Hdrain : forall process perTick ticks,
    (ticks * perTick = 16)%nat ->
    (forall d0 : Device,
       processDue d0 = true -> allValid (cmdQueue d0) ->
       let batch := map commandOf (take perTick (cmdQueue d0)) in
       cmdQueue (process d0) = drop perTick (cmdQueue d0)
       /\ switchesLocal (process d0)
          = fold_left applyToRegistry batch (switchesLocal d0)
       /\ applied (serial (process d0))
          = applied (serial d0) ++ applyTrace (switchesLocal d0) batch
       /\ dropsReported (serial (process d0)) = dropsReported (serial d0)
       /\ clock (process d0) = clock d0
       /\ lastCommandProcess (process d0) = millis d0) ->
    appliedInOrder d accepted (drain process ticks d1)).
  { intros process perTick ticks Hn Hp.
    destruct (drain_spec process perTick Hp ticks d1 Hdue1 Hval1)
      as (S1 & S2 & S3 & _).
    rewrite Hn in S1, S2, S3. rewrite Hnone in S1. rewrite Hall in S2, S3.
    rewrite E1, commandOf_queued in S2, S3.
    unfold appliedInOrder. now rewrite S1, S2, S3, E3, Happl. }
  split; [|split; [|split; [|split; [|split]]]].
  - rewrite E1. apply commandOf_queued.
  - rewrite E1, length_map. exact Hacc.
  - exact Hdrops.
  - apply (Hdrain _ 1%nat); [reflexivity|].
    exact Improved_processCommandQueue_due.
  - apply (Hdrain _ 4%nat); [reflexivity|].
    exact DebugTest_processCommandQueue_due.
  - intros H20. split.
    + subst accepted. rewrite length_take. unfold MAX_COMMAND_QUEUE. lia.
    + rewrite Hdrops, H20. reflexivity.
Qed.

Lemma C5_witness :
  (cmdQueue factoryDevice = [] /\ processDue factoryDevice = true)
  /\ dropsReported (serial (enqueueAll twentyCommands factoryDevice)) = 4%nat
  /\ appliedInOrder factoryDevice (take 16 twentyCommands)
       (drain DebugTest.processCommandQueue 4
          (enqueueAll twentyCommands factoryDevice)).
Proof.
  assert (H1 : cmdQueue factoryDevice = []) by reflexivity.
  assert (H2 : processDue factoryDevice = true) by reflexivity.
  pose proof (C5_bounded_queue_drops_newest_fifo twentyCommands factoryDevice
                H1 H2) as (_ & _ & _ & _ & H5 & H6).
  split; [split; assumption|]. split; [|exact H5].
  exact (proj2 (H6 eq_refl)).
Defined.

(** ** NVS keys *)

Lemma append_inj_r (p s1 s2 : string) : p +:+ s1 = p +:+ s2 -> s1 = s2.
Proof. induction p as [|c p IH]; simpl; intros H; [exact H|]. injection H. exact IH. Qed.

Lemma nvsKey_inj (p q : string) (i j : nat) :
  In p nvsFieldNames -> In q nvsFieldNames ->
  nvsKey p i = nvsKey q j -> p = q /\ i = j.
Proof.
  unfold nvsFieldNames, nvsKey. simpl.
  intros Hp Hq H.
  repeat (destruct Hp as [<-|Hp]); try contradiction;
    repeat (destruct Hq as [<-|Hq]); try contradiction;
    try (simpl in H; discriminate H);
    (split; [reflexivity|]); apply append_inj_r in H;
    exact (pretty_nat_inj _ _ H).
Qed.

Lemma nvsKey_not_count (p : string) (i : nat) :
  In p nvsFieldNames -> nvsKey p i <> "count".
Proof.
  unfold nvsFieldNames, nvsKey. simpl. intros Hp.
  repeat (destruct Hp as [<-|Hp]); try contradiction; simpl; discriminate.
Qed.

Ltac nvs_in := unfold nvsFieldNames; simpl; auto 20.

Ltac nvs_neq :=
  let H := fresh in
  intros H; apply nvsKey_inj in H as [H _];
  [discriminate H | nvs_in | nvs_in].

Lemma saveSwitchToNVS_other (i : nat) (sw : SwitchState)
    (p : gmap string NvsValue) (k : string) :
  (forall f, In f nvsFieldNames -> k <> nvsKey f i) ->
  saveSwitchToNVS i sw p !! k = p !! k.
Proof.
  intros H. unfold saveSwitchToNVS, putInt, putBool, putString.
  rewrite !lookup_insert_ne; [reflexivity|..];
    apply not_eq_sym, H; nvs_in.
Qed.

Lemma readSwitchFromNVS_ext (p p' : gmap string NvsValue) (i : nat) :
  (forall f, In f nvsFieldNames -> p !! nvsKey f i = p' !! nvsKey f i) ->
  readSwitchFromNVS p i = readSwitchFromNVS p' i.
Proof.
  intros H. unfold readSwitchFromNVS, getInt, getBool, getString.
  rewrite !H by nvs_in. reflexivity.
Qed.

Lemma readSwitchFromNVS_saved (i : nat) (sw : SwitchState)
    (p : gmap string NvsValue) :
  readSwitchFromNVS (saveSwitchToNVS i sw p) i
  = if gpio sw <? 0 then None else Some (persistent sw).
Proof.
  unfold readSwitchFromNVS, getInt, getBool, getString, saveSwitchToNVS,
    putInt, putBool, putString, persistent.
  repeat first [rewrite lookup_insert_eq
               | rewrite lookup_insert_ne by nvs_neq].
  reflexivity.
Qed.

Lemma readSwitchFromNVS_saved_other (i j : nat) (sw : SwitchState)
    (p : gmap string NvsValue) :
  i <> j ->
  readSwitchFromNVS (saveSwitchToNVS j sw p) i = readSwitchFromNVS p i.
Proof.
  intros Hij. apply readSwitchFromNVS_ext. intros f Hf.
  apply saveSwitchToNVS_other. intros g Hg Heq.
  apply nvsKey_inj in Heq as [_ ?]; auto.
Qed.

Lemma saveSwitchesToNVS_S (sws : list SwitchState) (n : nat)
    (p : gmap string NvsValue) :
  saveSwitchesToNVS sws (S n) p
  = match sws !! n with
    | Some sw => saveSwitchToNVS n sw (saveSwitchesToNVS sws n p)
    | None => saveSwitchesToNVS sws n p
    end.
Proof.
  unfold saveSwitchesToNVS. rewrite seq_S, fold_left_app. reflexivity.
Qed.

Lemma saveSwitchesToNVS_read (sws : list SwitchState) (n : nat)
    (p : gmap string NvsValue) :
  forall (i : nat) (sw : SwitchState),
    (i < n)%nat -> sws !! i = Some sw ->
    readSwitchFromNVS (saveSwitchesToNVS sws n p) i
    = if gpio sw <? 0 then None else Some (persistent sw).
Proof.
  induction n as [|n IH]; intros i sw Hi Hsw; [lia|].
  rewrite saveSwitchesToNVS_S.
  destruct (Nat.eq_dec i n) as [->|Hne].
  - rewrite Hsw. apply readSwitchFromNVS_saved.
  - destruct (sws !! n).
    + rewrite readSwitchFromNVS_saved_other by exact Hne.
      apply IH; [lia|exact Hsw].
    + apply IH; [lia|exact Hsw].
Qed.

(** A key outside the first [n] indices is left as it was. *)
Lemma saveSwitchesToNVS_other (sws : list SwitchState) (n : nat)
    (p : gmap string NvsValue) (k : string) :
  (forall f i, In f nvsFieldNames -> (i < n)%nat -> k <> nvsKey f i) ->
  saveSwitchesToNVS sws n p !! k = p !! k.
Proof.
  induction n as [|n IH]; intros H; [reflexivity|].
  rewrite saveSwitchesToNVS_S.
  destruct (sws !! n).
  - rewrite saveSwitchToNVS_other by (intros f Hf; apply H; [exact Hf|lia]).
    apply IH. intros f i Hf Hi. apply H; [exact Hf|lia].
  - apply IH. intros f i Hf Hi. apply H; [exact Hf|lia].
Qed.

Lemma saveConfigToNVS_count (d : Device) :
  prefs (saveConfigToNVS d) !! "count"
  = Some (NvsInt (Z.of_nat (Nat.min (length (switchesLocal d)) MAX_SWITCHES))).
Proof.
  unfold saveConfigToNVS, Serial_print. simpl.
  rewrite saveSwitchesToNVS_other.
  - unfold putInt. apply lookup_insert_eq.
  - intros f i Hf _ Heq. symmetry in Heq. revert Heq.
    apply nvsKey_not_count, Hf.
Qed.

Lemma saveConfigToNVS_read (d : Device) (i : nat) (sw : SwitchState) :
  (i < MAX_SWITCHES)%nat -> switchesLocal d !! i = Some sw ->
  readSwitchFromNVS (prefs (saveConfigToNVS d)) i
  = if gpio sw <? 0 then None else Some (persistent sw).
Proof.
  intros Hi Hsw. unfold saveConfigToNVS, Serial_print. simpl.
  apply saveSwitchesToNVS_read; [|exact Hsw].
  apply lookup_lt_Some in Hsw. lia.
Qed.

(** ** Reading the snapshot back *)

Lemma initManualInput_pinIn (d1 d2 : Device) (sw : SwitchState) :
  pinIn d1 = pinIn d2 -> initManualInput d1 sw = initManualInput d2 sw.
Proof. intros H. unfold initManualInput, digitalRead. now rewrite H. Qed.

Lemma channelConfig_initManualInput (d : Device) (sw : SwitchState) :
  channelConfig (initManualInput d sw) = channelConfig sw.
Proof.
  unfold initManualInput. destruct (manualEnabled sw && (0 <=? manualGpio sw));
    reflexivity.
Qed.

Lemma channelConfig_persistent (sw : SwitchState) :
  channelConfig (persistent sw) = channelConfig sw.
Proof. reflexivity. Qed.

Lemma installSwitch_spec (sw : SwitchState) (d : Device) :
  let d' := installSwitch sw d in
  switchesLocal d' = switchesLocal d ++ [initManualInput d sw]
  /\ prefs d' = prefs d /\ pinIn d' = pinIn d
  /\ pinOut d' = <[uint8 (gpio sw) := relayLevel (state sw)]> (pinOut d)
  /\ wsConnected d' = wsConnected d /\ tx d' = tx d
  /\ nvsCommits d' = nvsCommits d /\ clock d' = clock d
  /\ lastSeqs d' = lastSeqs d /\ cmdQueue d' = cmdQueue d.
Proof.
  unfold installSwitch. rewrite digitalWrite_relay. simpl.
  repeat split; try reflexivity.
Qed.

Lemma load_loop (P : gmap string NvsValue) (sws : list SwitchState) (n : nat) :
  (forall i sw, (i < n)%nat -> sws !! i = Some sw ->
                readSwitchFromNVS P i = Some (persistent sw)) ->
  (n <= length sws)%nat ->
  forall d0 : Device,
    prefs d0 = P ->
    let d' := fold_left loadBody (seq 0 n) d0 in
    prefs d' = P /\ pinIn d' = pinIn d0
    /\ map channelConfig (switchesLocal d')
       = map channelConfig (switchesLocal d0) ++ map channelConfig (take n sws).
Proof.
  induction n as [|n IH]; intros Hread Hlen d0 HP; cbv zeta.
  - simpl. rewrite app_nil_r. auto.
  - rewrite seq_S, fold_left_app. simpl.
    destruct (IH ltac:(intros; apply Hread; auto; lia) ltac:(lia) d0 HP)
      as (I1 & I2 & I3).
    destruct (lookup_lt_is_Some_2 sws n ltac:(lia)) as [sw Hsw].
    assert (Hb : loadBody (fold_left loadBody (seq 0 n) d0) n
                 = installSwitch (persistent sw) (fold_left loadBody (seq 0 n) d0)).
    { unfold loadBody at 1. now rewrite I1, (Hread n sw ltac:(lia) Hsw). }
    rewrite Hb.
    destruct (installSwitch_spec (persistent sw)
                (fold_left loadBody (seq 0 n) d0)) as (S1 & S2 & S3 & _).
    rewrite S1, S2, S3, I1, I2.
    rewrite map_app, I3, (take_S_r _ _ _ Hsw), map_app, <- app_assoc. simpl.
    rewrite channelConfig_initManualInput, channelConfig_persistent. auto.
Qed.

(** Saving a registry whose relay pins are valid and loading into a
    device that shares only the NVS gives back the configuration of the
    first MAX_SWITCHES channels. *)
Lemma save_then_load (d d' : Device) :
  validRegistry (switchesLocal d) ->
  prefs d' = prefs (saveConfigToNVS d) ->
  (switchesLocal d = [] -> switchesLocal d' = []) ->
  map channelConfig (switchesLocal (loadConfigFromNVS d'))
  = map channelConfig (take MAX_SWITCHES (switchesLocal d)).
Proof.
  intros Hg HP Hempty. unfold loadConfigFromNVS.
  remember (Nat.min (length (switchesLocal d)) MAX_SWITCHES) as m eqn:Em.
  assert (Hcount : getInt "count" 0 (prefs d') = Z.of_nat m).
  { unfold getInt. now rewrite HP, saveConfigToNVS_count, Em. }
  rewrite Hcount.
  destruct (switchesLocal d) as [|sw0 sws] eqn:Esw.
  - subst m. simpl. now rewrite Hempty.
  - assert (Hm : (1 <= m <= MAX_SWITCHES)%nat).
    { rewrite Em. simpl length. unfold MAX_SWITCHES. lia. }
    destruct ((Z.of_nat m <=? 0) || (Z.of_nat MAX_SWITCHES <? Z.of_nat m)) eqn:E.
    { apply orb_true_iff in E as [E|E];
        [apply Z.leb_le in E | apply Z.ltb_lt in E]; lia. }
    rewrite Nat2Z.id. unfold Serial_print. cbn [switchesLocal set_serial].
    change (fun d0 i => match readSwitchFromNVS (prefs d0) i with
                        | Some sw => installSwitch sw d0
                        | None => d0
                        end) with loadBody.
    destruct (load_loop (prefs d') (sw0 :: sws) m) with
      (d0 := set_switchesLocal [] d') as (_ & _ & L3).
    + intros i sw Hi Hsw. rewrite HP.
      rewrite (saveConfigToNVS_read d i sw); [| lia | now rewrite Esw].
      unfold validRegistry in Hg. rewrite Forall_forall in Hg.
      assert (0 <= gpio sw)
        by (apply Hg; eapply list_elem_of_lookup_2; exact Hsw).
      destruct (gpio sw <? 0) eqn:E'; [apply Z.ltb_lt in E'; lia | reflexivity].
    + rewrite Em. lia.
    + reflexivity.
    + rewrite L3.
      change (switchesLocal (set_switchesLocal [] d')) with (@nil SwitchState).
      rewrite app_nil_l. f_equal. rewrite Em.
      destruct (Nat.le_gt_cases (length (sw0 :: sws)) MAX_SWITCHES) as [Hle|Hgt].
      * rewrite Nat.min_l by exact Hle. now rewrite !take_ge by lia.
      * rewrite Nat.min_r by lia. reflexivity.
Qed.

(** ** The registry holds valid relay pins *)

Lemma gpio_initManualInput (d : Device) (sw : SwitchState) :
  gpio (initManualInput d sw) = gpio sw.
Proof.
  unfold initManualInput.
  destruct (manualEnabled sw && (0 <=? manualGpio sw)); reflexivity.
Qed.

Lemma installSwitch_valid (sw : SwitchState) (d : Device) :
  0 <= gpio sw ->
  validRegistry (switchesLocal d) ->
  validRegistry (switchesLocal (installSwitch sw d)).
Proof.
  intros Hg Hv. destruct (installSwitch_spec sw d) as (-> & _).
  apply Forall_app. split; [exact Hv|].
  constructor; [|constructor]. now rewrite gpio_initManualInput.
Qed.

Lemma install_valid (parse : JsonVariant -> option SwitchState)
    (arr : list JsonVariant) :
  (forall o sw, parse o = Some sw -> 0 <= gpio sw) ->
  forall d : Device,
    validRegistry (switchesLocal d) ->
    validRegistry
      (switchesLocal
         (fold_left (fun d o => match parse o with
                                | Some sw => installSwitch sw d
                                | None => d
                                end) arr d)).
Proof.
  intros Hparse. induction arr as [|o arr IH]; intros d Hv; simpl; [exact Hv|].
  apply IH. destruct (parse o) as [sw|] eqn:E; [|exact Hv].
  apply installSwitch_valid; [eapply Hparse; exact E | exact Hv].
Qed.

Lemma Improved_parseSwitch_valid (o : JsonVariant) (sw : SwitchState) :
  Improved.parseSwitch o = Some sw -> 0 <= gpio sw.
Proof.
  unfold Improved.parseSwitch.
  destruct (relayGpioOf o <? 0) eqn:E; [discriminate|].
  intros H. injection H as <-. simpl. now apply Z.ltb_ge.
Qed.

Lemma DebugTest_parseSwitch_valid (o : JsonVariant) (sw : SwitchState) :
  DebugTest.parseSwitch o = Some sw -> 0 <= gpio sw.
Proof.
  unfold DebugTest.parseSwitch.
  destruct (or_int o.["gpio"] (-1) <? 0) eqn:E; [discriminate|].
  intros H. injection H as <-. simpl. now apply Z.ltb_ge.
Qed.

Lemma readSwitchFromNVS_valid (p : gmap string NvsValue) (i : nat)
    (sw : SwitchState) :
  readSwitchFromNVS p i = Some sw -> 0 <= gpio sw.
Proof.
  unfold readSwitchFromNVS.
  destruct (getInt (nvsKey "gpio" i) (-1) p <? 0) eqn:E; [discriminate|].
  intros H. injection H as <-. simpl. now apply Z.ltb_ge.
Qed.

Lemma Improved_loadConfigFromJsonArray_valid (arr : list JsonVariant)
    (d : Device) :
  validRegistry (switchesLocal (Improved.loadConfigFromJsonArray arr d)).
Proof.
  unfold Improved.loadConfigFromJsonArray.
  match goal with |- context [sendStateUpdate true ?x] =>
    destruct (sendStateUpdate_frame true x) as (-> & _)
  end.
  match goal with |- context [saveConfigToNVS ?x] =>
    destruct (saveConfigToNVS_frame x) as (-> & _)
  end.
  apply install_valid; [apply Improved_parseSwitch_valid | constructor].
Qed.

Lemma DebugTest_loadConfigFromJsonArray_valid (arr : list JsonVariant)
    (d : Device) :
  validRegistry (switchesLocal (DebugTest.loadConfigFromJsonArray arr d)).
Proof.
  unfold DebugTest.loadConfigFromJsonArray.
  apply install_valid; [apply DebugTest_parseSwitch_valid | constructor].
Qed.

Lemma loadConfigFromNVS_valid (d : Device) :
  validRegistry (switchesLocal d) ->
  validRegistry (switchesLocal (loadConfigFromNVS d)).
Proof.
  intros Hv. unfold loadConfigFromNVS.
  case_if; [exact Hv|].
  unfold Serial_print. cbn [switchesLocal set_serial].
  change (fun d0 i => match readSwitchFromNVS (prefs d0) i with
                      | Some sw => installSwitch sw d0
                      | None => d0
                      end) with loadBody.
  generalize (seq 0 (Z.to_nat (getInt "count" 0 (prefs d)))) as idx.
  assert (H0 : validRegistry (switchesLocal (set_switchesLocal [] d)))
    by constructor.
  revert H0. generalize (set_switchesLocal [] d) as d0.
  intros d0 H0 idx. revert d0 H0.
  induction idx as [|i idx IH]; intros d0 H0; simpl; [exact H0|].
  apply IH. unfold loadBody.
  destruct (readSwitchFromNVS (prefs d0) i) as [sw|] eqn:E; [|exact H0].
  apply installSwitch_valid; [eapply readSwitchFromNVS_valid; exact E | exact H0].
Qed.

Lemma setSwitch_valid (g : Z) (s : bool) (sws sws' : list SwitchState) :
  setSwitch g s sws = Some sws' -> validRegistry sws -> validRegistry sws'.
Proof.
  revert sws'. induction sws as [|sw rest IH]; intros sws' H Hv; simpl in H;
    [discriminate|].
  inversion Hv as [|? ? Hsw Hrest]; subst.
  destruct (gpio sw =? g).
  - injection H as <-. constructor; [exact Hsw | exact Hrest].
  - destruct (setSwitch g s rest) as [r|]; [|discriminate].
    injection H as <-. constructor; [exact Hsw|]. now apply IH.
Qed.

(** ** Round trip *)

Lemma prefs_powerCycle (d : Device) : prefs (powerCycle d) = prefs d.
Proof. reflexivity. Qed.

(** C9 as stated fails: nine channels configured by the backend are
    saved, the device restarts, and the registry read back has eight. *)
Lemma C9_counterexample :
  map channelConfig
    (switchesLocal (loadConfigFromNVS (powerCycle (saveConfigToNVS nineChannels))))
  <> map channelConfig (switchesLocal nineChannels).
Proof.
  intros H. apply (f_equal (@length _)) in H. vm_compute in H. discriminate H.
Qed.

(** C9, amended.  For every registry of at most MAX_SWITCHES = 8
    channels (with the non-negative relay pins every loader guarantees),
    saveConfigToNVS followed by loadConfigFromNVS on a device that shares
    the NVS reproduces the registry: same channel ids in the same order,
    same logical and default states, names, override flags and manual
    configurations.  (If the registry is empty the loader leaves the
    registry of the loading device alone, so that one must be empty too,
    as it is after a restart.) *)
Theorem C9_save_load_round_trip (d d' : Device) :
  (length (switchesLocal d) <= MAX_SWITCHES)%nat ->
  validRegistry (switchesLocal d) ->
  prefs d' = prefs (saveConfigToNVS d) ->
  (switchesLocal d = [] -> switchesLocal d' = []) ->
  map channelConfig (switchesLocal (loadConfigFromNVS d'))
  = map channelConfig (switchesLocal d).
Proof.
  intros Hlen Hg HP He.
  rewrite (save_then_load d d' Hg HP He).
  now rewrite take_ge by exact Hlen.
Qed.

Lemma C9_witness :
  map channelConfig
    (switchesLocal (loadConfigFromNVS (powerCycle (saveConfigToNVS factoryDevice))))
  = map channelConfig (switchesLocal factoryDevice).
Proof.
  apply C9_save_load_round_trip.
  - vm_compute. lia.
  - vm_compute. repeat constructor; discriminate.
  - apply prefs_powerCycle.
  - intros _. reflexivity.
Defined.

Lemma Improved_install_length (arr : list JsonVariant) :
  forall d0 : Device,
    length (switchesLocal
              (fold_left (fun d o => match Improved.parseSwitch o with
                                     | Some sw => installSwitch sw d
                                     | None => d
                                     end) arr d0))
    = Nat.add (length (switchesLocal d0))
              (length (List.filter (fun o => 0 <=? relayGpioOf o) arr)).
Proof.
  induction arr as [|o arr IH]; intros d0; simpl; [lia|].
  rewrite IH. unfold Improved.parseSwitch.
  destruct (relayGpioOf o <? 0) eqn:E.
  - replace (0 <=? relayGpioOf o) with false
      by (symmetry; apply Z.leb_gt; now apply Z.ltb_lt).
    reflexivity.
  - replace (0 <=? relayGpioOf o) with true
      by (symmetry; apply Z.leb_le; now apply Z.ltb_ge).
    unfold installSwitch. simpl. rewrite length_app. simpl. lia.
Qed.

Lemma Improved_loadConfigFromJsonArray_registry (arr : list JsonVariant)
    (d : Device) :
  length (switchesLocal (Improved.loadConfigFromJsonArray arr d))
  = length (List.filter (fun o => 0 <=? relayGpioOf o) arr).
Proof.
  unfold Improved.loadConfigFromJsonArray.
  match goal with |- context [sendStateUpdate true ?x] =>
    destruct (sendStateUpdate_frame true x) as (-> & _)
  end.
  match goal with |- context [saveConfigToNVS ?x] =>
    destruct (saveConfigToNVS_frame x) as (-> & _)
  end.
  now rewrite Improved_install_length.
Qed.

(** C10.  saveConfigToNVS stores count = min(registry size,
    MAX_SWITCHES) and writes no key of an index 8 or above, while
    loadConfigFromJsonArray builds one registry entry for every array
    element with a valid relay pin, however many there are; so when the
    registry has more than 8 channels the snapshot holds only the first
    8: that is what loadConfigFromNVS reads back from it. *)
Theorem C10_snapshot_capped_at_MAX_SWITCHES (d : Device) :
  prefs (saveConfigToNVS d) !! "count"
  = Some (NvsInt (Z.of_nat (Nat.min (length (switchesLocal d)) MAX_SWITCHES)))
  /\ (forall f i, In f nvsFieldNames -> (MAX_SWITCHES <= i)%nat ->
        prefs (saveConfigToNVS d) !! nvsKey f i = prefs d !! nvsKey f i)
  /\ (forall arr d0,
        length (switchesLocal (Improved.loadConfigFromJsonArray arr d0))
        = length (List.filter (fun o => 0 <=? relayGpioOf o) arr))
  /\ ((MAX_SWITCHES < length (switchesLocal d))%nat ->
      validRegistry (switchesLocal d) ->
      forall d', prefs d' = prefs (saveConfigToNVS d) ->
        map channelConfig (switchesLocal (loadConfigFromNVS d'))
        = map channelConfig (take MAX_SWITCHES (switchesLocal d))
        /\ length (switchesLocal (loadConfigFromNVS d')) = MAX_SWITCHES).
Proof.
  split; [apply saveConfigToNVS_count|].
  split; [|split; [apply Improved_loadConfigFromJsonArray_registry|]].
  - intros f i Hf Hi. unfold saveConfigToNVS, Serial_print. simpl.
    rewrite saveSwitchesToNVS_other.
    + unfold putInt. apply lookup_insert_ne.
      apply not_eq_sym, nvsKey_not_count, Hf.
    + intros g j Hg Hj Heq. apply nvsKey_inj in Heq as [_ ->]; auto.
      unfold MAX_SWITCHES in *. lia.
  - intros Hlen Hg d' HP.
    assert (H : map channelConfig (switchesLocal (loadConfigFromNVS d'))
                = map channelConfig (take MAX_SWITCHES (switchesLocal d))).
    { apply save_then_load; auto.
      intros E. rewrite E in Hlen. simpl in Hlen. lia. }
    split; [exact H|].
    apply (f_equal (@length _)) in H.
    rewrite !length_map, length_take in H. lia.
Qed.

Lemma C10_witness :
  (MAX_SWITCHES < length (switchesLocal nineChannels))%nat
  /\ length (switchesLocal
               (loadConfigFromNVS (powerCycle (saveConfigToNVS nineChannels))))
     = MAX_SWITCHES.
Proof.
  assert (H1 : (MAX_SWITCHES < length (switchesLocal nineChannels))%nat)
    by (vm_compute; lia).
  assert (H2 : validRegistry (switchesLocal nineChannels))
    by (vm_compute; repeat constructor; discriminate).
  split; [exact H1|].
  exact (proj2 (proj2 (proj2 (proj2 (C10_snapshot_capped_at_MAX_SWITCHES nineChannels)))
                 H1 H2 _ (prefs_powerCycle _))).
Defined.

(** ** The session guard *)

(** C2 as stated fails: the socket is connected, the handshake is not
    complete, and both a heartbeat and a state update go out. *)
Lemma C2_counterexample :
  sessionEstablished awaitingIdentified = false
  /\ identified awaitingIdentified = false
  /\ tx (sendHeartbeat awaitingIdentified)
     = tx awaitingIdentified ++ [MHeartbeat 30 false]
  /\ tx (sendStateUpdate true awaitingIdentified)
     = tx awaitingIdentified ++ [MStateUpdate 30000 30000 []]
  /\ tx (sendHeartbeat awaitingIdentified) <> tx awaitingIdentified.
Proof. vm_compute. repeat split; auto; discriminate. Qed.

(** The [connState] variable is no guard either: with WiFi reported down
    and the socket not yet closed, the heartbeat still goes out. *)
Example heartbeat_with_wifi_down :
  let d := loop_connectivity
             (surroundings true false (fun _ => HIGH) awaitingIdentified) in
  connState d = WIFI_DISCONNECTED
  /\ tx (sendHeartbeat d) = tx d ++ [MHeartbeat 30 true].
Proof. vm_compute. auto. Qed.

Lemma quiet_id : quiet (fun d => d).
Proof. intros d H. auto. Qed.

Lemma quiet_compose (f g : Device -> Device) :
  quiet f -> quiet g -> quiet (fun d => g (f d)).
Proof.
  intros Hf Hg d H. destruct (Hf d H) as [F1 F2].
  destruct (Hg (f d) F1) as [G1 G2]. split; congruence.
Qed.

Lemma quiet_fold {A : Type} (f : Device -> A -> Device) (l : list A) :
  (forall a, quiet (fun d => f d a)) -> quiet (fun d => fold_left f l d).
Proof.
  intros Hf. induction l as [|a l IH]; simpl; [apply quiet_id|].
  intros d H. destruct (Hf a d H) as [F1 F2].
  destruct (IH (f d a) F1) as [G1 G2]. split; congruence.
Qed.

Ltac quiet_prim :=
  let d := fresh "d" in let H := fresh "H" in
  intros d H; simpl; rewrite ?H; simpl;
  repeat (case_if; simpl; rewrite ?H; simpl); auto; try congruence.

Ltac quiet_at lem H :=
  match goal with
  | |- wsConnected (_ ?x) = false /\ _ => exact (lem x H)
  end.

Lemma quiet_sendJson (doc : Msg) : quiet (sendJson doc).
Proof. unfold sendJson. quiet_prim. Qed.

Lemma quiet_identify : quiet identify.
Proof. unfold identify, sendJson. quiet_prim. Qed.

Lemma quiet_sendStateUpdate (force : bool) : quiet (sendStateUpdate force).
Proof. unfold sendStateUpdate, sendJson, Serial_print. quiet_prim. Qed.

Lemma quiet_sendHeartbeat : quiet sendHeartbeat.
Proof. unfold sendHeartbeat, sendJson, Serial_print. quiet_prim. Qed.

Lemma quiet_Serial_print (l : SerialLine) : quiet (Serial_print l).
Proof. unfold Serial_print. quiet_prim. Qed.

Lemma quiet_queueSwitchCommand (g : Z) (s : bool) :
  quiet (queueSwitchCommand g s).
Proof. unfold queueSwitchCommand, xQueueSend, Serial_print. quiet_prim. Qed.

Lemma quiet_saveConfigToNVS : quiet saveConfigToNVS.
Proof. unfold saveConfigToNVS, Serial_print. quiet_prim. Qed.

Lemma quiet_installSwitch (sw : SwitchState) : quiet (installSwitch sw).
Proof. unfold installSwitch, digitalWrite. quiet_prim. Qed.

Lemma quiet_blinkStatus : quiet blinkStatus.
Proof. unfold blinkStatus, digitalWrite. quiet_prim. Qed.

Lemma quiet_delay (ms : N) : quiet (delay ms).
Proof. unfold delay. quiet_prim. Qed.

Lemma quiet_loop_connectivity : quiet loop_connectivity.
Proof. unfold loop_connectivity, identify, sendJson. quiet_prim. Qed.

Lemma quiet_handleManualSwitches : quiet handleManualSwitches.
Proof.
  assert (L : forall now sws d,
    wsConnected d = false ->
    wsConnected (snd (handleManualSwitches_loop now sws d)) = false
    /\ tx (snd (handleManualSwitches_loop now sws d)) = tx d).
  { intros now sws. induction sws as [|sw rest IH]; intros d H; simpl; [auto|].
    destruct (negb (manualEnabled sw) || (manualGpio sw <? 0)).
    - specialize (IH d H).
      destruct (handleManualSwitches_loop now rest d); exact IH.
    - destruct (manualSwitchStep now (digitalRead (manualGpio sw) d) sw)
        as [sw' [[g s]|]].
      + destruct (quiet_queueSwitchCommand g s d H) as [Q1 Q2].
        specialize (IH _ Q1).
        destruct (handleManualSwitches_loop now rest _); simpl in *.
        split; [tauto | destruct IH; congruence].
      + specialize (IH d H).
        destruct (handleManualSwitches_loop now rest d); exact IH. }
  intros d H. unfold handleManualSwitches.
  specialize (L (millis d) (switchesLocal d) d H).
  destruct (handleManualSwitches_loop (millis d) (switchesLocal d) d).
  exact L.
Qed.

Lemma quiet_Improved_applySwitchState (g : Z) (s : bool) :
  quiet (fun d => snd (Improved.applySwitchState g s d)).
Proof.
  intros d H. unfold Improved.applySwitchState.
  destruct (setSwitch g s (switchesLocal d)) as [sws|]; simpl.
  - apply (quiet_compose saveConfigToNVS (sendStateUpdate true)
             quiet_saveConfigToNVS (quiet_sendStateUpdate true)
             (Serial_print (LogSwitch g s)
                (digitalWrite g (relayLevel s) (set_switchesLocal sws d)))).
    exact H.
  - auto.
Qed.

Lemma quiet_DebugTest_applySwitchState (g : Z) (s : bool) :
  quiet (fun d => snd (DebugTest.applySwitchState g s d)).
Proof.
  intros d H. unfold DebugTest.applySwitchState.
  destruct (setSwitch g s (switchesLocal d)) as [sws|]; simpl.
  - apply (quiet_sendStateUpdate true
             (set_cfgDirty true (Serial_print (LogSwitch g s)
                (digitalWrite g (relayLevel s) (set_switchesLocal sws d))))).
    exact H.
  - auto.
Qed.

Lemma quiet_Improved_processCommandQueue : quiet Improved.processCommandQueue.
Proof.
  intros d H. unfold Improved.processCommandQueue.
  case_if; [auto|]. simpl.
  destruct (cmdQueue d) as [|cmd q]; simpl; [auto|].
  destruct (cmd_valid cmd); [|auto].
  apply (quiet_Improved_applySwitchState _ _
           (set_cmdQueue q (set_lastCommandProcess (millis d) d))).
  exact H.
Qed.

Lemma quiet_DebugTest_drainQueue (k : nat) : quiet (DebugTest.drainQueue k).
Proof.
  induction k as [|k IH]; [apply quiet_id|].
  intros d H. simpl. destruct (cmdQueue d) as [|cmd q]; simpl; [auto|].
  destruct (cmd_valid cmd).
  - destruct (quiet_DebugTest_applySwitchState (cmd_gpio cmd) (cmd_state cmd)
                (set_cmdQueue q d) H) as [A1 A2].
    destruct (IH _ A1) as [I1 I2]. simpl in *. split; congruence.
  - apply (IH (set_cmdQueue q d)). exact H.
Qed.

Lemma quiet_DebugTest_processCommandQueue : quiet DebugTest.processCommandQueue.
Proof.
  intros d H. unfold DebugTest.processCommandQueue.
  case_if; [auto|].
  apply (quiet_DebugTest_drainQueue 4 (set_lastCommandProcess (millis d) d)).
  exact H.
Qed.

Lemma quiet_DebugTest_maybeSaveConfig : quiet DebugTest.maybeSaveConfig.
Proof.
  intros d H. unfold DebugTest.maybeSaveConfig.
  repeat case_if; auto.
Qed.

Lemma quiet_install (parse : JsonVariant -> option SwitchState)
    (o : JsonVariant) :
  quiet (fun d => match parse o with
                  | Some sw => installSwitch sw d
                  | None => d
                  end).
Proof.
  destruct (parse o); [apply quiet_installSwitch | apply quiet_id].
Qed.

Lemma quiet_Improved_loadConfigFromJsonArray (arr : list JsonVariant) :
  quiet (Improved.loadConfigFromJsonArray arr).
Proof.
  unfold Improved.loadConfigFromJsonArray.
  intros d H.
  apply (quiet_compose _ _
           (quiet_compose _ _
              (quiet_fold _ arr (quiet_install Improved.parseSwitch))
              quiet_saveConfigToNVS)
           (quiet_sendStateUpdate true) (set_switchesLocal [] d)).
  exact H.
Qed.

Lemma quiet_DebugTest_loadConfigFromJsonArray (arr : list JsonVariant) :
  quiet (DebugTest.loadConfigFromJsonArray arr).
Proof.
  unfold DebugTest.loadConfigFromJsonArray.
  intros d H.
  apply (quiet_fold _ arr (quiet_install DebugTest.parseSwitch)
           (set_switchesLocal [] d)).
  exact H.
Qed.

Section QuietText.

Variable loadConfigFromJsonArray : list JsonVariant -> Device -> Device.
Hypothesis quiet_load : forall arr, quiet (loadConfigFromJsonArray arr).

Lemma quiet_onWsText (payload : option JsonVariant) :
  quiet (onWsText loadConfigFromJsonArray payload).
Proof.
  intros d H. unfold onWsText. destruct payload as [doc|]; [|auto].
  repeat case_if; auto.
  - unfold onIdentified. destruct (doc.["switches"]) as [| | | |arr|]; auto.
    quiet_at (quiet_load arr) H.
  - unfold onConfigUpdate. destruct (doc.["switches"]) as [| | | |arr|]; auto.
    quiet_at (quiet_load arr) H.
  - apply quiet_queueSwitchCommand. exact H.
  - unfold onBulkSwitchCommand. destruct (doc.["commands"]) as [| | | |cmds|]; auto.
    assert (L : forall cmds acc,
      wsConnected (snd acc) = false ->
      wsConnected (snd (fold_left bulkEntry cmds acc)) = false
      /\ tx (snd (fold_left bulkEntry cmds acc)) = tx (snd acc)).
    { clear. intros cmds. induction cmds as [|c cmds IH]; intros acc Hacc;
        simpl; [auto|].
      destruct acc as [n d0]. unfold bulkEntry at 2 4.
      destruct (0 <=? relayGpioOf c).
      - destruct (quiet_queueSwitchCommand (relayGpioOf c)
          (if is_bool c.["state"] then as_bool c.["state"] else false) d0 Hacc)
          as [Q1 Q2].
        destruct (IH (n + 1, queueSwitchCommand (relayGpioOf c)
          (if is_bool c.["state"] then as_bool c.["state"] else false) d0) Q1)
          as [I1 I2].
        simpl in *. split; congruence.
      - destruct (IH (n, Serial_print LogBulkInvalidGpio d0) Hacc) as [I1 I2].
        simpl in *. split; congruence. }
    specialize (L cmds (0, d) H).
    destruct (fold_left bulkEntry cmds (0, d)) as [processed d1].
    simpl in L. destruct L as [L1 L2].
    unfold sendJson, Serial_print. simpl. rewrite L1. simpl. auto.
Qed.

End QuietText.

Lemma quiet_Improved_onWsEvent (ev : WsEvent) : quiet (Improved.onWsEvent ev).
Proof.
  destruct ev as [| |payload|]; unfold Improved.onWsEvent.
  - intros d H.
    destruct (quiet_identify
      (digitalWrite STATUS_LED_PIN HIGH
         (set_connState BACKEND_CONNECTED
            (set_isOfflineMode false (set_identified false d)))) H) as [I1 I2].
    destruct (quiet_sendStateUpdate true _ I1) as [S1 S2].
    split; [exact S1 | now rewrite S2, I2].
  - unfold digitalWrite. quiet_prim.
  - apply quiet_onWsText, quiet_Improved_loadConfigFromJsonArray.
  - apply quiet_id.
Qed.

Lemma quiet_DebugTest_onWsEvent (ev : WsEvent) : quiet (DebugTest.onWsEvent ev).
Proof.
  destruct ev as [| |payload|]; unfold DebugTest.onWsEvent.
  - intros d H.
    destruct (quiet_identify
      (digitalWrite STATUS_LED_PIN HIGH
         (set_connState BACKEND_CONNECTED
            (set_isOfflineMode false (set_identified false d)))) H) as [I1 I2].
    destruct (quiet_sendStateUpdate true _ I1) as [S1 S2].
    split; [exact S1 | now rewrite S2, I2].
  - intros d H. quiet_at quiet_DebugTest_maybeSaveConfig H.
  - apply quiet_onWsText, quiet_DebugTest_loadConfigFromJsonArray.
  - apply quiet_id.
Qed.

Section QuietLoop.

Variable onWsEvent : WsEvent -> Device -> Device.
Hypothesis quiet_onWsEvent : forall ev, quiet (onWsEvent ev).

Lemma quiet_ws_loop (evs : list WsEvent) :
  Forall (fun ev => ev <> WStype_CONNECTED) evs ->
  quiet (fun d => fold_left (fun d ev => onWsEvent ev (ws_status ev d)) evs d).
Proof.
  induction 1 as [|ev evs Hev _ IH]; simpl; [apply quiet_id|].
  intros d H.
  assert (Hs : wsConnected (ws_status ev d) = false /\ tx (ws_status ev d) = tx d).
  { destruct ev; simpl; auto. congruence. }
  destruct Hs as [S1 S2].
  destruct (quiet_onWsEvent ev _ S1) as [E1 E2].
  destruct (IH _ E1) as [I1 I2]. split; congruence.
Qed.

End QuietLoop.

Lemma quiet_pending : quiet (fun d => if pendingState d then sendStateUpdate true d else d).
Proof.
  intros d H. destruct (pendingState d); [|auto].
  now apply quiet_sendStateUpdate.
Qed.

Lemma quiet_Improved_loop (evs : list WsEvent) :
  Forall (fun ev => ev <> WStype_CONNECTED) evs -> quiet (Improved.loop evs).
Proof.
  intros Hevs d H. unfold Improved.loop, Improved.ws_loop.
  pose proof (quiet_loop_connectivity d H) as [A1 A2].
  pose proof (quiet_ws_loop _ quiet_Improved_onWsEvent evs Hevs _ A1) as [B1 B2].
  pose proof (quiet_Improved_processCommandQueue _ B1) as [C1 C2].
  pose proof (quiet_handleManualSwitches _ C1) as [D1 D2].
  pose proof (quiet_sendHeartbeat _ D1) as [E1 E2].
  pose proof (quiet_blinkStatus _ E1) as [F1 F2].
  pose proof (quiet_pending _ F1) as [G1 G2].
  pose proof (quiet_delay 10 _ G1) as [K1 K2].
  cbv beta zeta in *. split; [exact K1 | congruence].
Qed.

Lemma quiet_DebugTest_loop (evs : list WsEvent) :
  Forall (fun ev => ev <> WStype_CONNECTED) evs -> quiet (DebugTest.loop evs).
Proof.
  intros Hevs d H. unfold DebugTest.loop, DebugTest.ws_loop.
  pose proof (quiet_loop_connectivity d H) as [A1 A2].
  pose proof (quiet_ws_loop _ quiet_DebugTest_onWsEvent evs Hevs _ A1) as [B1 B2].
  pose proof (quiet_DebugTest_processCommandQueue _ B1) as [C1 C2].
  pose proof (quiet_handleManualSwitches _ C1) as [D1 D2].
  pose proof (quiet_sendHeartbeat _ D1) as [E1 E2].
  pose proof (quiet_blinkStatus _ E1) as [F1 F2].
  pose proof (quiet_pending _ F1) as [G1 G2].
  pose proof (quiet_DebugTest_maybeSaveConfig _ G1) as [M1 M2].
  pose proof (quiet_delay 10 _ M1) as [K1 K2].
  cbv beta zeta in *. split; [exact K1 | congruence].
Qed.

(** C2, amended.  While the WebSocket is not connected
    (ws.isConnected() is false) every outbound message is a no-op:
    sendJson leaves the device as it was, so the message is neither
    transmitted nor kept for later, and identify, heartbeat,
    state_update, every event handler and a whole pass of loop() that
    sees no connect event transmit nothing.  The guard is the socket, not
    the identify/identified handshake. *)
Theorem C2_no_transmission_while_socket_down (d : Device) :
  wsConnected d = false ->
  (forall doc, sendJson doc d = d)
  /\ tx (identify d) = tx d
  /\ (forall force, tx (sendStateUpdate force d) = tx d)
  /\ pendingState (sendStateUpdate true d) = false
  /\ tx (sendHeartbeat d) = tx d
  /\ (forall ev, tx (Improved.onWsEvent ev d) = tx d
                 /\ tx (DebugTest.onWsEvent ev d) = tx d)
  /\ (forall evs, Forall (fun ev => ev <> WStype_CONNECTED) evs ->
        tx (Improved.loop evs d) = tx d /\ tx (DebugTest.loop evs d) = tx d).
Proof.
  intros H. repeat split.
  - intros doc. unfold sendJson. now rewrite H.
  - apply quiet_identify, H.
  - intros force. apply quiet_sendStateUpdate, H.
  - unfold sendStateUpdate. simpl. rewrite H. reflexivity.
  - apply quiet_sendHeartbeat, H.
  - apply quiet_Improved_onWsEvent, H.
  - apply quiet_DebugTest_onWsEvent, H.
  - now apply quiet_Improved_loop.
  - now apply quiet_DebugTest_loop.
Qed.

Lemma C2_witness :
  wsConnected boot = false
  /\ tx (sendHeartbeat (delay 30000 boot)) = []
  /\ tx (Improved.loop [WStype_DISCONNECTED] boot) = [].
Proof.
  split; [reflexivity|]. split.
  - exact (proj1 (proj2 (proj2 (proj2 (proj2
      (C2_no_transmission_while_socket_down (delay 30000 boot) eq_refl)))))).
  - refine (proj1 (proj2 (proj2 (proj2 (proj2 (proj2 (proj2
      (C2_no_transmission_while_socket_down boot eq_refl)))))) _ _)).
    repeat constructor; discriminate.
Defined.

(** ** Broadcasts *)

Lemma setSwitch_idempotent (g : Z) (s : bool) (sws sws' : list SwitchState) :
  setSwitch g s sws = Some sws' -> setSwitch g s sws' = Some sws'.
Proof.
  revert sws'. induction sws as [|sw rest IH]; intros sws' H; simpl in H;
    [discriminate|].
  destruct (gpio sw =? g) eqn:E.
  - injection H as <-. simpl. rewrite E. reflexivity.
  - destruct (setSwitch g s rest) as [r|] eqn:Er; [|discriminate].
    injection H as <-. simpl. rewrite E. now rewrite (IH r eq_refl).
Qed.

Lemma sendStateUpdate_forced (d : Device) :
  wsConnected d = true ->
  let d' := sendStateUpdate true d in
  tx d' = tx d ++ [stateUpdateOf d]
  /\ pendingState d' = false
  /\ lastStateSent d' = millis d.
Proof.
  intros H. unfold sendStateUpdate, sendJson, Serial_print, stateUpdateOf.
  simpl. rewrite H. simpl. auto.
Qed.

(** Inside the window a call that is not forced sends nothing and raises
    the pending flag. *)
Lemma sendStateUpdate_debounced (d : Device) :
  ulong_sub (millis d) (lastStateSent d) < STATE_DEBOUNCE_MS ->
  sendStateUpdate false d = set_pendingState true d.
Proof.
  intros H. unfold sendStateUpdate. simpl.
  apply Z.ltb_lt in H. now rewrite H.
Qed.

Lemma Improved_apply_known (g : Z) (s : bool) (d : Device)
    (sws : list SwitchState) :
  wsConnected d = true ->
  setSwitch g s (switchesLocal d) = Some sws ->
  let d' := snd (Improved.applySwitchState g s d) in
  switchesLocal d' = sws
  /\ pinOut d' = <[uint8 g := relayLevel s]> (pinOut d)
  /\ tx d' = tx d ++ [MStateUpdate (to_long (millis d)) (to_long (millis d))
                        (map stateUpdateEntry sws)]
  /\ pendingState d' = false
  /\ wsConnected d' = true /\ clock d' = clock d
  /\ nvsCommits d' = clock d :: nvsCommits d.
Proof.
  intros Hws Hset. unfold Improved.applySwitchState. rewrite Hset.
  cbv zeta. cbn [snd].
  set (d0 := Serial_print (LogSwitch g s)
               (digitalWrite g (relayLevel s) (set_switchesLocal sws d))).
  destruct (saveConfigToNVS_frame d0)
    as (G1 & _ & G3 & _ & G5 & G6 & G7 & _ & _ & _ & _ & _ & G8 & _).
  destruct (sendStateUpdate_forced (saveConfigToNVS d0)) as (S1 & S2 & _);
    [now rewrite G5|].
  destruct (sendStateUpdate_frame true (saveConfigToNVS d0))
    as (F1 & _ & F3 & _ & F5 & F6 & _ & F8 & _).
  cbv zeta in *.
  rewrite F1, F3, F5, F6, F8, S1, S2, G1, G3, G5, G6, G7, G8.
  unfold stateUpdateOf, millis. rewrite G1, G3.
  subst d0. rewrite digitalWrite_relay.
  repeat split; auto.
Qed.

Lemma DebugTest_apply_known (g : Z) (s : bool) (d : Device)
    (sws : list SwitchState) :
  wsConnected d = true ->
  setSwitch g s (switchesLocal d) = Some sws ->
  let d' := snd (DebugTest.applySwitchState g s d) in
  switchesLocal d' = sws
  /\ pinOut d' = <[uint8 g := relayLevel s]> (pinOut d)
  /\ tx d' = tx d ++ [MStateUpdate (to_long (millis d)) (to_long (millis d))
                        (map stateUpdateEntry sws)]
  /\ pendingState d' = false
  /\ wsConnected d' = true /\ clock d' = clock d
  /\ nvsCommits d' = nvsCommits d /\ cfgDirty d' = true.
Proof.
  intros Hws Hset. unfold DebugTest.applySwitchState. rewrite Hset.
  cbv zeta. cbn [snd].
  set (d0 := set_cfgDirty true (Serial_print (LogSwitch g s)
               (digitalWrite g (relayLevel s) (set_switchesLocal sws d)))).
  destruct (sendStateUpdate_forced d0) as (S1 & S2 & _); [exact Hws|].
  destruct (sendStateUpdate_frame true d0)
    as (F1 & _ & F3 & _ & F5 & F6 & _ & F8 & F9 & _).
  cbv zeta in *.
  rewrite F1, F3, F5, F6, F8, F9, S1, S2.
  subst d0. rewrite digitalWrite_relay.
  repeat split; auto.
Qed.

(** C3 as stated fails: the same command applied twice, 100 apart and so
    within the window, sends two state updates, and no broadcast is ever
    left pending. *)
Lemma C3_counterexample :
  let d1 := snd (Improved.applySwitchState 4 true sessionDevice) in
  let d2 := snd (Improved.applySwitchState 4 true (delay 100 d1)) in
  clock d2 - clock sessionDevice < STATE_DEBOUNCE_MS
  /\ tx d2 = tx sessionDevice
             ++ [MStateUpdate 0 0 [(4, true, false)];
                 MStateUpdate 100 100 [(4, true, false)]]
  /\ length (tx d2) = (length (tx sessionDevice) + 2)%nat
  /\ pendingState d1 = false /\ pendingState d2 = false.
Proof. vm_compute. auto 10. Qed.

(** C3, amended.  Applying the same (channel, state) command twice drives
    the relay to the same level both times, so the output changes at
    most once and the registry is the same after the second application
    as after the first; but each application sends its own state
    broadcast at once when the socket is connected, because
    applySwitchState calls sendStateUpdate(true) and a forced call
    bypasses the STATE_DEBOUNCE_MS = 200 window and leaves no broadcast
    pending.  Only a call that is not forced is debounced: within 200 of
    the last broadcast it sends nothing and sets the pending flag, and
    the next pass of loop() then sends one broadcast and clears the
    flag. *)
Theorem C3_repeated_apply_broadcasts_each_time
    (g : Z) (s : bool) (d : Device) (sws : list SwitchState) :
  wsConnected d = true ->
  setSwitch g s (switchesLocal d) = Some sws ->
  (let d1 := snd (Improved.applySwitchState g s d) in
   let d2 := snd (Improved.applySwitchState g s d1) in
   switchesLocal d1 = sws /\ switchesLocal d2 = sws
   /\ pinOut d2 = pinOut d1
   /\ tx d2 = tx d ++ [stateUpdateOf d1; stateUpdateOf d1]
   /\ pendingState d2 = false)
  /\ (let d1 := snd (DebugTest.applySwitchState g s d) in
      let d2 := snd (DebugTest.applySwitchState g s d1) in
      switchesLocal d1 = sws /\ switchesLocal d2 = sws
      /\ pinOut d2 = pinOut d1
      /\ tx d2 = tx d ++ [stateUpdateOf d1; stateUpdateOf d1]
      /\ pendingState d2 = false)
  /\ (ulong_sub (millis d) (lastStateSent d) < STATE_DEBOUNCE_MS ->
      let d1 := sendStateUpdate false d in
      tx d1 = tx d /\ pendingState d1 = true
      /\ tx (flushPending d1) = tx d ++ [stateUpdateOf d]
      /\ pendingState (flushPending d1) = false).
Proof.
  intros Hws Hset. split; [|split].
  - destruct (Improved_apply_known g s d sws Hws Hset)
      as (A1 & A2 & A3 & A4 & A5 & A6 & _).
    cbv zeta in *.
    destruct (Improved_apply_known g s _ sws A5
                ltac:(rewrite A1; eapply setSwitch_idempotent; eauto))
      as (B1 & B2 & B3 & B4 & _).
    cbv zeta in *.
    rewrite A1, B1, B2, B3, B4, A2, A3, insert_insert_eq.
    unfold stateUpdateOf, millis. rewrite A1, A6, <- app_assoc. auto.
  - destruct (DebugTest_apply_known g s d sws Hws Hset)
      as (A1 & A2 & A3 & A4 & A5 & A6 & _).
    cbv zeta in *.
    destruct (DebugTest_apply_known g s _ sws A5
                ltac:(rewrite A1; eapply setSwitch_idempotent; eauto))
      as (B1 & B2 & B3 & B4 & _).
    cbv zeta in *.
    rewrite A1, B1, B2, B3, B4, A2, A3, insert_insert_eq.
    unfold stateUpdateOf, millis. rewrite A1, A6, <- app_assoc. auto.
  - intros Hwin. cbv zeta. rewrite (sendStateUpdate_debounced d Hwin).
    unfold flushPending. cbn [pendingState set_pendingState tx].
    destruct (sendStateUpdate_forced (set_pendingState true d) Hws)
      as (S1 & S2 & _).
    cbv zeta in *. rewrite S1, S2. auto.
Qed.

Lemma C3_witness :
  (wsConnected sessionDevice = true
   /\ setSwitch 4 true (switchesLocal sessionDevice) = Some channel4On)
  /\ tx (snd (Improved.applySwitchState 4 true
               (snd (Improved.applySwitchState 4 true sessionDevice))))
     = tx sessionDevice
       ++ [MStateUpdate 0 0 [(4, true, false)];
           MStateUpdate 0 0 [(4, true, false)]].
Proof.
  assert (H1 : wsConnected sessionDevice = true) by reflexivity.
  assert (H2 : setSwitch 4 true (switchesLocal sessionDevice) = Some channel4On)
    by reflexivity.
  split; [split; assumption|].
  destruct (C3_repeated_apply_broadcasts_each_time 4 true sessionDevice
              channel4On H1 H2) as ((_ & _ & _ & H & _) & _).
  exact H.
Defined.

(** ** Frames *)

Section Frame.

(** An observation that does not read the fields named in the
    hypotheses is left alone by every function that writes only those
    fields.  A lemma depends on the hypotheses of the fields its
    function writes, and on no other. *)
Context {A : Type} (obs : Device -> A).

Hypothesis obs_serial : forall v d, obs (set_serial v d) = obs d.
Hypothesis obs_tx : forall v d, obs (set_tx v d) = obs d.
Hypothesis obs_cmdQueue : forall v d, obs (set_cmdQueue v d) = obs d.
Hypothesis obs_switchesLocal : forall v d, obs (set_switchesLocal v d) = obs d.
Hypothesis obs_pinOut : forall v d, obs (set_pinOut v d) = obs d.
Hypothesis obs_pendingState : forall v d, obs (set_pendingState v d) = obs d.
Hypothesis obs_lastStateSent : forall v d, obs (set_lastStateSent v d) = obs d.
Hypothesis obs_lastHeartbeat : forall v d, obs (set_lastHeartbeat v d) = obs d.
Hypothesis obs_lastIdentifyAttempt :
  forall v d, obs (set_lastIdentifyAttempt v d) = obs d.
Hypothesis obs_lastCommandProcess :
  forall v d, obs (set_lastCommandProcess v d) = obs d.
Hypothesis obs_connState : forall v d, obs (set_connState v d) = obs d.
Hypothesis obs_isOfflineMode : forall v d, obs (set_isOfflineMode v d) = obs d.
Hypothesis obs_lastWiFiRetry : forall v d, obs (set_lastWiFiRetry v d) = obs d.
Hypothesis obs_identified : forall v d, obs (set_identified v d) = obs d.
Hypothesis obs_cfgDirty : forall v d, obs (set_cfgDirty v d) = obs d.
Hypothesis obs_prefs : forall v d, obs (set_prefs v d) = obs d.
Hypothesis obs_nvsCommits : forall v d, obs (set_nvsCommits v d) = obs d.
Hypothesis obs_lastCfgSave : forall v d, obs (set_lastCfgSave v d) = obs d.

Ltac frame_rw :=
  repeat first
    [ rewrite obs_serial | rewrite obs_tx | rewrite obs_cmdQueue
    | rewrite obs_switchesLocal | rewrite obs_pinOut
    | rewrite obs_pendingState | rewrite obs_lastStateSent
    | rewrite obs_lastHeartbeat | rewrite obs_lastIdentifyAttempt
    | rewrite obs_lastCommandProcess | rewrite obs_connState
    | rewrite obs_isOfflineMode | rewrite obs_lastWiFiRetry
    | rewrite obs_identified | rewrite obs_cfgDirty | rewrite obs_prefs
    | rewrite obs_nvsCommits | rewrite obs_lastCfgSave ].

Ltac frame := intros ?d; repeat case_if; frame_rw; try reflexivity.

Lemma keeps_id : keeps obs (fun d => d).
Proof. intros d. reflexivity. Qed.

Lemma keeps_compose (f g : Device -> Device) :
  keeps obs f -> keeps obs g -> keeps obs (fun d => g (f d)).
Proof. intros Hf Hg d. now rewrite Hg, Hf. Qed.

Lemma keeps_fold {B : Type} (f : Device -> B -> Device) (l : list B) :
  (forall b, keeps obs (fun d => f d b)) ->
  keeps obs (fun d => fold_left f l d).
Proof.
  intros Hf. induction l as [|b l IH]; intros d; simpl; [reflexivity|].
  rewrite IH. apply Hf.
Qed.

Lemma keeps_Serial_print (l : SerialLine) : keeps obs (Serial_print l).
Proof. unfold Serial_print. frame. Qed.

Lemma keeps_digitalWrite (pin level : Z) : keeps obs (digitalWrite pin level).
Proof. unfold digitalWrite. frame. Qed.

Lemma keeps_sendJson (doc : Msg) : keeps obs (sendJson doc).
Proof. unfold sendJson. frame. Qed.

Lemma keeps_identify : keeps obs identify.
Proof. unfold identify, sendJson. frame. Qed.

Lemma keeps_sendStateUpdate (force : bool) : keeps obs (sendStateUpdate force).
Proof. unfold sendStateUpdate, sendJson, Serial_print. frame. Qed.

Lemma keeps_flushPending : keeps obs flushPending.
Proof.
  intros d. unfold flushPending. destruct (pendingState d); [|reflexivity].
  apply keeps_sendStateUpdate.
Qed.

Lemma keeps_sendHeartbeat : keeps obs sendHeartbeat.
Proof. unfold sendHeartbeat, sendJson, Serial_print. frame. Qed.

Lemma keeps_queueSwitchCommand (g : Z) (s : bool) :
  keeps obs (queueSwitchCommand g s).
Proof. unfold queueSwitchCommand, xQueueSend, Serial_print. frame. Qed.

Lemma keeps_saveConfigToNVS : keeps obs saveConfigToNVS.
Proof. unfold saveConfigToNVS, Serial_print. frame. Qed.

Lemma keeps_installSwitch (sw : SwitchState) : keeps obs (installSwitch sw).
Proof. unfold installSwitch, digitalWrite. frame. Qed.

Lemma keeps_install (parse : JsonVariant -> option SwitchState)
    (o : JsonVariant) :
  keeps obs (fun d => match parse o with
                      | Some sw => installSwitch sw d
                      | None => d
                      end).
Proof.
  destruct (parse o); [apply keeps_installSwitch | apply keeps_id].
Qed.

Lemma keeps_blinkStatus : keeps obs blinkStatus.
Proof. unfold blinkStatus, digitalWrite. frame. Qed.

Lemma keeps_loop_connectivity : keeps obs loop_connectivity.
Proof. unfold loop_connectivity, identify, sendJson. frame. Qed.

Lemma keeps_handleManualSwitches : keeps obs handleManualSwitches.
Proof.
  assert (L : forall now sws d,
    obs (snd (handleManualSwitches_loop now sws d)) = obs d).
  { intros now sws. induction sws as [|sw rest IH]; intros d; simpl;
      [reflexivity|].
    destruct (negb (manualEnabled sw) || (manualGpio sw <? 0)).
    - specialize (IH d).
      destruct (handleManualSwitches_loop now rest d); exact IH.
    - destruct (manualSwitchStep now (digitalRead (manualGpio sw) d) sw)
        as [sw' [[g s]|]].
      + specialize (IH (queueSwitchCommand g s d)).
        rewrite keeps_queueSwitchCommand in IH.
        destruct (handleManualSwitches_loop now rest _); exact IH.
      + specialize (IH d).
        destruct (handleManualSwitches_loop now rest d); exact IH. }
  intros d. unfold handleManualSwitches.
  specialize (L (millis d) (switchesLocal d) d).
  destruct (handleManualSwitches_loop (millis d) (switchesLocal d) d).
  now rewrite obs_switchesLocal.
Qed.

Lemma keeps_Improved_applySwitchState (g : Z) (s : bool) :
  keeps obs (fun d => snd (Improved.applySwitchState g s d)).
Proof.
  intros d. unfold Improved.applySwitchState.
  destruct (setSwitch g s (switchesLocal d)); cbn [snd].
  - rewrite keeps_sendStateUpdate, keeps_saveConfigToNVS,
      keeps_Serial_print, keeps_digitalWrite. apply obs_switchesLocal.
  - apply keeps_Serial_print.
Qed.

Lemma keeps_DebugTest_applySwitchState (g : Z) (s : bool) :
  keeps obs (fun d => snd (DebugTest.applySwitchState g s d)).
Proof.
  intros d. unfold DebugTest.applySwitchState.
  destruct (setSwitch g s (switchesLocal d)); cbn [snd].
  - rewrite keeps_sendStateUpdate, obs_cfgDirty,
      keeps_Serial_print, keeps_digitalWrite. apply obs_switchesLocal.
  - apply keeps_Serial_print.
Qed.

Lemma keeps_Improved_processCommandQueue :
  keeps obs Improved.processCommandQueue.
Proof.
  intros d. unfold Improved.processCommandQueue.
  case_if; [reflexivity|].
  destruct (xQueueReceive _) as [[cmd q]|]; [|apply obs_lastCommandProcess].
  destruct (cmd_valid cmd).
  - rewrite keeps_Improved_applySwitchState. now frame_rw.
  - now frame_rw.
Qed.

Lemma keeps_DebugTest_drainQueue (k : nat) : keeps obs (DebugTest.drainQueue k).
Proof.
  induction k as [|k IH]; intros d; simpl; [reflexivity|].
  destruct (cmdQueue d) as [|cmd q]; simpl; [reflexivity|].
  rewrite IH. destruct (cmd_valid cmd).
  - rewrite keeps_DebugTest_applySwitchState. apply obs_cmdQueue.
  - apply obs_cmdQueue.
Qed.

Lemma keeps_DebugTest_processCommandQueue :
  keeps obs DebugTest.processCommandQueue.
Proof.
  intros d. unfold DebugTest.processCommandQueue.
  case_if; [reflexivity|].
  rewrite keeps_DebugTest_drainQueue. apply obs_lastCommandProcess.
Qed.

Lemma keeps_DebugTest_maybeSaveConfig : keeps obs DebugTest.maybeSaveConfig.
Proof.
  intros d. unfold DebugTest.maybeSaveConfig.
  repeat case_if; try reflexivity.
  rewrite obs_cfgDirty, obs_lastCfgSave. apply keeps_saveConfigToNVS.
Qed.

Lemma keeps_Improved_loadConfigFromJsonArray (arr : list JsonVariant) :
  keeps obs (Improved.loadConfigFromJsonArray arr).
Proof.
  intros d. unfold Improved.loadConfigFromJsonArray.
  rewrite keeps_sendStateUpdate, keeps_saveConfigToNVS.
  rewrite (keeps_fold _ arr (keeps_install Improved.parseSwitch)).
  apply obs_switchesLocal.
Qed.

Lemma keeps_DebugTest_loadConfigFromJsonArray (arr : list JsonVariant) :
  keeps obs (DebugTest.loadConfigFromJsonArray arr).
Proof.
  intros d. unfold DebugTest.loadConfigFromJsonArray.
  rewrite (keeps_fold _ arr (keeps_install DebugTest.parseSwitch)).
  apply obs_switchesLocal.
Qed.

Lemma keeps_bulk (cmds : list JsonVariant) :
  forall acc : Z * Device,
    obs (snd (fold_left bulkEntry cmds acc)) = obs (snd acc).
Proof.
  induction cmds as [|c cmds IH]; intros [n d]; simpl; [reflexivity|].
  rewrite IH. destruct (0 <=? relayGpioOf c); cbn [snd].
  - apply keeps_queueSwitchCommand.
  - apply keeps_Serial_print.
Qed.

Lemma keeps_onBulkSwitchCommand (doc : JsonVariant) :
  keeps obs (onBulkSwitchCommand doc).
Proof.
  intros d. unfold onBulkSwitchCommand.
  destruct (doc.["commands"]) as [| | | |cmds|]; try reflexivity.
  pose proof (keeps_bulk cmds (0, d)) as L.
  destruct (fold_left bulkEntry cmds (0, d)) as [processed d1].
  cbn [snd] in L. now rewrite keeps_sendJson, keeps_Serial_print.
Qed.

End Frame.

Ltac keep lem := first [apply lem | rewrite lem]; intros; reflexivity.

(** ** The sequence tracker *)

Lemma lastSeqs_onWsText (load : list JsonVariant -> Device -> Device)
    (payload : option JsonVariant) (d : Device) :
  (forall arr, keeps lastSeqs (load arr)) ->
  lastSeqs (onWsText load payload d)
  = if clearsTracker (WStype_TEXT payload) then [] else lastSeqs d.
Proof.
  intros Hload. unfold onWsText, clearsTracker.
  destruct payload as [doc|]; [|reflexivity]. cbv zeta.
  destruct (String.eqb (or_str doc.["type"] "") "identified").
  - simpl. unfold onIdentified.
    destruct (doc.["switches"]) as [| | | |arr|]; try reflexivity.
    now rewrite Hload.
  - simpl. destruct (String.eqb (or_str doc.["type"] "") "config_update").
    + simpl. unfold onConfigUpdate, is_array.
      destruct (doc.["switches"]) as [| | | |arr|]; try reflexivity.
      now rewrite Hload.
    + simpl. repeat case_if; try reflexivity.
      * unfold onSwitchCommand. keep (keeps_queueSwitchCommand lastSeqs).
      * keep (keeps_onBulkSwitchCommand lastSeqs).
Qed.

Lemma lastSeqs_Improved_onWsEvent (ev : WsEvent) (d : Device) :
  lastSeqs (Improved.onWsEvent ev d)
  = if clearsTracker ev then [] else lastSeqs d.
Proof.
  destruct ev as [| |payload|]; try reflexivity.
  - unfold Improved.onWsEvent, clearsTracker.
    rewrite (keeps_sendStateUpdate lastSeqs) by (intros; reflexivity).
    rewrite (keeps_identify lastSeqs) by (intros; reflexivity).
    reflexivity.
  - apply lastSeqs_onWsText. intros arr.
    keep (keeps_Improved_loadConfigFromJsonArray lastSeqs).
Qed.

Lemma lastSeqs_DebugTest_onWsEvent (ev : WsEvent) (d : Device) :
  lastSeqs (DebugTest.onWsEvent ev d)
  = if clearsTracker ev then [] else lastSeqs d.
Proof.
  destruct ev as [| |payload|]; try reflexivity.
  - unfold DebugTest.onWsEvent, clearsTracker.
    rewrite (keeps_sendStateUpdate lastSeqs) by (intros; reflexivity).
    rewrite (keeps_identify lastSeqs) by (intros; reflexivity).
    reflexivity.
  - unfold DebugTest.onWsEvent, clearsTracker.
    rewrite (keeps_DebugTest_maybeSaveConfig lastSeqs) by (intros; reflexivity).
    reflexivity.
  - apply lastSeqs_onWsText. intros arr.
    keep (keeps_DebugTest_loadConfigFromJsonArray lastSeqs).
Qed.

(** C8 as stated fails: a [config_update] is not an identify, and it
    empties the tracker all the same. *)
Lemma C8_counterexample :
  let d := Improved.onWsEvent (WStype_TEXT (Some configUpdateOne)) trackedDevice in
  or_str configUpdateOne.["type"] "" = "config_update"
  /\ lastSeqs trackedDevice = [ {| gs_gpio := 4; gs_seq := 10 |} ]
  /\ lastSeqs d = []
  /\ identified d = identified trackedDevice.
Proof. vm_compute. auto. Qed.

Lemma DebugTest_disconnect_marks_dirty (d : Device) :
  let d' := DebugTest.onWsEvent WStype_DISCONNECTED d in
  cfgDirty d' = true
  \/ (nvsCommits d' = clock d :: nvsCommits d /\ lastCfgSave d' = millis d).
Proof.
  unfold DebugTest.onWsEvent, DebugTest.maybeSaveConfig. simpl.
  case_if; [left; reflexivity|].
  right. split; reflexivity.
Qed.

(** C8, amended.  On the SessionEstablished -> LinkOnly edge
    (WStype_DISCONNECTED) lastSeqs is left unchanged, and in
    esp32debugtest.cpp cfgDirty is set before maybeSaveConfig runs, so
    that afterwards the state is either still marked dirty or has just
    been saved.  The tracker is emptied by an identified message and by
    a config_update message that carries a switches array, and by no
    other event.  So right after an identified message the tracker is
    empty, getLastSeq answers -1 for every channel, and a switch_command
    is queued whatever sequence number it carries. *)
Theorem C8_tracker_cleared_by_config_messages_only (ev : WsEvent) (d : Device) :
  lastSeqs (Improved.onWsEvent WStype_DISCONNECTED d) = lastSeqs d
  /\ lastSeqs (DebugTest.onWsEvent WStype_DISCONNECTED d) = lastSeqs d
  /\ (cfgDirty (DebugTest.onWsEvent WStype_DISCONNECTED d) = true
      \/ nvsCommits (DebugTest.onWsEvent WStype_DISCONNECTED d)
         = clock d :: nvsCommits d)
  /\ lastSeqs (Improved.onWsEvent ev d)
     = (if clearsTracker ev then [] else lastSeqs d)
  /\ lastSeqs (DebugTest.onWsEvent ev d)
     = (if clearsTracker ev then [] else lastSeqs d)
  /\ (forall doc g s q,
        or_str doc.["type"] "" = "identified" ->
        in_int_range g = true ->
        let d1 := Improved.onWsEvent (WStype_TEXT (Some doc)) d in
        lastSeqs d1 = []
        /\ getLastSeq g d1 = -1
        /\ ((length (cmdQueue d1) < MAX_COMMAND_QUEUE)%nat ->
            cmdQueue (Improved.onWsEvent
                        (WStype_TEXT (Some (switchCommand g s q))) d1)
            = cmdQueue d1 ++ [queued (millis d1) (g, s)])).
Proof.
  split; [apply lastSeqs_Improved_onWsEvent|].
  split; [apply lastSeqs_DebugTest_onWsEvent|].
  split.
  { destruct (DebugTest_disconnect_marks_dirty d) as [H|[H _]]; auto. }
  split; [apply lastSeqs_Improved_onWsEvent|].
  split; [apply lastSeqs_DebugTest_onWsEvent|].
  intros doc g s q Hty Hg d1.
  assert (H1 : lastSeqs d1 = []).
  { subst d1. rewrite lastSeqs_Improved_onWsEvent. unfold clearsTracker.
    now rewrite Hty. }
  split; [exact H1|]. split.
  - unfold getLastSeq. now rewrite H1.
  - intros Hroom.
    assert (Hcmd : Improved.onWsEvent (WStype_TEXT (Some (switchCommand g s q))) d1
                   = queueSwitchCommand g s d1).
    { unfold Improved.onWsEvent, onWsText, onSwitchCommand, relayGpioOf,
        switchCommand. simpl. now rewrite Hg. }
    rewrite Hcmd.
    destruct (queueSwitchCommand_spec g s d1) as (Hq & _).
    apply Nat.ltb_lt in Hroom. rewrite Hroom in Hq. apply Hq.
Qed.

Lemma C8_witness :
  or_str identifiedOne.["type"] "" = "identified"
  /\ in_int_range 4 = true
  /\ cmdQueue (Improved.onWsEvent (WStype_TEXT (Some (switchCommand 4 true 5)))
                 (Improved.onWsEvent (WStype_TEXT (Some identifiedOne))
                    trackedDevice))
     = [queued 0 (4, true)].
Proof.
  split; [reflexivity|]. split; [reflexivity|].
  destruct (C8_tracker_cleared_by_config_messages_only WStype_OTHER trackedDevice)
    as (_ & _ & _ & _ & _ & H).
  destruct (H identifiedOne 4 true 5 eq_refl eq_refl) as (_ & _ & Hq).
  apply Hq. vm_compute. lia.
Defined.

(** ** Stale sequence numbers *)

(** Neither command handler looks at the sequence number. *)
Lemma switch_command_ignores_seq (load : list JsonVariant -> Device -> Device)
    (g : Z) (s : bool) (q q' : Z) (d : Device) :
  onWsText load (Some (switchCommand g s q)) d
  = onWsText load (Some (switchCommand g s q')) d.
Proof. reflexivity. Qed.

(** C1 fails on the code.  A device has sequence 10 on record for channel
    4, which is off.  A switch_command for channel 4 with sequence 5
    arrives and the next drain tick runs: the channel is on, the relay
    pin has been driven to the ON level and a state update has gone out.
    The record itself is never written: after commands with sequences
    10 and then 5 have been applied, in this order, lastSeqs is still
    empty. *)
Theorem C1_stale_command_is_applied :
  let stale := WStype_TEXT (Some (switchCommand 4 true 5)) in
  let d1 := Improved.processCommandQueue
              (delay 100 (Improved.onWsEvent stale trackedDevice)) in
  let d1' := DebugTest.processCommandQueue
               (delay 100 (DebugTest.onWsEvent stale trackedDevice)) in
  let dA := Improved.processCommandQueue
              (delay 100 (Improved.onWsEvent
                            (WStype_TEXT (Some (switchCommand 4 true 10)))
                            sessionDevice)) in
  let dB := Improved.processCommandQueue
              (delay 100 (Improved.onWsEvent
                            (WStype_TEXT (Some (switchCommand 4 false 5)))
                            dA)) in
  (seqOf (switchCommand 4 true 5) <= getLastSeq 4 trackedDevice
   /\ map state (switchesLocal trackedDevice) = [false]
   /\ pinOut trackedDevice !! 4 = Some RELAY_OFF_LEVEL)
  /\ (map state (switchesLocal d1) = [true]
      /\ pinOut d1 !! 4 = Some RELAY_ON_LEVEL
      /\ tx d1 = tx trackedDevice ++ [MStateUpdate 100 100 [(4, true, false)]])
  /\ (map state (switchesLocal d1') = [true]
      /\ pinOut d1' !! 4 = Some RELAY_ON_LEVEL
      /\ tx d1' = tx trackedDevice ++ [MStateUpdate 100 100 [(4, true, false)]])
  /\ (map state (switchesLocal dA) = [true] /\ lastSeqs dA = []
      /\ map state (switchesLocal dB) = [false] /\ lastSeqs dB = []
      /\ tx dB = tx sessionDevice
                 ++ [MStateUpdate 100 100 [(4, true, false)];
                     MStateUpdate 200 200 [(4, false, false)]]).
Proof. vm_compute. repeat split; auto; discriminate. Qed.

(** ** Pacing of NVS saves *)

Lemma paced_same (base : list Z) (d d' : Device) :
  saveLog d' = saveLog d -> paced base d -> paced base d'.
Proof.
  unfold saveLog. intros H (new & P1 & P2 & P3).
  injection H as H1 H2 H3.
  exists new. rewrite H1, H2, H3. auto.
Qed.

Lemma paced_delay (ms : N) (base : list Z) (d : Device) :
  paced base d -> paced base (delay ms d).
Proof.
  intros (new & P1 & P2 & P3). exists new. unfold delay. simpl.
  repeat split; auto.
  destruct new as [|t new]; [exact I|].
  destruct P3 as [P3 P4]. split; [exact P3|lia].
Qed.

Lemma paced_surroundings (ws wifi : bool) (pins : Z -> Z) (base : list Z)
    (d : Device) :
  paced base d -> paced base (surroundings ws wifi pins d).
Proof. apply paced_same. reflexivity. Qed.

(** The one place where esp32debugtest.cpp saves while it runs. *)
Lemma DebugTest_maybeSaveConfig_spec (d : Device) :
  let d' := DebugTest.maybeSaveConfig d in
  if cfgDirty d
     && (CFG_SAVE_MIN_INTERVAL_MS <=? ulong_sub (millis d) (lastCfgSave d))
  then nvsCommits d' = clock d :: nvsCommits d
       /\ lastCfgSave d' = millis d /\ cfgDirty d' = false
       /\ clock d' = clock d
  else d' = d.
Proof.
  unfold DebugTest.maybeSaveConfig.
  destruct (cfgDirty d); simpl; [|reflexivity].
  rewrite Z.leb_antisym.
  destruct (ulong_sub (millis d) (lastCfgSave d) <? CFG_SAVE_MIN_INTERVAL_MS);
    simpl; auto.
Qed.

Lemma paced_maybeSaveConfig (base : list Z) (d : Device) :
  paced base d -> paced base (DebugTest.maybeSaveConfig d).
Proof.
  intros (new & P1 & P2 & P3).
  pose proof (DebugTest_maybeSaveConfig_spec d) as S. cbv zeta in S.
  destruct (cfgDirty d
            && (CFG_SAVE_MIN_INTERVAL_MS <=? ulong_sub (millis d) (lastCfgSave d)))
    eqn:E.
  - destruct S as (S1 & S2 & _ & S4).
    apply andb_true_iff in E as [_ E]. apply Z.leb_le in E.
    exists (clock d :: new). rewrite S1, S2, S4, P1. simpl.
    repeat split; auto; try lia.
    destruct new as [|t new]; [exact I|].
    destruct P3 as [P3 P4]. rewrite P3 in E. unfold millis in E.
    pose proof (ulong_sub_le (clock d) t P4). lia.
  - rewrite S. exists new. auto.
Qed.

Lemma saveLog_DebugTest_onWsText (payload : option JsonVariant) (d : Device) :
  saveLog (onWsText DebugTest.loadConfigFromJsonArray payload d) = saveLog d.
Proof.
  unfold onWsText. destruct payload as [doc|]; [|reflexivity].
  cbv zeta. repeat case_if; try reflexivity.
  - unfold onIdentified.
    destruct (doc.["switches"]) as [| | | |arr|]; try reflexivity.
    keep (keeps_DebugTest_loadConfigFromJsonArray saveLog).
  - unfold onConfigUpdate.
    destruct (doc.["switches"]) as [| | | |arr|]; try reflexivity.
    keep (keeps_DebugTest_loadConfigFromJsonArray saveLog).
  - unfold onSwitchCommand. keep (keeps_queueSwitchCommand saveLog).
  - keep (keeps_onBulkSwitchCommand saveLog).
Qed.

Lemma paced_DebugTest_onWsEvent (ev : WsEvent) (base : list Z) (d : Device) :
  paced base d -> paced base (DebugTest.onWsEvent ev d).
Proof.
  destruct ev as [| |payload|]; unfold DebugTest.onWsEvent.
  - apply paced_same.
    rewrite (keeps_sendStateUpdate saveLog) by (intros; reflexivity).
    rewrite (keeps_identify saveLog) by (intros; reflexivity).
    reflexivity.
  - intros H. apply paced_maybeSaveConfig. revert H.
    apply paced_same. reflexivity.
  - apply paced_same, saveLog_DebugTest_onWsText.
  - auto.
Qed.

Lemma paced_DebugTest_ws_loop (evs : list WsEvent) (base : list Z) :
  forall d : Device, paced base d -> paced base (DebugTest.ws_loop evs d).
Proof.
  unfold DebugTest.ws_loop.
  induction evs as [|ev evs IH]; intros d H; simpl; [exact H|].
  apply IH, paced_DebugTest_onWsEvent.
  revert H. apply paced_same. destruct ev; reflexivity.
Qed.

Lemma paced_DebugTest_loop (evs : list WsEvent) (base : list Z) (d : Device) :
  paced base d -> paced base (DebugTest.loop evs d).
Proof.
  intros H. unfold DebugTest.loop.
  apply paced_delay, paced_maybeSaveConfig.
  eapply paced_same; [keep (keeps_flushPending saveLog)|].
  eapply paced_same; [keep (keeps_blinkStatus saveLog)|].
  eapply paced_same; [keep (keeps_sendHeartbeat saveLog)|].
  eapply paced_same; [keep (keeps_handleManualSwitches saveLog)|].
  eapply paced_same; [keep (keeps_DebugTest_processCommandQueue saveLog)|].
  apply paced_DebugTest_ws_loop.
  eapply paced_same; [keep (keeps_loop_connectivity saveLog)|].
  exact H.
Qed.

Lemma paced_DebugTest_run (acts : list Action) (base : list Z) :
  forall d : Device, paced base d -> paced base (runWith DebugTest.loop acts d).
Proof.
  unfold runWith.
  induction acts as [|a acts IH]; intros d H; simpl; [exact H|].
  apply IH. destruct a as [ms|ws wifi pins|evs].
  - now apply paced_delay.
  - now apply paced_surroundings.
  - now apply paced_DebugTest_loop.
Qed.

(** C4 as stated fails on improved_esp32.cpp: two commands that arrive
    100 apart are each saved when applied, 100 apart. *)
Lemma C4_counterexample :
  nvsCommits (runWith Improved.loop twoToggles sessionDevice)
  = 200 :: 100 :: nvsCommits sessionDevice
  /\ 200 - 100 < CFG_SAVE_MIN_INTERVAL_MS.
Proof. vm_compute. auto. Qed.

(** C4, amended.  In esp32debugtest.cpp maybeSaveConfig saves exactly
    when cfgDirty is set and millis() - lastCfgSave >=
    CFG_SAVE_MIN_INTERVAL_MS = 5000, applying a command only sets
    cfgDirty, and so the saves made while loop() runs, whatever the
    commands, events and inputs and however frequent, are at least 5000
    apart.  In improved_esp32.cpp there is no dirty flag and no minimum
    interval: applySwitchState calls saveConfigToNVS for every command it
    applies to a known channel. *)
Theorem C4_saves_paced_in_rate_limited_build
    (acts : list Action) (g : Z) (s : bool) (d : Device) :
  (let d' := DebugTest.maybeSaveConfig d in
   if cfgDirty d
      && (CFG_SAVE_MIN_INTERVAL_MS <=? ulong_sub (millis d) (lastCfgSave d))
   then nvsCommits d' = clock d :: nvsCommits d
        /\ lastCfgSave d' = millis d /\ cfgDirty d' = false
   else d' = d)
  /\ (let r := DebugTest.applySwitchState g s d in
      nvsCommits (snd r) = nvsCommits d /\ prefs (snd r) = prefs d
      /\ (fst r = true -> cfgDirty (snd r) = true))
  /\ (exists new : list Z,
        nvsCommits (runWith DebugTest.loop acts d) = new ++ nvsCommits d
        /\ spaced new)
  /\ (let r := Improved.applySwitchState g s d in
      fst r = true -> nvsCommits (snd r) = clock d :: nvsCommits d).
Proof.
  split; [|split; [|split]].
  - pose proof (DebugTest_maybeSaveConfig_spec d) as S. cbv zeta in *.
    destruct (cfgDirty d && _); [tauto | exact S].
  - destruct (DebugTest_applySwitchState_spec g s d)
      as (_ & _ & _ & _ & _ & _ & _ & A1 & A2 & _).
    cbv zeta in *. split; [exact A1|]. split; [exact A2|].
    unfold DebugTest.applySwitchState.
    destruct (setSwitch g s (switchesLocal d)); simpl; [|discriminate].
    intros _. keep (keeps_sendStateUpdate cfgDirty).
  - destruct (paced_DebugTest_run acts (nvsCommits d) d) as (new & P1 & P2 & _).
    + exists []. simpl. auto.
    + exists new. auto.
  - cbv zeta. unfold Improved.applySwitchState.
    destruct (setSwitch g s (switchesLocal d)); simpl; [|discriminate].
    intros _.
    rewrite (keeps_sendStateUpdate nvsCommits) by (intros; reflexivity).
    reflexivity.
Qed.

Lemma C4_witness :
  fst (Improved.applySwitchState 4 true sessionDevice) = true
  /\ nvsCommits (snd (Improved.applySwitchState 4 true sessionDevice))
     = clock sessionDevice :: nvsCommits sessionDevice
  /\ exists new : list Z,
       nvsCommits (runWith DebugTest.loop twoToggles sessionDevice)
       = new ++ nvsCommits sessionDevice
       /\ spaced new.
Proof.
  destruct (C4_saves_paced_in_rate_limited_build twoToggles 4 true sessionDevice)
    as (_ & _ & H3 & H4).
  split; [reflexivity|]. split; [exact (H4 eq_refl) | exact H3].
Defined.

(** On the same commands the rate-limited sketch has not saved at all by
    the time the other one has saved twice. *)
Example twoToggles_rate_limited :
  nvsCommits (runWith DebugTest.loop twoToggles sessionDevice)
  = nvsCommits sessionDevice.
Proof. vm_compute. reflexivity. Qed.

(** * Further properties *)
(** ** The sequence tracker as a map *)

Lemma getLastSeq_from_set (l : list GpioSeq) (g g' seq : Z) :
  getLastSeq_from (setLastSeq_in l g seq) g'
  = if g' =? g then seq else getLastSeq_from l g'.
Proof.
  induction l as [|p r IH]; simpl.
  - now rewrite (Z.eqb_sym g g').
  - destruct (gs_gpio p =? g) eqn:E; simpl.
    + rewrite (Z.eqb_sym g g'). destruct (g' =? g) eqn:E'; [reflexivity|].
      apply Z.eqb_eq in E. rewrite E, Z.eqb_sym, E'. reflexivity.
    + destruct (gs_gpio p =? g') eqn:E2; [|apply IH].
      destruct (g' =? g) eqn:E'; [|reflexivity].
      apply Z.eqb_eq in E', E2. subst. rewrite Z.eqb_refl in E. discriminate.
Qed.

Lemma setLastSeq_in_pins (l : list GpioSeq) (g seq : Z) :
  map gs_gpio (setLastSeq_in l g seq)
  = if tracked g l then map gs_gpio l else map gs_gpio l ++ [g].
Proof.
  unfold tracked. induction l as [|p r IH]; simpl; [reflexivity|].
  destruct (gs_gpio p =? g) eqn:E; simpl.
  - apply Z.eqb_eq in E. now rewrite E.
  - rewrite IH. now destruct (existsb _ r).
Qed.

(** X1.  setLastSeq followed by getLastSeq answers the sequence number
    just recorded for that pin and, for every other pin, what it
    answered before; a pin that was never recorded answers -1. *)
Theorem X1_setLastSeq_getLastSeq (g g' seq : Z) (d : Device) :
  getLastSeq g' (setLastSeq g seq d)
  = (if g' =? g then seq else getLastSeq g' d)
  /\ (tracked g' (lastSeqs d) = true \/ getLastSeq g' d = -1).
Proof.
  split.
  - unfold getLastSeq, setLastSeq. simpl. apply getLastSeq_from_set.
  - unfold getLastSeq, tracked. induction (lastSeqs d) as [|p r IH]; simpl;
      [now right|].
    destruct (gs_gpio p =? g'); simpl; [now left|exact IH].
Qed.

(** X2.  setLastSeq overwrites the entry of a pin that has one, in
    place, and appends an entry for a pin that has none: the tracker
    never gets a second entry for a pin, and it grows by at most one. *)
Theorem X2_setLastSeq_one_entry_per_pin (g seq : Z) (d : Device) :
  map gs_gpio (lastSeqs (setLastSeq g seq d))
  = (if tracked g (lastSeqs d) then map gs_gpio (lastSeqs d)
     else map gs_gpio (lastSeqs d) ++ [g])
  /\ tracked g (lastSeqs (setLastSeq g seq d)) = true.
Proof.
  split.
  - unfold setLastSeq. simpl. apply setLastSeq_in_pins.
  - unfold setLastSeq, tracked. simpl.
    induction (lastSeqs d) as [|p r IH]; simpl.
    + now rewrite Z.eqb_refl.
    + destruct (gs_gpio p =? g) eqn:E; simpl.
      * now rewrite Z.eqb_refl.
      * now rewrite E.
Qed.

(** ** Applying a command *)

Lemma setSwitch_None (g : Z) (s : bool) (sws : list SwitchState) :
  Forall (fun sw => gpio sw <> g) sws -> setSwitch g s sws = None.
Proof.
  induction 1 as [|sw rest Hsw _ IH]; simpl; [reflexivity|].
  apply Z.eqb_neq in Hsw. now rewrite Hsw, IH.
Qed.

Lemma setSwitch_first (g : Z) (s : bool) (l1 l2 : list SwitchState)
    (sw : SwitchState) :
  Forall (fun x => gpio x <> g) l1 -> gpio sw = g ->
  setSwitch g s (l1 ++ sw :: l2) = Some (l1 ++ switched s sw :: l2).
Proof.
  intros H1 Hg. induction H1 as [|x l1 Hx _ IH]; simpl.
  - apply Z.eqb_eq in Hg. now rewrite Hg.
  - apply Z.eqb_neq in Hx. now rewrite Hx, IH.
Qed.

(** If the registry has the pin, it splits at the first entry that has
    it. *)
Lemma setSwitch_Some (g : Z) (s : bool) (sws sws' : list SwitchState) :
  setSwitch g s sws = Some sws' ->
  exists l1 sw l2,
    sws = l1 ++ sw :: l2 /\ Forall (fun x => gpio x <> g) l1 /\ gpio sw = g
    /\ sws' = l1 ++ switched s sw :: l2.
Proof.
  revert sws'. induction sws as [|x rest IH]; intros sws' H; simpl in H;
    [discriminate|].
  destruct (gpio x =? g) eqn:E.
  - injection H as <-. exists [], x, rest. apply Z.eqb_eq in E. auto.
  - destruct (setSwitch g s rest) as [r|]; [|discriminate].
    injection H as <-.
    destruct (IH r eq_refl) as (l1 & sw & l2 & -> & H1 & Hg & ->).
    exists (x :: l1), sw, l2. apply Z.eqb_neq in E. auto.
Qed.

(** X3.  applySwitchState for a pin that no channel of the registry has
    answers false and prints "Unknown GPIO"; the registry, the relay
    outputs, the queue, the NVS and the socket are left as they were, in
    both sketches. *)
Theorem X3_apply_unknown_gpio_is_ignored (g : Z) (s : bool) (d : Device) :
  Forall (fun sw => gpio sw <> g) (switchesLocal d) ->
  Improved.applySwitchState g s d
  = (false, Serial_print (LogSwitchUnknownGpio g) d)
  /\ DebugTest.applySwitchState g s d
     = (false, Serial_print (LogSwitchUnknownGpio g) d).
Proof.
  intros H. unfold Improved.applySwitchState, DebugTest.applySwitchState.
  rewrite (setSwitch_None g s _ H). split; reflexivity.
Qed.

Lemma X3_witness :
  Improved.applySwitchState 23 true factoryDevice
  = (false, Serial_print (LogSwitchUnknownGpio 23) factoryDevice)
  /\ DebugTest.applySwitchState 23 true factoryDevice
     = (false, Serial_print (LogSwitchUnknownGpio 23) factoryDevice).
Proof.
  apply X3_apply_unknown_gpio_is_ignored.
  vm_compute. repeat constructor; discriminate.
Defined.

(** X4.  applySwitchState for a pin the registry has answers true,
    writes the requested state into state and defaultState of the first
    entry with that pin and into no other entry (a later entry with the
    same pin keeps its state), and drives the pin to the relay level of
    the requested state.  The pin driven is the registry's number
    converted to uint8_t, the parameter type of digitalWrite: a channel
    registered on 260 drives pin 4.  improved_esp32.cpp saves the
    snapshot at once; esp32debugtest.cpp leaves the NVS alone and sets
    cfgDirty. *)
Theorem X4_apply_known_gpio_updates_first_match
    (g : Z) (s : bool) (d : Device) (l1 l2 : list SwitchState)
    (sw : SwitchState) :
  switchesLocal d = l1 ++ sw :: l2 ->
  Forall (fun x => gpio x <> g) l1 ->
  gpio sw = g ->
  let r1 := Improved.applySwitchState g s d in
  let r2 := DebugTest.applySwitchState g s d in
  (fst r1 = true
   /\ switchesLocal (snd r1) = l1 ++ switched s sw :: l2
   /\ pinOut (snd r1) = <[uint8 g := relayLevel s]> (pinOut d)
   /\ nvsCommits (snd r1) = clock d :: nvsCommits d)
  /\ (fst r2 = true
      /\ switchesLocal (snd r2) = l1 ++ switched s sw :: l2
      /\ pinOut (snd r2) = <[uint8 g := relayLevel s]> (pinOut d)
      /\ cfgDirty (snd r2) = true
      /\ prefs (snd r2) = prefs d /\ nvsCommits (snd r2) = nvsCommits d).
Proof.
  intros Hsw H1 Hg.
  pose proof (setSwitch_first g s l1 l2 sw H1 Hg) as Hset.
  rewrite <- Hsw in Hset.
  unfold Improved.applySwitchState, DebugTest.applySwitchState.
  rewrite Hset. cbv zeta. cbn [fst snd]. split.
  - rewrite (keeps_sendStateUpdate switchesLocal),
      (keeps_sendStateUpdate pinOut), (keeps_sendStateUpdate nvsCommits)
      by (intros; reflexivity).
    rewrite digitalWrite_relay. repeat split; reflexivity.
  - rewrite (keeps_sendStateUpdate switchesLocal),
      (keeps_sendStateUpdate pinOut), (keeps_sendStateUpdate nvsCommits),
      (keeps_sendStateUpdate cfgDirty), (keeps_sendStateUpdate prefs)
      by (intros; reflexivity).
    rewrite digitalWrite_relay. repeat split; reflexivity.
Qed.

Lemma X4_witness :
  switchesLocal (snd (Improved.applySwitchState 4 true sessionDevice))
  = [switched true channel4]
  /\ pinOut (snd (DebugTest.applySwitchState 4 true sessionDevice)) !! 4
     = Some RELAY_ON_LEVEL.
Proof.
  assert (H0 : switchesLocal sessionDevice = [] ++ channel4 :: [])
    by reflexivity.
  destruct (X4_apply_known_gpio_updates_first_match 4 true sessionDevice
              [] [] channel4 H0 ltac:(constructor) eq_refl)
    as ((_ & H1 & _) & (_ & _ & H2 & _)).
  split; [exact H1|]. rewrite H2. apply lookup_insert_eq.
Defined.

(** ** The drain step is paced *)

Lemma processDue_false_after (d : Device) (ms : N) :
  lastCommandProcess d = millis d ->
  Z.of_N ms < COMMAND_PROCESS_INTERVAL ->
  processDue (delay ms d) = false.
Proof.
  intros H Hms. unfold processDue, delay, millis in *. simpl. rewrite H.
  rewrite ulong_sub_millis.
  replace (clock d + Z.of_N ms - clock d) with (Z.of_N ms) by lia.
  apply Z.leb_gt. unfold COMMAND_PROCESS_INTERVAL in *.
  rewrite Z.mod_small; [lia|]. unfold ULONG_MOD. lia.
Qed.

Lemma processDue_test (d : Device) :
  (ulong_sub (millis d) (lastCommandProcess d) <? COMMAND_PROCESS_INTERVAL)
  = negb (processDue d).
Proof. unfold processDue. apply Z.ltb_antisym. Qed.

Lemma Improved_processCommandQueue_tick (d : Device) :
  processDue d = true ->
  cmdQueue (Improved.processCommandQueue d) = drop 1 (cmdQueue d)
  /\ clock (Improved.processCommandQueue d) = clock d
  /\ lastCommandProcess (Improved.processCommandQueue d) = millis d.
Proof.
  intros Hdue. unfold Improved.processCommandQueue.
  rewrite processDue_test, Hdue. cbv zeta. simpl negb. cbv iota.
  destruct (cmdQueue d) as [|cmd q] eqn:Eq; simpl; rewrite ?Eq; simpl.
  - auto.
  - destruct (cmd_valid cmd).
    + rewrite (keeps_Improved_applySwitchState cmdQueue),
        (keeps_Improved_applySwitchState clock),
        (keeps_Improved_applySwitchState lastCommandProcess)
        by (intros; reflexivity).
      rewrite drop_0. auto.
    + rewrite drop_0. auto.
Qed.

Lemma DebugTest_drainQueue_queue (k : nat) :
  forall d : Device,
    cmdQueue (DebugTest.drainQueue k d) = drop k (cmdQueue d).
Proof.
  induction k as [|k IH]; intros d; simpl; [now rewrite drop_0|].
  destruct (cmdQueue d) as [|cmd q] eqn:Eq; simpl; rewrite ?Eq; simpl;
    [reflexivity|].
  rewrite IH. destruct (cmd_valid cmd); [|reflexivity].
  now rewrite (keeps_DebugTest_applySwitchState cmdQueue)
    by (intros; reflexivity).
Qed.

Lemma DebugTest_processCommandQueue_tick (d : Device) :
  processDue d = true ->
  cmdQueue (DebugTest.processCommandQueue d) = drop 4 (cmdQueue d)
  /\ clock (DebugTest.processCommandQueue d) = clock d
  /\ lastCommandProcess (DebugTest.processCommandQueue d) = millis d.
Proof.
  intros Hdue. unfold DebugTest.processCommandQueue.
  rewrite processDue_test, Hdue. cbv zeta. simpl negb. cbv iota.
  rewrite DebugTest_drainQueue_queue,
    (keeps_DebugTest_drainQueue clock),
    (keeps_DebugTest_drainQueue lastCommandProcess)
    by (intros; reflexivity).
  auto.
Qed.

(** X5.  A drain tick takes at most one command off the queue in
    improved_esp32.cpp and at most four in esp32debugtest.cpp, valid or
    not, and for the next COMMAND_PROCESS_INTERVAL = 100 of true time
    processCommandQueue does nothing at all, whatever the queue holds. *)
Theorem X5_drain_is_paced (d : Device) (ms : N) :
  processDue d = true ->
  Z.of_N ms < COMMAND_PROCESS_INTERVAL ->
  let d1 := Improved.processCommandQueue d in
  let d2 := DebugTest.processCommandQueue d in
  cmdQueue d1 = drop 1 (cmdQueue d)
  /\ Improved.processCommandQueue (delay ms d1) = delay ms d1
  /\ cmdQueue d2 = drop 4 (cmdQueue d)
  /\ DebugTest.processCommandQueue (delay ms d2) = delay ms d2.
Proof.
  intros Hdue Hms d1 d2.
  destruct (Improved_processCommandQueue_tick d Hdue) as (A1 & A2 & A3).
  destruct (DebugTest_processCommandQueue_tick d Hdue) as (B1 & B2 & B3).
  fold d1 in A1, A2, A3. fold d2 in B1, B2, B3.
  assert (H1 : processDue (delay ms d1) = false).
  { apply processDue_false_after; [|exact Hms].
    unfold millis. now rewrite A3, A2. }
  assert (H2 : processDue (delay ms d2) = false).
  { apply processDue_false_after; [|exact Hms].
    unfold millis. now rewrite B3, B2. }
  repeat split; try assumption.
  - unfold Improved.processCommandQueue. now rewrite processDue_test, H1.
  - unfold DebugTest.processCommandQueue. now rewrite processDue_test, H2.
Qed.

Lemma X5_witness :
  let d := enqueueAll twentyCommands factoryDevice in
  length (cmdQueue (DebugTest.processCommandQueue d)) = 12%nat
  /\ Improved.processCommandQueue (delay 99 (Improved.processCommandQueue d))
     = delay 99 (Improved.processCommandQueue d).
Proof.
  cbv zeta.
  destruct (X5_drain_is_paced (enqueueAll twentyCommands factoryDevice) 99
              eq_refl eq_refl) as (_ & H2 & H3 & _).
  split; [|exact H2]. rewrite H3. reflexivity.
Defined.

(** ** Bulk commands *)

Lemma bulkEntry_step (acc : Z * Device) (c : JsonVariant) :
  bulkEntry acc c
  = match bulkCommand c with
    | Some gs => (fst acc + 1, queueSwitchCommand (fst gs) (snd gs) (snd acc))
    | None => (fst acc, Serial_print LogBulkInvalidGpio (snd acc))
    end.
Proof.
  destruct acc as [n d]. unfold bulkEntry, bulkCommand.
  destruct (0 <=? relayGpioOf c); reflexivity.
Qed.

Lemma bulkEntry_spec (cmds : list JsonVariant) :
  forall (n : Z) (d : Device),
    let valid := omap bulkCommand cmds in
    let room := (MAX_COMMAND_QUEUE - length (cmdQueue d))%nat in
    let r := fold_left bulkEntry cmds (n, d) in
    fst r = n + Z.of_nat (length valid)
    /\ cmdQueue (snd r)
       = cmdQueue d ++ map (queued (millis d)) (take room valid)
    /\ dropsReported (serial (snd r))
       = (dropsReported (serial d) + (length valid - room))%nat
    /\ clock (snd r) = clock d.
Proof.
  induction cmds as [|c cmds IH]; intros n d; cbv zeta.
  - simpl. rewrite take_nil, app_nil_r. simpl. repeat split; lia.
  - cbn [fold_left omap list_omap]. rewrite bulkEntry_step. cbn [fst snd].
    destruct (bulkCommand c) as [[g s]|]; cbn [fst snd].
    + pose proof (queueSwitchCommand_spec g s d) as (Hq & _ & Hck & _).
      destruct (IH (n + 1) (queueSwitchCommand g s d)) as (I1 & I2 & I3 & I4).
      cbv zeta in *.
      assert (Hm : millis (queueSwitchCommand g s d) = millis d)
        by (unfold millis; now rewrite Hck).
      rewrite I1, I2, I3, I4, Hm, Hck. cbn [length].
      destruct (length (cmdQueue d) <? MAX_COMMAND_QUEUE)%nat eqn:El.
      * apply Nat.ltb_lt in El. destruct Hq as [Hq1 Hq2].
        rewrite Hq1, Hq2, length_app, dropsReported_app. simpl length.
        replace (MAX_COMMAND_QUEUE - length (cmdQueue d))%nat
          with (S (MAX_COMMAND_QUEUE - (length (cmdQueue d) + 1)))%nat by lia.
        cbn [take map]. rewrite <- app_assoc. cbn [app].
        unfold dropsReported at 2. cbn [List.filter isDropLine length].
        repeat split; try reflexivity; lia.
      * apply Nat.ltb_ge in El. destruct Hq as [Hq1 Hq2].
        rewrite Hq1, Hq2, dropsReported_app.
        replace (MAX_COMMAND_QUEUE - length (cmdQueue d))%nat with O by lia.
        cbn [take map]. rewrite !app_nil_r.
        unfold dropsReported at 2. cbn [List.filter isDropLine length].
        repeat split; try reflexivity; lia.
    + destruct (IH n (Serial_print LogBulkInvalidGpio d)) as (I1 & I2 & I3 & I4).
      cbv zeta in *. rewrite I1, I2, I3, I4.
      unfold Serial_print, millis. cbn [cmdQueue serial clock set_serial].
      rewrite dropsReported_app.
      unfold dropsReported at 2. cbn [List.filter isDropLine length].
      repeat split; try reflexivity; lia.
Qed.

(** X6.  A bulk_switch_command hands every element of "commands" that
    has a non-negative relayGpio (or gpio) to queueSwitchCommand, in
    order, and skips the others.  The bulk_switch_result it sends when
    the socket is connected reports processed = the number of elements
    handed over - those the full queue dropped included - and total =
    the size of the array.  Registry and relay outputs are untouched. *)
Theorem X6_bulk_result_counts_handed_over (doc : JsonVariant)
    (cmds : list JsonVariant) (d : Device) :
  doc.["commands"] = JArray cmds ->
  let valid := omap bulkCommand cmds in
  let room := (MAX_COMMAND_QUEUE - length (cmdQueue d))%nat in
  let d' := onBulkSwitchCommand doc d in
  cmdQueue d' = cmdQueue d ++ map (queued (millis d)) (take room valid)
  /\ dropsReported (serial d')
     = (dropsReported (serial d) + (length valid - room))%nat
  /\ tx d'
     = (if wsConnected d
        then tx d ++ [MBulkSwitchResult (Z.of_nat (length valid))
                        (Z.of_nat (length cmds))]
        else tx d)
  /\ switchesLocal d' = switchesLocal d
  /\ pinOut d' = pinOut d.
Proof.
  intros Hdoc valid room d'. subst d'. unfold onBulkSwitchCommand.
  rewrite Hdoc.
  pose proof (bulkEntry_spec cmds 0 d) as (B1 & B2 & B3 & _).
  pose proof (keeps_bulk tx ltac:(intros; reflexivity)
                ltac:(intros; reflexivity) cmds (0, d)) as Ktx.
  pose proof (keeps_bulk wsConnected ltac:(intros; reflexivity)
                ltac:(intros; reflexivity) cmds (0, d)) as Kws.
  pose proof (keeps_bulk switchesLocal ltac:(intros; reflexivity)
                ltac:(intros; reflexivity) cmds (0, d)) as Ksw.
  pose proof (keeps_bulk pinOut ltac:(intros; reflexivity)
                ltac:(intros; reflexivity) cmds (0, d)) as Kpo.
  cbv zeta in *.
  destruct (fold_left bulkEntry cmds (0, d)) as [processed d1].
  cbn [fst snd] in *. subst processed.
  unfold sendJson, Serial_print. cbn [wsConnected set_serial].
  rewrite Kws. fold valid. fold room.
  subst valid room.
  destruct (wsConnected d); simpl;
    rewrite ?dropsReported_app, B2, B3, Ktx, Ksw, Kpo; simpl;
    rewrite ?Z.add_0_l; unfold dropsReported at 2; simpl;
    rewrite ?Nat.add_0_r; repeat split; reflexivity.
Qed.

Lemma X6_witness :
  let d := Improved.onWsEvent (WStype_TEXT (Some bulkFive)) sessionDevice in
  map commandOf (cmdQueue d) = [(4, true); (16, false); (5, false)]
  /\ tx d = tx sessionDevice ++ [MBulkSwitchResult 3 5].
Proof.
  cbv zeta.
  destruct (X6_bulk_result_counts_handed_over bulkFive _ sessionDevice eq_refl)
    as (H1 & _ & H3 & _).
  split.
  - change (Improved.onWsEvent (WStype_TEXT (Some bulkFive)) sessionDevice)
      with (onBulkSwitchCommand bulkFive sessionDevice).
    rewrite H1. reflexivity.
  - change (Improved.onWsEvent (WStype_TEXT (Some bulkFive)) sessionDevice)
      with (onBulkSwitchCommand bulkFive sessionDevice).
    rewrite H3. reflexivity.
Defined.

(** X7.  A switch_command that carries no integer relayGpio or gpio is
    not rejected: it is queued with pin -1, takes a place in the queue,
    and the next drain tick throws it away as an unknown pin.  On a
    registry of valid pins nothing else happens: registry, relay
    outputs, NVS and transmissions are as before. *)
Theorem X7_switch_command_without_pin_is_queued (doc : JsonVariant)
    (d : Device) :
  or_str doc.["type"] "" = "switch_command" ->
  is_int doc.["relayGpio"] = false ->
  is_int doc.["gpio"] = false ->
  validRegistry (switchesLocal d) ->
  cmdQueue d = [] ->
  processDue d = true ->
  let s := or_bool doc.["state"] false in
  let d1 := Improved.onWsEvent (WStype_TEXT (Some doc)) d in
  let d2 := Improved.processCommandQueue d1 in
  map commandOf (cmdQueue d1) = [(-1, s)]
  /\ d1 = DebugTest.onWsEvent (WStype_TEXT (Some doc)) d
  /\ cmdQueue d2 = []
  /\ serial d2 = serial d ++ [LogCmdQueued (-1) s; LogSwitchUnknownGpio (-1)]
  /\ switchesLocal d2 = switchesLocal d /\ pinOut d2 = pinOut d
  /\ prefs d2 = prefs d /\ tx d2 = tx d
  /\ DebugTest.processCommandQueue d1 = d2.
Proof.
  intros Hty Hr Hg Hval Hq Hdue s d1 d2.
  assert (Hd1 : d1 = queueSwitchCommand (-1) s d).
  { subst d1. unfold Improved.onWsEvent, onWsText. rewrite Hty. simpl.
    unfold onSwitchCommand, relayGpioOf. now rewrite Hr, Hg. }
  assert (Hd1' : DebugTest.onWsEvent (WStype_TEXT (Some doc)) d
                 = queueSwitchCommand (-1) s d).
  { unfold DebugTest.onWsEvent, onWsText. rewrite Hty. simpl.
    unfold onSwitchCommand, relayGpioOf. now rewrite Hr, Hg. }
  assert (Hnone : setSwitch (-1) true (switchesLocal d) = None
                  /\ setSwitch (-1) false (switchesLocal d) = None).
  { split; apply setSwitch_None; unfold validRegistry in Hval;
      eapply Forall_impl; try exact Hval; simpl; intros; lia. }
  assert (Hdue1 : processDue d1 = true).
  { rewrite Hd1. unfold processDue, millis in *.
    now rewrite (keeps_queueSwitchCommand clock),
      (keeps_queueSwitchCommand lastCommandProcess) by (intros; reflexivity). }
  subst d2.
  unfold Improved.processCommandQueue, DebugTest.processCommandQueue.
  rewrite processDue_test, Hdue1. cbv zeta. simpl negb. cbv iota.
  rewrite Hd1' , Hd1. unfold queueSwitchCommand, xQueueSend. rewrite Hq.
  simpl. unfold Improved.applySwitchState, DebugTest.applySwitchState. simpl.
  destruct Hnone as [Ht Hf].
  destruct s; rewrite ?Ht, ?Hf; simpl; rewrite <- ?app_assoc; simpl;
    repeat split; reflexivity.
Qed.

Lemma X7_witness :
  let d1 := Improved.onWsEvent (WStype_TEXT (Some commandWithoutPin))
              factoryDevice in
  map commandOf (cmdQueue d1) = [(-1, true)]
  /\ switchesLocal (Improved.processCommandQueue d1)
     = switchesLocal factoryDevice.
Proof.
  cbv zeta.
  assert (Hv : validRegistry (switchesLocal factoryDevice))
    by (vm_compute; repeat constructor; discriminate).
  destruct (X7_switch_command_without_pin_is_queued commandWithoutPin
              factoryDevice eq_refl eq_refl eq_refl Hv eq_refl eq_refl)
    as (H1 & _ & _ & _ & H5 & _).
  split; [exact H1 | exact H5].
Defined.

(** ** The key scheme of the snapshot *)

(** X8.  The NVS keys of the snapshot never collide: two different
    (field, index) pairs of saveConfigToNVS give different keys
    ("state1" + "0" is not "state" + "10", "manual_en" + i is not
    "manual_gpio" + j), and none of them is the key "count". *)
Theorem X8_nvs_keys_are_distinct (p q : string) (i j : nat) :
  In p nvsFieldNames -> In q nvsFieldNames ->
  (p, i) <> (q, j) ->
  nvsKey p i <> nvsKey q j /\ nvsKey p i <> "count".
Proof.
  intros Hp Hq Hne. split.
  - intros E. apply nvsKey_inj in E as [-> ->]; auto.
  - apply nvsKey_not_count, Hp.
Qed.

Lemma X8_witness :
  nvsKey "manual_en" 1 <> nvsKey "manual_gpio" 1
  /\ nvsKey "manual_en" 1 <> "count".
Proof.
  apply X8_nvs_keys_are_distinct.
  - unfold nvsFieldNames. simpl. auto 10.
  - unfold nvsFieldNames. simpl. auto 10.
  - discriminate.
Defined.

(** ** Identify frames *)

Ltac traffic :=
  try (intros ?d); unfold identifiesSent;
  repeat case_if; simpl; rewrite ?List.filter_app; simpl;
  rewrite ?app_nil_r; try reflexivity.

Lemma identifies_sendStateUpdate (force : bool) :
  keeps identifiesSent (sendStateUpdate force).
Proof. unfold sendStateUpdate, sendJson, Serial_print. traffic. Qed.

Lemma identifies_sendHeartbeat : keeps identifiesSent sendHeartbeat.
Proof. unfold sendHeartbeat, sendJson, Serial_print. traffic. Qed.

Lemma identifies_loop_connectivity : keeps identifiesSent loop_connectivity.
Proof.
  unfold loop_connectivity, identify, sendJson. traffic.
  all: simpl in *; congruence.
Qed.

Lemma identifies_Improved_applySwitchState (g : Z) (s : bool) :
  keeps identifiesSent (fun d => snd (Improved.applySwitchState g s d)).
Proof.
  intros d. unfold Improved.applySwitchState.
  destruct (setSwitch g s (switchesLocal d)); cbn [snd]; [|reflexivity].
  rewrite identifies_sendStateUpdate.
  now rewrite (keeps_saveConfigToNVS identifiesSent) by (intros; reflexivity).
Qed.

Lemma identifies_DebugTest_applySwitchState (g : Z) (s : bool) :
  keeps identifiesSent (fun d => snd (DebugTest.applySwitchState g s d)).
Proof.
  intros d. unfold DebugTest.applySwitchState.
  destruct (setSwitch g s (switchesLocal d)); cbn [snd]; [|reflexivity].
  now rewrite identifies_sendStateUpdate.
Qed.

Lemma identifies_Improved_processCommandQueue :
  keeps identifiesSent Improved.processCommandQueue.
Proof.
  intros d. unfold Improved.processCommandQueue.
  case_if; [reflexivity|].
  destruct (xQueueReceive _) as [[cmd q]|]; [|reflexivity].
  destruct (cmd_valid cmd); [|reflexivity].
  now rewrite identifies_Improved_applySwitchState.
Qed.

Lemma identifies_DebugTest_drainQueue (k : nat) :
  keeps identifiesSent (DebugTest.drainQueue k).
Proof.
  induction k as [|k IH]; intros d; simpl; [reflexivity|].
  destruct (cmdQueue d) as [|cmd q]; simpl; [reflexivity|].
  rewrite IH. destruct (cmd_valid cmd); [|reflexivity].
  now rewrite identifies_DebugTest_applySwitchState.
Qed.

Lemma identifies_DebugTest_processCommandQueue :
  keeps identifiesSent DebugTest.processCommandQueue.
Proof.
  intros d. unfold DebugTest.processCommandQueue.
  case_if; [reflexivity|]. now rewrite identifies_DebugTest_drainQueue.
Qed.

Lemma identifies_Improved_loadConfigFromJsonArray (arr : list JsonVariant) :
  keeps identifiesSent (Improved.loadConfigFromJsonArray arr).
Proof.
  intros d. unfold Improved.loadConfigFromJsonArray.
  rewrite identifies_sendStateUpdate.
  rewrite (keeps_saveConfigToNVS identifiesSent) by (intros; reflexivity).
  rewrite (keeps_fold identifiesSent _ arr); [reflexivity|].
  intros o. keep (keeps_install identifiesSent).
Qed.

Lemma identifies_DebugTest_loadConfigFromJsonArray (arr : list JsonVariant) :
  keeps identifiesSent (DebugTest.loadConfigFromJsonArray arr).
Proof.
  intros d. unfold DebugTest.loadConfigFromJsonArray.
  rewrite (keeps_fold identifiesSent _ arr); [reflexivity|].
  intros o. keep (keeps_install identifiesSent).
Qed.

Lemma identifies_onBulkSwitchCommand (doc : JsonVariant) :
  keeps identifiesSent (onBulkSwitchCommand doc).
Proof.
  intros d. unfold onBulkSwitchCommand.
  destruct (doc.["commands"]) as [| | | |cmds|]; try reflexivity.
  pose proof (keeps_bulk identifiesSent ltac:(intros; reflexivity)
                ltac:(intros; reflexivity) cmds (0, d)) as L.
  destruct (fold_left bulkEntry cmds (0, d)) as [processed d1].
  cbn [snd] in L. rewrite <- L.
  unfold sendJson, Serial_print. traffic.
Qed.

Lemma identifies_onWsText (load : list JsonVariant -> Device -> Device)
    (payload : option JsonVariant) :
  (forall arr, keeps identifiesSent (load arr)) ->
  keeps identifiesSent (onWsText load payload).
Proof.
  intros Hload d. unfold onWsText.
  destruct payload as [doc|]; [|reflexivity]. cbv zeta.
  repeat case_if; try reflexivity.
  - unfold onIdentified.
    destruct (doc.["switches"]); try reflexivity. now rewrite Hload.
  - unfold onConfigUpdate.
    destruct (doc.["switches"]); try reflexivity. now rewrite Hload.
  - unfold onSwitchCommand. keep (keeps_queueSwitchCommand identifiesSent).
  - apply identifies_onBulkSwitchCommand.
Qed.

Lemma identifies_connected (d : Device) :
  wsConnected d = true ->
  identifiesSent (sendStateUpdate true (identify d))
  = identifiesSent d ++ [MIdentify].
Proof.
  intros H. rewrite identifies_sendStateUpdate.
  unfold identify, sendJson, identifiesSent. rewrite H. simpl.
  now rewrite List.filter_app.
Qed.

Lemma identifies_Improved_onWsEvent (ev : WsEvent) (d : Device) :
  identifiesSent (Improved.onWsEvent ev (ws_status ev d))
  = identifiesSent d ++ (if isConnect ev then [MIdentify] else []).
Proof.
  destruct ev as [| |payload|]; simpl; rewrite ?app_nil_r; try reflexivity.
  - now rewrite identifies_connected.
  - apply identifies_onWsText, identifies_Improved_loadConfigFromJsonArray.
Qed.

Lemma identifies_DebugTest_onWsEvent (ev : WsEvent) (d : Device) :
  identifiesSent (DebugTest.onWsEvent ev (ws_status ev d))
  = identifiesSent d ++ (if isConnect ev then [MIdentify] else []).
Proof.
  destruct ev as [| |payload|]; simpl; rewrite ?app_nil_r; try reflexivity.
  - now rewrite identifies_connected.
  - keep (keeps_DebugTest_maybeSaveConfig identifiesSent).
  - apply identifies_onWsText, identifies_DebugTest_loadConfigFromJsonArray.
Qed.

Lemma identifies_ws_loop (onWsEvent : WsEvent -> Device -> Device)
    (evs : list WsEvent) :
  (forall ev d,
     identifiesSent (onWsEvent ev (ws_status ev d))
     = identifiesSent d ++ (if isConnect ev then [MIdentify] else [])) ->
  forall d : Device,
    identifiesSent
      (fold_left (fun d ev => onWsEvent ev (ws_status ev d)) evs d)
    = identifiesSent d ++ repeat MIdentify (connects evs).
Proof.
  intros Hev. unfold connects.
  induction evs as [|ev evs IH]; intros d; simpl.
  - now rewrite app_nil_r.
  - rewrite IH, Hev, <- app_assoc. now destruct (isConnect ev).
Qed.

Lemma identifies_delay (ms : N) : keeps identifiesSent (delay ms).
Proof. intros d. reflexivity. Qed.

Lemma identifies_flush :
  keeps identifiesSent
    (fun d => if pendingState d then sendStateUpdate true d else d).
Proof.
  intros d. destruct (pendingState d); [|reflexivity].
  apply identifies_sendStateUpdate.
Qed.

(** X9.  An identify frame goes out once for every WStype_CONNECTED
    event the socket library delivers, and at no other time.  The
    identify retry at the head of loop() runs only while the socket is
    down, where sendJson swallows the frame, so it never transmits; and
    while the socket is up nothing sends identify again, answered or
    not. *)
Theorem X9_identify_once_per_connect (evs : list WsEvent) (d : Device) :
  identifiesSent (Improved.loop evs d)
  = identifiesSent d ++ repeat MIdentify (connects evs)
  /\ identifiesSent (DebugTest.loop evs d)
     = identifiesSent d ++ repeat MIdentify (connects evs)
  /\ tx (loop_connectivity d) = tx d.
Proof.
  split; [|split].
  - unfold Improved.loop, Improved.ws_loop.
    rewrite identifies_delay, identifies_flush.
    rewrite (keeps_blinkStatus identifiesSent) by (intros; reflexivity).
    rewrite identifies_sendHeartbeat.
    rewrite (keeps_handleManualSwitches identifiesSent)
      by (intros; reflexivity).
    rewrite identifies_Improved_processCommandQueue.
    rewrite (identifies_ws_loop _ evs identifies_Improved_onWsEvent).
    now rewrite identifies_loop_connectivity.
  - unfold DebugTest.loop, DebugTest.ws_loop.
    rewrite identifies_delay.
    rewrite (keeps_DebugTest_maybeSaveConfig identifiesSent)
      by (intros; reflexivity).
    rewrite identifies_flush.
    rewrite (keeps_blinkStatus identifiesSent) by (intros; reflexivity).
    rewrite identifies_sendHeartbeat.
    rewrite (keeps_handleManualSwitches identifiesSent)
      by (intros; reflexivity).
    rewrite identifies_DebugTest_processCommandQueue.
    rewrite (identifies_ws_loop _ evs identifies_DebugTest_onWsEvent).
    now rewrite identifies_loop_connectivity.
  - unfold loop_connectivity, identify, sendJson.
    repeat case_if; try reflexivity. simpl in *. congruence.
Qed.

(** ** Frames of the event handlers *)

Section FrameEvents.

Context {A : Type} (obs : Device -> A).

Hypothesis obs_serial : forall v d, obs (set_serial v d) = obs d.
Hypothesis obs_tx : forall v d, obs (set_tx v d) = obs d.
Hypothesis obs_cmdQueue : forall v d, obs (set_cmdQueue v d) = obs d.
Hypothesis obs_pinOut : forall v d, obs (set_pinOut v d) = obs d.
Hypothesis obs_identified : forall v d, obs (set_identified v d) = obs d.
Hypothesis obs_isOfflineMode : forall v d, obs (set_isOfflineMode v d) = obs d.
Hypothesis obs_lastSeqs : forall v d, obs (set_lastSeqs v d) = obs d.

Variable load : list JsonVariant -> Device -> Device.
Hypothesis keeps_load : forall arr, keeps obs (load arr).

Lemma keeps_onWsText (payload : option JsonVariant) :
  keeps obs (onWsText load payload).
Proof.
  intros d. unfold onWsText.
  destruct payload as [doc|]; [|reflexivity]. cbv zeta.
  repeat case_if; try reflexivity.
  - unfold onIdentified, digitalWrite.
    destruct (doc.["switches"]); rewrite ?keeps_load;
      now rewrite obs_lastSeqs, obs_pinOut, obs_isOfflineMode, obs_identified.
  - unfold onConfigUpdate.
    destruct (doc.["switches"]); try reflexivity.
    now rewrite keeps_load, obs_lastSeqs.
  - unfold onSwitchCommand. now apply keeps_queueSwitchCommand.
  - now apply keeps_onBulkSwitchCommand.
Qed.

End FrameEvents.

(** ** Link supervision and the status LED *)

Lemma connState_loop_connectivity (d : Device) :
  connState (loop_connectivity d) = linkState d.
Proof.
  unfold loop_connectivity, linkState, identify, sendJson.
  repeat case_if; reflexivity.
Qed.

Lemma connState_Improved_onWsEvent (ev : WsEvent) (d : Device) :
  connState (Improved.onWsEvent ev (ws_status ev d))
  = linkAfterEvent (connState d) ev.
Proof.
  destruct ev as [| |payload|];
    unfold Improved.onWsEvent, ws_status; try reflexivity.
  - apply (keeps_onWsText connState); try (intros; reflexivity).
    intros arr.
    keep (keeps_Improved_loadConfigFromJsonArray connState).
Qed.

Lemma connState_DebugTest_onWsEvent (ev : WsEvent) (d : Device) :
  connState (DebugTest.onWsEvent ev (ws_status ev d))
  = linkAfterEvent (connState d) ev.
Proof.
  destruct ev as [| |payload|];
    unfold DebugTest.onWsEvent, ws_status; try reflexivity.
  - rewrite (keeps_DebugTest_maybeSaveConfig connState)
      by (intros; reflexivity).
    reflexivity.
  - apply (keeps_onWsText connState); try (intros; reflexivity).
    intros arr.
    keep (keeps_DebugTest_loadConfigFromJsonArray connState).
Qed.

Lemma connState_ws_loop (onWsEvent : WsEvent -> Device -> Device)
    (evs : list WsEvent) :
  (forall ev d, connState (onWsEvent ev (ws_status ev d))
                = linkAfterEvent (connState d) ev) ->
  forall d : Device,
    connState (fold_left (fun d ev => onWsEvent ev (ws_status ev d)) evs d)
    = fold_left linkAfterEvent evs (connState d).
Proof.
  intros Hev. induction evs as [|ev evs IH]; intros d; simpl; [reflexivity|].
  now rewrite IH, Hev.
Qed.

Lemma clock_Improved_onWsEvent (ev : WsEvent) :
  keeps clock (fun d => Improved.onWsEvent ev (ws_status ev d)).
Proof.
  intros d. destruct ev as [| |payload|];
    unfold Improved.onWsEvent, ws_status; try reflexivity.
  - apply (keeps_onWsText clock); try (intros; reflexivity).
    intros arr. keep (keeps_Improved_loadConfigFromJsonArray clock).
Qed.

Lemma clock_DebugTest_onWsEvent (ev : WsEvent) :
  keeps clock (fun d => DebugTest.onWsEvent ev (ws_status ev d)).
Proof.
  intros d. destruct ev as [| |payload|];
    unfold DebugTest.onWsEvent, ws_status; try reflexivity.
  - rewrite (keeps_DebugTest_maybeSaveConfig clock) by (intros; reflexivity).
    reflexivity.
  - apply (keeps_onWsText clock); try (intros; reflexivity).
    intros arr. keep (keeps_DebugTest_loadConfigFromJsonArray clock).
Qed.

Lemma uint8_blinkLevel (c : ConnState) (now : Z) :
  uint8 (blinkLevel c now) = blinkLevel c now.
Proof.
  unfold blinkLevel. cbv zeta.
  destruct c;
    match goal with |- context [if ?b then _ else _] => destruct b end;
    reflexivity.
Qed.

Lemma blinkStatus_level (d : Device) :
  blinkStatus d
  = digitalWrite STATUS_LED_PIN (blinkLevel (connState d) (millis d)) d.
Proof. reflexivity. Qed.

Lemma clock_ws_loop (onWsEvent : WsEvent -> Device -> Device)
    (evs : list WsEvent) :
  (forall ev, keeps clock (fun d => onWsEvent ev (ws_status ev d))) ->
  keeps clock (fold_left (fun d ev => onWsEvent ev (ws_status ev d)) evs).
Proof.
  intros Hev. induction evs as [|ev evs IH]; intros d; simpl; [reflexivity|].
  now rewrite IH, (Hev ev d).
Qed.

Lemma flush_flushPending (d : Device) :
  (if pendingState d then sendStateUpdate true d else d) = flushPending d.
Proof. reflexivity. Qed.

(** X10.  After a pass of loop(), connState is what the supervision
    block made of the link status (WIFI_DISCONNECTED without WiFi,
    WIFI_ONLY with WiFi but no socket, BACKEND_CONNECTED with both),
    overridden by the last WStype_CONNECTED or WStype_DISCONNECTED event
    of the pass if there was one; and pin STATUS_LED_PIN carries the
    blink pattern of that state at the time of the pass.  blinkStatus is
    the last writer of the pass, so this holds even when a relay channel
    has been configured on the LED pin. *)
Theorem X10_link_state_and_status_led (evs : list WsEvent) (d : Device) :
  let d1 := Improved.loop evs d in
  let d2 := DebugTest.loop evs d in
  connState d1 = fold_left linkAfterEvent evs (linkState d)
  /\ pinOut d1 !! STATUS_LED_PIN = Some (blinkLevel (connState d1) (millis d))
  /\ connState d2 = fold_left linkAfterEvent evs (linkState d)
  /\ pinOut d2 !! STATUS_LED_PIN = Some (blinkLevel (connState d2) (millis d)).
Proof.
  cbv zeta.
  set (a1 := Improved.ws_loop evs (loop_connectivity d)).
  set (b1 := sendHeartbeat (handleManualSwitches
               (Improved.processCommandQueue a1))).
  set (a2 := DebugTest.ws_loop evs (loop_connectivity d)).
  set (b2 := sendHeartbeat (handleManualSwitches
               (DebugTest.processCommandQueue a2))).
  assert (Ha1 : connState a1 = fold_left linkAfterEvent evs (linkState d)
                /\ clock a1 = clock d).
  { subst a1. unfold Improved.ws_loop. split.
    - rewrite (connState_ws_loop _ evs connState_Improved_onWsEvent).
      now rewrite connState_loop_connectivity.
    - rewrite (clock_ws_loop _ evs clock_Improved_onWsEvent).
      keep (keeps_loop_connectivity clock). }
  assert (Ha2 : connState a2 = fold_left linkAfterEvent evs (linkState d)
                /\ clock a2 = clock d).
  { subst a2. unfold DebugTest.ws_loop. split.
    - rewrite (connState_ws_loop _ evs connState_DebugTest_onWsEvent).
      now rewrite connState_loop_connectivity.
    - rewrite (clock_ws_loop _ evs clock_DebugTest_onWsEvent).
      keep (keeps_loop_connectivity clock). }
  assert (Hb1 : connState b1 = connState a1 /\ clock b1 = clock a1).
  { subst b1. split.
    - rewrite (keeps_sendHeartbeat connState),
        (keeps_handleManualSwitches connState),
        (keeps_Improved_processCommandQueue connState)
        by (intros; reflexivity).
      reflexivity.
    - rewrite (keeps_sendHeartbeat clock),
        (keeps_handleManualSwitches clock),
        (keeps_Improved_processCommandQueue clock)
        by (intros; reflexivity).
      reflexivity. }
  assert (Hb2 : connState b2 = connState a2 /\ clock b2 = clock a2).
  { subst b2. split.
    - rewrite (keeps_sendHeartbeat connState),
        (keeps_handleManualSwitches connState),
        (keeps_DebugTest_processCommandQueue connState)
        by (intros; reflexivity).
      reflexivity.
    - rewrite (keeps_sendHeartbeat clock),
        (keeps_handleManualSwitches clock),
        (keeps_DebugTest_processCommandQueue clock)
        by (intros; reflexivity).
      reflexivity. }
  assert (H1 : connState (Improved.loop evs d) = connState b1
               /\ pinOut (Improved.loop evs d) !! STATUS_LED_PIN
                  = Some (blinkLevel (connState b1) (millis b1))).
  { unfold Improved.loop. fold a1. fold b1. cbv zeta.
    unfold delay. cbn [connState pinOut set_clock].
    rewrite flush_flushPending.
    rewrite (keeps_flushPending connState),
      (keeps_flushPending pinOut) by (intros; reflexivity).
    rewrite blinkStatus_level. unfold digitalWrite.
    rewrite uint8_blinkLevel. cbn [connState pinOut set_pinOut]. split; [reflexivity|].
    apply lookup_insert_eq. }
  assert (H2 : connState (DebugTest.loop evs d) = connState b2
               /\ pinOut (DebugTest.loop evs d) !! STATUS_LED_PIN
                  = Some (blinkLevel (connState b2) (millis b2))).
  { unfold DebugTest.loop. fold a2. fold b2. cbv zeta.
    unfold delay. cbn [connState pinOut set_clock].
    rewrite (keeps_DebugTest_maybeSaveConfig connState),
      (keeps_DebugTest_maybeSaveConfig pinOut) by (intros; reflexivity).
    rewrite flush_flushPending.
    rewrite (keeps_flushPending connState),
      (keeps_flushPending pinOut) by (intros; reflexivity).
    rewrite blinkStatus_level. unfold digitalWrite.
    rewrite uint8_blinkLevel. cbn [connState pinOut set_pinOut]. split; [reflexivity|].
    apply lookup_insert_eq. }
  destruct Ha1 as [Ha1 Hc1], Ha2 as [Ha2 Hc2], Hb1 as [Hb1 Hd1],
    Hb2 as [Hb2 Hd2], H1 as [H1 L1], H2 as [H2 L2].
  rewrite H1, L1, H2, L2. unfold millis.
  rewrite Hb1, Hb2, Hd1, Hd2, Hc1, Hc2, Ha1, Ha2. auto.
Qed.

(** ** Start-up *)

Lemma factory_pins_uint8 (cfg : SwitchConfig) :
  In cfg defaultSwitchConfigs -> uint8 (relayPin cfg) = relayPin cfg.
Proof.
  unfold defaultSwitchConfigs. simpl.
  intros H. repeat (destruct H as [<-|H]; [reflexivity|]). contradiction.
Qed.

Lemma installDefault_fold (cfgs : list SwitchConfig) :
  forall d : Device,
    let d' := fold_left installDefault cfgs d in
    map channelConfig (switchesLocal d')
    = map channelConfig (switchesLocal d) ++ map factoryConfig cfgs
    /\ length (switchesLocal d') = (length (switchesLocal d) + length cfgs)%nat
    /\ prefs d' = prefs d /\ clock d' = clock d
    /\ nvsCommits d' = nvsCommits d
    /\ (forall cfg, In cfg cfgs ->
          pinOut d' !! uint8 (relayPin cfg) = Some RELAY_OFF_LEVEL)
    /\ (forall pin, pinOut d !! pin = Some RELAY_OFF_LEVEL ->
          pinOut d' !! pin = Some RELAY_OFF_LEVEL).
Proof.
  induction cfgs as [|cfg cfgs IH]; intros d; cbv zeta.
  - simpl. rewrite app_nil_r, Nat.add_0_r. repeat split; auto.
    intros cfg [].
  - simpl fold_left.
    destruct (IH (installDefault d cfg)) as (I1 & I2 & I3 & I4 & I5 & I6 & I7).
    cbv zeta in *. rewrite I1, I2, I3, I4, I5.
    unfold installDefault at 1 2 3 4 5. unfold digitalWrite.
    cbn [switchesLocal prefs clock nvsCommits set_switchesLocal set_pinOut].
    rewrite map_app, length_app, <- app_assoc. cbn [map app length].
    repeat split; try reflexivity; try lia.
    + intros c [<-|Hc]; [|now apply I6].
      apply I7. unfold installDefault, digitalWrite. simpl.
      apply lookup_insert_eq.
    + intros pin Hpin. apply I7. unfold installDefault, digitalWrite. simpl.
      destruct (decide (uint8 (relayPin cfg) = pin)) as [<-|Hne].
      * apply lookup_insert_eq.
      * now rewrite lookup_insert_ne.
Qed.

Lemma loadConfigFromNVS_noSnapshot (d : Device) :
  noSnapshot (prefs d) = true ->
  loadConfigFromNVS d = Serial_print LogNvsNoValidConfig d.
Proof.
  intros H. unfold loadConfigFromNVS. unfold noSnapshot in H. now rewrite H.
Qed.

Lemma redrive_frame (sws : list SwitchState) :
  forall d : Device,
    switchesLocal
      (fold_left (fun d sw => digitalWrite (gpio sw) (relayLevel (state sw)) d)
         sws d)
    = switchesLocal d.
Proof.
  induction sws as [|sw sws IH]; intros d; simpl; [reflexivity|].
  now rewrite IH.
Qed.

(** The registry [setupRelays] leaves: the one read from the NVS, or
    the factory defaults when that one is empty. *)
Lemma setupRelays_registry (d : Device) :
  let d0 := loadConfigFromNVS d in
  match switchesLocal d0 with
  | [] => setupRelays d
          = saveConfigToNVS (fold_left installDefault defaultSwitchConfigs d0)
  | _ :: _ => switchesLocal (setupRelays d) = switchesLocal d0
  end.
Proof.
  cbv zeta. unfold setupRelays.
  destruct (switchesLocal (loadConfigFromNVS d)) as [|sw sws] eqn:E;
    [reflexivity|].
  now rewrite redrive_frame.
Qed.

Lemma setupRelays_defaults (d : Device) :
  switchesLocal (loadConfigFromNVS d) = [] ->
  let d1 := setupRelays d in
  map channelConfig (switchesLocal d1) = map factoryConfig defaultSwitchConfigs
  /\ (forall cfg, In cfg defaultSwitchConfigs ->
        pinOut d1 !! relayPin cfg = Some RELAY_OFF_LEVEL)
  /\ nvsCommits d1 = clock d :: nvsCommits d.
Proof.
  intros He. cbv zeta.
  pose proof (setupRelays_registry d) as H. cbv zeta in H.
  rewrite He in H. rewrite H.
  destruct (installDefault_fold defaultSwitchConfigs (loadConfigFromNVS d))
    as (I1 & _ & _ & I4 & I5 & I6 & _).
  cbv zeta in *.
  rewrite (keeps_saveConfigToNVS switchesLocal),
    (keeps_saveConfigToNVS pinOut) by (intros; reflexivity).
  rewrite I1, He. split; [reflexivity|].
  split; [intros cfg Hc; rewrite <- (factory_pins_uint8 cfg Hc); now apply I6|].
  destruct (saveConfigToNVS_frame
              (fold_left installDefault defaultSwitchConfigs
                 (loadConfigFromNVS d)))
    as (_ & _ & _ & _ & _ & _ & _ & _ & _ & _ & _ & _ & S & _).
  cbv zeta in S. rewrite S, I4, I5.
  unfold loadConfigFromNVS. case_if; [reflexivity|].
  unfold Serial_print. cbn [clock nvsCommits set_serial].
  change (fun d0 i => match readSwitchFromNVS (prefs d0) i with
                      | Some sw => installSwitch sw d0
                      | None => d0
                      end) with loadBody.
  generalize (seq 0 (Z.to_nat (getInt "count" 0 (prefs d)))) as idx.
  assert (G : forall idx d0,
            clock (fold_left loadBody idx d0) = clock d0
            /\ nvsCommits (fold_left loadBody idx d0) = nvsCommits d0).
  { induction idx as [|i idx IH]; intros d0; simpl; [auto|].
    destruct (IH (loadBody d0 i)) as [-> ->]. unfold loadBody.
    destruct (readSwitchFromNVS (prefs d0) i); auto. }
  intros idx. destruct (G idx (set_switchesLocal [] d)) as [-> ->].
  reflexivity.
Qed.

Lemma gpio_of_channelConfig (a b : list SwitchState) :
  map channelConfig a = map channelConfig b -> map gpio a = map gpio b.
Proof.
  intros H.
  apply (f_equal (map (fun c : Z * bool * bool * string * bool
                                 * (bool * Z * bool * bool) =>
                         fst (fst (fst (fst (fst c))))))) in H.
  rewrite !map_map in H. exact H.
Qed.

Lemma gpio_of_factoryConfig (sws : list SwitchState)
    (cfgs : list SwitchConfig) :
  map channelConfig sws = map factoryConfig cfgs ->
  map gpio sws = map relayPin cfgs.
Proof.
  intros H.
  apply (f_equal (map (fun c : Z * bool * bool * string * bool
                                 * (bool * Z * bool * bool) =>
                         fst (fst (fst (fst (fst c))))))) in H.
  rewrite !map_map in H. exact H.
Qed.

Lemma validRegistry_pins (sws : list SwitchState) :
  validRegistry sws <-> Forall (fun g => 0 <= g) (map gpio sws).
Proof. unfold validRegistry. symmetry. apply List.Forall_map. Qed.

Lemma factory_pins_valid :
  Forall (fun g => 0 <= g) (map relayPin defaultSwitchConfigs).
Proof. unfold defaultSwitchConfigs. simpl. repeat constructor; lia. Qed.

Lemma load_length (idx : list nat) :
  forall d0 : Device,
    (length (switchesLocal (fold_left loadBody idx d0))
     <= length (switchesLocal d0) + length idx)%nat.
Proof.
  induction idx as [|i idx IH]; intros d0; simpl; [lia|].
  specialize (IH (loadBody d0 i)). unfold loadBody in IH at 3.
  destruct (readSwitchFromNVS (prefs d0) i) as [sw|].
  - destruct (installSwitch_spec sw d0) as (S & _). cbv zeta in S.
    rewrite S, length_app in IH. simpl in IH. lia.
  - lia.
Qed.

Lemma loadConfigFromNVS_length (d : Device) :
  noSnapshot (prefs d) = false ->
  (length (switchesLocal (loadConfigFromNVS d)) <= MAX_SWITCHES)%nat.
Proof.
  intros H. unfold loadConfigFromNVS. unfold noSnapshot in H. rewrite H.
  unfold Serial_print. cbn [switchesLocal set_serial].
  change (fun d0 i => match readSwitchFromNVS (prefs d0) i with
                      | Some sw => installSwitch sw d0
                      | None => d0
                      end) with loadBody.
  pose proof (load_length (seq 0 (Z.to_nat (getInt "count" 0 (prefs d))))
                (set_switchesLocal [] d)) as L.
  rewrite length_seq in L. cbn [switchesLocal set_switchesLocal length] in L.
  apply orb_false_iff in H as [H1 H2].
  apply Z.leb_gt in H1. apply Z.ltb_ge in H2. unfold MAX_SWITCHES in *. lia.
Qed.

(** X11.  With no usable snapshot in the NVS (count missing, zero,
    negative or above 8), setupRelays on the empty registry of a
    starting device installs the eight channels of defaultSwitchConfigs:
    off, manual input enabled, maintained, polarity as configured; it
    drives every one of their relay pins to RELAY_OFF_LEVEL and saves
    the snapshot, count = 8, at once. *)
Theorem X11_factory_defaults_without_snapshot (d : Device) :
  switchesLocal d = [] ->
  noSnapshot (prefs d) = true ->
  let d1 := setupRelays d in
  map channelConfig (switchesLocal d1) = map factoryConfig defaultSwitchConfigs
  /\ Forall (fun cfg => pinOut d1 !! relayPin cfg = Some RELAY_OFF_LEVEL)
       defaultSwitchConfigs
  /\ prefs d1 !! "count" = Some (NvsInt 8)
  /\ nvsCommits d1 = clock d :: nvsCommits d.
Proof.
  intros He Hno d1.
  assert (H0 : switchesLocal (loadConfigFromNVS d) = [])
    by (rewrite loadConfigFromNVS_noSnapshot by exact Hno; exact He).
  destruct (setupRelays_defaults d H0) as (S1 & S2 & S3). fold d1 in S1, S2, S3.
  split; [exact S1|]. split; [apply List.Forall_forall; exact S2|]. split; [|exact S3].
  subst d1. pose proof (setupRelays_registry d) as R. cbv zeta in R.
  rewrite H0 in R. rewrite R, saveConfigToNVS_count.
  destruct (installDefault_fold defaultSwitchConfigs (loadConfigFromNVS d))
    as (_ & L & _).
  cbv zeta in L. rewrite L, H0. reflexivity.
Qed.

Lemma X11_witness :
  map channelConfig (switchesLocal (setupRelays boot))
  = map factoryConfig defaultSwitchConfigs
  /\ prefs (setupRelays boot) !! "count" = Some (NvsInt 8).
Proof.
  destruct (X11_factory_defaults_without_snapshot boot eq_refl eq_refl)
    as (H1 & _ & H3 & _).
  split; assumption.
Defined.

(** X12.  Whatever the NVS holds - nothing, a count out of range, a
    count whose entries are missing or have negative pins - setupRelays
    on the empty registry of a starting device leaves a registry of at
    least one and at most MAX_SWITCHES = 8 channels, all with
    non-negative relay pins. *)
Theorem X12_setupRelays_registry_bounds (d : Device) :
  switchesLocal d = [] ->
  let sws := switchesLocal (setupRelays d) in
  (1 <= length sws <= MAX_SWITCHES)%nat /\ validRegistry sws.
Proof.
  intros He sws. subst sws.
  pose proof (setupRelays_registry d) as R. cbv zeta in R.
  destruct (switchesLocal (loadConfigFromNVS d)) as [|sw rest] eqn:E.
  - destruct (setupRelays_defaults d E) as (S1 & _). cbv zeta in S1.
    split.
    + apply (f_equal (@length _)) in S1. rewrite !length_map in S1.
      rewrite S1. unfold defaultSwitchConfigs, MAX_SWITCHES. simpl. lia.
    + apply validRegistry_pins.
      rewrite (gpio_of_factoryConfig _ _ S1). apply factory_pins_valid.
  - rewrite R. split.
    + split; [simpl; lia|]. rewrite <- E.
      destruct (noSnapshot (prefs d)) eqn:Hn.
      * rewrite loadConfigFromNVS_noSnapshot in E by exact Hn.
        simpl in E. rewrite He in E. discriminate.
      * now apply loadConfigFromNVS_length.
    + rewrite <- E. apply loadConfigFromNVS_valid. rewrite He. constructor.
Qed.

Lemma X12_witness :
  noSnapshot brokenSnapshot = false
  /\ (1 <= length (switchesLocal (setupRelays (set_prefs brokenSnapshot boot)))
       <= MAX_SWITCHES)%nat.
Proof.
  split; [reflexivity|].
  exact (proj1 (X12_setupRelays_registry_bounds
                  (set_prefs brokenSnapshot boot) eq_refl)).
Defined.

Lemma install_nothing (parse : JsonVariant -> option SwitchState)
    (arr : list JsonVariant) :
  Forall (fun o => parse o = None) arr ->
  forall d : Device,
    fold_left (fun d o => match parse o with
                          | Some sw => installSwitch sw d
                          | None => d
                          end) arr d = d.
Proof.
  induction 1 as [|o arr Ho _ IH]; intros d; simpl; [reflexivity|].
  now rewrite Ho, IH.
Qed.

Lemma setupRelays_after_restart_without_snapshot (d : Device) :
  noSnapshot (prefs d) = true ->
  map channelConfig (switchesLocal (setupRelays (powerCycle d)))
  = map factoryConfig defaultSwitchConfigs.
Proof.
  intros Hno.
  apply setupRelays_defaults.
  rewrite loadConfigFromNVS_noSnapshot; [reflexivity|].
  now rewrite prefs_powerCycle.
Qed.

(** X13.  A switches array in which no element has a usable relay pin
    (the empty array included) leaves improved_esp32.cpp with an empty
    registry and saves count = 0; loadConfigFromNVS takes count = 0 for
    "no valid configuration", so after a restart setupRelays brings the
    eight factory channels back. *)
Theorem X13_config_without_channels_resets_to_factory
    (arr : list JsonVariant) (d : Device) :
  Forall (fun o => relayGpioOf o < 0) arr ->
  let d1 := Improved.loadConfigFromJsonArray arr d in
  switchesLocal d1 = []
  /\ prefs d1 !! "count" = Some (NvsInt 0)
  /\ map channelConfig (switchesLocal (setupRelays (powerCycle d1)))
     = map factoryConfig defaultSwitchConfigs.
Proof.
  intros Harr d1.
  assert (Hnone : Forall (fun o => Improved.parseSwitch o = None) arr).
  { eapply List.Forall_impl; [|exact Harr]. simpl. intros o Ho.
    unfold Improved.parseSwitch. apply Z.ltb_lt in Ho. now rewrite Ho. }
  assert (Hd1 : d1 = sendStateUpdate true
                       (saveConfigToNVS (set_switchesLocal [] d))).
  { subst d1. unfold Improved.loadConfigFromJsonArray.
    now rewrite (install_nothing _ arr Hnone). }
  assert (Hsw : switchesLocal d1 = []).
  { rewrite Hd1.
    rewrite (keeps_sendStateUpdate switchesLocal),
      (keeps_saveConfigToNVS switchesLocal) by (intros; reflexivity).
    reflexivity. }
  assert (Hcount : prefs d1 !! "count" = Some (NvsInt 0)).
  { rewrite Hd1.
    rewrite (keeps_sendStateUpdate prefs) by (intros; reflexivity).
    rewrite saveConfigToNVS_count. reflexivity. }
  split; [exact Hsw|]. split; [exact Hcount|].
  apply setupRelays_after_restart_without_snapshot.
  unfold noSnapshot, getInt. now rewrite Hcount.
Qed.

Lemma X13_witness :
  switchesLocal (Improved.loadConfigFromJsonArray [JObject []] factoryDevice)
  = []
  /\ map channelConfig
       (switchesLocal
          (setupRelays
             (powerCycle
                (Improved.loadConfigFromJsonArray [JObject []] factoryDevice))))
     = map factoryConfig defaultSwitchConfigs.
Proof.
  assert (H : Forall (fun o => relayGpioOf o < 0) [JObject []])
    by (repeat constructor).
  destruct (X13_config_without_channels_resets_to_factory _ factoryDevice H)
    as (H1 & _ & H3).
  split; assumption.
Defined.

Lemma setSwitch_length (g : Z) (s : bool) (sws sws' : list SwitchState) :
  setSwitch g s sws = Some sws' -> length sws' = length sws /\ sws' <> [].
Proof.
  intros H.
  destruct (setSwitch_Some g s sws sws' H) as (l1 & sw & l2 & -> & _ & _ & ->).
  rewrite !length_app. simpl. split; [reflexivity|].
  now destruct l1.
Qed.

(** X14.  In improved_esp32.cpp a command that has been applied is in
    the NVS when applySwitchState returns: for a registry of at most
    MAX_SWITCHES channels a restart right after it brings back the
    registry with the commanded state.  In esp32debugtest.cpp
    applySwitchState does not touch the NVS, so a restart before the
    next maybeSaveConfig flush comes up as if the command had never
    been applied. *)
Theorem X14_applied_command_and_restart (g : Z) (s : bool) (d : Device)
    (sws : list SwitchState) :
  setSwitch g s (switchesLocal d) = Some sws ->
  validRegistry (switchesLocal d) ->
  (length (switchesLocal d) <= MAX_SWITCHES)%nat ->
  map channelConfig
    (switchesLocal
       (setupRelays (powerCycle (snd (Improved.applySwitchState g s d)))))
  = map channelConfig sws
  /\ powerCycle (snd (DebugTest.applySwitchState g s d)) = powerCycle d.
Proof.
  intros Hset Hval Hlen. split.
  - set (d0 := Serial_print (LogSwitch g s)
                 (digitalWrite g (relayLevel s) (set_switchesLocal sws d))).
    set (d1 := snd (Improved.applySwitchState g s d)).
    assert (Hp : prefs (powerCycle d1) = prefs (saveConfigToNVS d0)).
    { rewrite prefs_powerCycle. subst d1 d0.
      unfold Improved.applySwitchState. rewrite Hset. cbn [snd].
      now rewrite (keeps_sendStateUpdate prefs) by (intros; reflexivity). }
    destruct (setSwitch_length g s _ _ Hset) as [Hl Hne].
    assert (Hload : map channelConfig
                      (switchesLocal (loadConfigFromNVS (powerCycle d1)))
                    = map channelConfig sws).
    { rewrite (save_then_load d0 (powerCycle d1)).
      - subst d0. cbn [switchesLocal Serial_print digitalWrite set_serial
                         set_pinOut set_switchesLocal].
        now rewrite take_ge by lia.
      - subst d0. simpl. eapply setSwitch_valid; eauto.
      - exact Hp.
      - intros _. reflexivity. }
    pose proof (setupRelays_registry (powerCycle d1)) as R. cbv zeta in R.
    destruct (switchesLocal (loadConfigFromNVS (powerCycle d1)))
      as [|sw rest] eqn:E.
    + destruct sws; [now contradiction Hne | discriminate Hload].
    + now rewrite R.
  - unfold powerCycle.
    now rewrite (keeps_DebugTest_applySwitchState prefs)
      by (intros; reflexivity).
Qed.

Lemma X14_witness :
  map state
    (switchesLocal
       (setupRelays
          (powerCycle (snd (Improved.applySwitchState 4 true sessionDevice)))))
  = [true].
Proof.
  assert (H1 : setSwitch 4 true (switchesLocal sessionDevice)
               = Some channel4On) by reflexivity.
  assert (H2 : validRegistry (switchesLocal sessionDevice))
    by (vm_compute; repeat constructor; discriminate).
  assert (H3 : (length (switchesLocal sessionDevice) <= MAX_SWITCHES)%nat)
    by (vm_compute; lia).
  destruct (X14_applied_command_and_restart 4 true sessionDevice channel4On
              H1 H2 H3) as [H _].
  apply (f_equal (map (fun c : Z * bool * bool * string * bool
                                 * (bool * Z * bool * bool) =>
                         snd (fst (fst (fst (fst c))))))) in H.
  rewrite !map_map in H. exact H.
Defined.

(** ** Manual inputs and the registry *)

Lemma manualSwitchStep_core (now rawLevel : Z) (sw : SwitchState) :
  let sw' := fst (manualSwitchStep now rawLevel sw) in
  channelCore sw' = channelCore sw /\ overrideKept sw sw'.
Proof.
  unfold manualSwitchStep, overrideKept, manualActive.
  repeat case_if; simpl; auto.
Qed.

Lemma manualStepOf_core (now : Z) (pins : Z -> Z) (sw : SwitchState) :
  let sw' := fst (manualStepOf now pins sw) in
  channelCore sw' = channelCore sw /\ overrideKept sw sw'.
Proof.
  unfold manualStepOf. case_if.
  - simpl. unfold overrideKept. auto.
  - apply manualSwitchStep_core.
Qed.

Lemma enqueueAll_prefs (cs : list (Z * bool)) : keeps prefs (enqueueAll cs).
Proof.
  unfold enqueueAll. apply (keeps_fold prefs). intros c.
  keep (keeps_queueSwitchCommand prefs).
Qed.

Lemma manualStepOf_overrides (now : Z) (pins : Z -> Z)
    (sws : list SwitchState) :
  Forall2 overrideKept sws
    (map (fun sw => fst (manualStepOf now pins sw)) sws).
Proof.
  induction sws as [|sw sws IH]; simpl; constructor; [|exact IH].
  apply (manualStepOf_core now pins sw).
Qed.

(** X15.  handleManualSwitches never switches a relay itself.  It
    leaves pin, state, default state, name and manual configuration of
    every channel as they were, writes no output pin, saves nothing and
    sends nothing; it updates the debounce trackers, raises override
    flags (it never clears one) and hands the commands of this pass to
    queueSwitchCommand, which appends the ones the queue has room for. *)
Theorem X15_manual_input_only_queues (d : Device) :
  let d' := handleManualSwitches d in
  let cmds := manualCommands (millis d) (pinIn d) (switchesLocal d) in
  let room := (MAX_COMMAND_QUEUE - length (cmdQueue d))%nat in
  map channelCore (switchesLocal d') = map channelCore (switchesLocal d)
  /\ Forall2 overrideKept (switchesLocal d) (switchesLocal d')
  /\ cmdQueue d' = cmdQueue d ++ map (queued (millis d)) (take room cmds)
  /\ pinOut d' = pinOut d /\ prefs d' = prefs d
  /\ nvsCommits d' = nvsCommits d /\ tx d' = tx d.
Proof.
  cbv zeta. rewrite handleManualSwitches_spec.
  destruct (enqueueAll_spec
              (manualCommands (millis d) (pinIn d) (switchesLocal d)) d)
    as (E1 & _ & _ & _ & _ & _ & E7 & E8 & E9).
  cbv zeta in *. cbn [switchesLocal cmdQueue pinOut prefs nvsCommits tx
                        set_switchesLocal].
  rewrite E1, E7, E8, E9.
  split; [|split; [|repeat split; try reflexivity]].
  - rewrite map_map. apply map_ext. intros sw.
    apply (manualStepOf_core (millis d) (pinIn d) sw).
  - apply manualStepOf_overrides.
  - apply enqueueAll_prefs.
Qed.

(** *** A registry that has just been loaded *)

Lemma manualStepOf_settled (now : Z) (pins : Z -> Z) (sw : SwitchState) :
  settledInput pins sw -> manualStepOf now pins sw = (sw, None).
Proof.
  unfold settledInput, manualStepOf. intros H.
  destruct (negb (manualEnabled sw) || (manualGpio sw <? 0)); [reflexivity|].
  destruct (H eq_refl) as [H1 H2].
  unfold manualSwitchStep. rewrite H1, Z.eqb_refl. cbn [negb].
  rewrite H2, Z.eqb_refl. reflexivity.
Qed.

Lemma set_switchesLocal_same (d : Device) :
  set_switchesLocal (switchesLocal d) d = d.
Proof. destruct d; reflexivity. Qed.

Lemma manualStepOf_settled_all (now : Z) (pins : Z -> Z)
    (sws : list SwitchState) :
  Forall (settledInput pins) sws ->
  map (fun sw => fst (manualStepOf now pins sw)) sws = sws
  /\ manualCommands now pins sws = [].
Proof.
  unfold manualCommands.
  induction 1 as [|sw sws Hsw _ [IH1 IH2]]; simpl; [auto|].
  rewrite (manualStepOf_settled now pins sw Hsw), IH1, IH2. auto.
Qed.

Lemma handleManualSwitches_settled (d : Device) :
  settled d -> handleManualSwitches d = d.
Proof.
  intros H. rewrite handleManualSwitches_spec.
  destruct (manualStepOf_settled_all (millis d) (pinIn d) _ H) as [-> ->].
  simpl. apply set_switchesLocal_same.
Qed.

Lemma initManualInput_settled (d : Device) (sw : SwitchState) :
  settledInput (pinIn d) (initManualInput d sw).
Proof.
  unfold settledInput, initManualInput, digitalRead.
  destruct (manualEnabled sw) eqn:E1; simpl.
  - destruct (0 <=? manualGpio sw) eqn:E2; simpl.
    + auto.
    + rewrite E1. simpl. intros H. apply Z.ltb_ge in H. apply Z.leb_gt in E2.
      lia.
  - rewrite E1. simpl. discriminate.
Qed.

Lemma installSwitch_settled (sw : SwitchState) (d : Device) :
  settled d -> settled (installSwitch sw d).
Proof.
  unfold settled. intros H.
  destruct (installSwitch_spec sw d) as (S1 & _ & S3 & _). cbv zeta in *.
  rewrite S1, S3. apply Forall_app. split; [exact H|].
  constructor; [|constructor].
  unfold installSwitch. apply initManualInput_settled.
Qed.

Lemma install_settled (parse : JsonVariant -> option SwitchState)
    (arr : list JsonVariant) :
  forall d : Device,
    settled d ->
    settled (fold_left (fun d o => match parse o with
                                   | Some sw => installSwitch sw d
                                   | None => d
                                   end) arr d).
Proof.
  induction arr as [|o arr IH]; intros d H; simpl; [exact H|].
  apply IH. destruct (parse o); [now apply installSwitch_settled | exact H].
Qed.

Lemma settled_same (d d' : Device) :
  switchesLocal d' = switchesLocal d -> pinIn d' = pinIn d ->
  settled d -> settled d'.
Proof. unfold settled. now intros -> ->. Qed.

Lemma settled_Improved_load (arr : list JsonVariant) (d : Device) :
  settled (Improved.loadConfigFromJsonArray arr d).
Proof.
  unfold Improved.loadConfigFromJsonArray.
  eapply settled_same;
    [| | apply (install_settled Improved.parseSwitch arr
                  (set_switchesLocal [] d)); constructor].
  - rewrite (keeps_sendStateUpdate switchesLocal),
      (keeps_saveConfigToNVS switchesLocal) by (intros; reflexivity).
    reflexivity.
  - rewrite (keeps_sendStateUpdate pinIn),
      (keeps_saveConfigToNVS pinIn) by (intros; reflexivity).
    reflexivity.
Qed.

Lemma settled_DebugTest_load (arr : list JsonVariant) (d : Device) :
  settled (DebugTest.loadConfigFromJsonArray arr d).
Proof.
  unfold DebugTest.loadConfigFromJsonArray.
  apply install_settled. constructor.
Qed.

Lemma settled_loadConfigFromNVS (d : Device) :
  settled d -> settled (loadConfigFromNVS d).
Proof.
  intros H. unfold loadConfigFromNVS. case_if; [exact H|].
  eapply settled_same; [reflexivity | reflexivity |].
  change (fun d0 i => match readSwitchFromNVS (prefs d0) i with
                      | Some sw => installSwitch sw d0
                      | None => d0
                      end) with loadBody.
  generalize (seq 0 (Z.to_nat (getInt "count" 0 (prefs d)))) as idx.
  assert (H0 : settled (set_switchesLocal [] d)) by constructor.
  revert H0. generalize (set_switchesLocal [] d) as d0.
  intros d0 H0 idx. revert d0 H0.
  induction idx as [|i idx IH]; intros d0 H0; simpl; [exact H0|].
  apply IH. unfold loadBody.
  destruct (readSwitchFromNVS (prefs d0) i);
    [now apply installSwitch_settled | exact H0].
Qed.

Lemma installDefault_settled (cfgs : list SwitchConfig) :
  forall d : Device,
    settled d -> settled (fold_left installDefault cfgs d).
Proof.
  induction cfgs as [|cfg cfgs IH]; intros d H; simpl; [exact H|].
  apply IH. unfold settled, installDefault, digitalWrite, digitalRead in *.
  cbn [switchesLocal pinIn set_switchesLocal set_pinOut].
  apply Forall_app. split; [exact H|].
  constructor; [|constructor]. unfold settledInput. simpl. auto.
Qed.

Lemma redrive_pinIn (sws : list SwitchState) :
  forall d : Device,
    pinIn
      (fold_left (fun d sw => digitalWrite (gpio sw) (relayLevel (state sw)) d)
         sws d)
    = pinIn d.
Proof.
  induction sws as [|sw sws IH]; intros d; simpl; [reflexivity|].
  now rewrite IH.
Qed.

Lemma settled_setupRelays (d : Device) :
  settled d -> settled (setupRelays d).
Proof.
  intros H. apply settled_loadConfigFromNVS in H.
  unfold setupRelays.
  destruct (switchesLocal (loadConfigFromNVS d)) as [|sw sws] eqn:E.
  - eapply settled_same;
      [| | apply (installDefault_settled defaultSwitchConfigs _ H)].
    + keep (keeps_saveConfigToNVS switchesLocal).
    + keep (keeps_saveConfigToNVS pinIn).
  - eapply settled_same; [| | exact H].
    + rewrite redrive_frame. reflexivity.
    + rewrite redrive_pinIn. reflexivity.
Qed.

(** X16.  A registry that has just been loaded generates no manual
    command until an input changes.  Every loader (setupRelays with the
    snapshot or the factory defaults, loadConfigFromJsonArray of either
    sketch) samples each enabled manual input once and starts its
    debounce tracker at that level; so a pass of handleManualSwitches
    over the same input levels leaves the device exactly as it was -
    also when a maintained switch stands in the ON position while its
    channel is off. *)
Theorem X16_no_manual_command_after_load (arr : list JsonVariant)
    (d : Device) :
  switchesLocal d = [] ->
  handleManualSwitches (setupRelays d) = setupRelays d
  /\ handleManualSwitches (Improved.loadConfigFromJsonArray arr d)
     = Improved.loadConfigFromJsonArray arr d
  /\ handleManualSwitches (DebugTest.loadConfigFromJsonArray arr d)
     = DebugTest.loadConfigFromJsonArray arr d.
Proof.
  intros He. repeat split; apply handleManualSwitches_settled.
  - apply settled_setupRelays. unfold settled. rewrite He. constructor.
  - apply settled_Improved_load.
  - apply settled_DebugTest_load.
Qed.

Lemma X16_witness :
  let d := Improved.loadConfigFromJsonArray identifiedWithSwitch
             (allSwitchesClosed boot) in
  map (fun sw => (state sw, lastManualActive sw)) (switchesLocal d)
  = [(false, true)]
  /\ handleManualSwitches d = d.
Proof.
  cbv zeta. split; [reflexivity|].
  exact (proj1 (proj2 (X16_no_manual_command_after_load identifiedWithSwitch
                         (allSwitchesClosed boot) eq_refl))).
Defined.

(** ** Timers and the 32-bit clock *)

Lemma ulong_sub_elapsed (t c : Z) :
  0 <= t - c < ULONG_MOD ->
  ulong_sub (t mod ULONG_MOD) (c mod ULONG_MOD) = t - c.
Proof.
  intros H. rewrite ulong_sub_millis. now apply Z.mod_small.
Qed.

(** X17.  The heartbeat timer measures true elapsed time, also across
    the wrap of millis() at 2^32: if the timer was last restarted at
    time t0, less than 2^32 ago, sendHeartbeat does nothing before
    HEARTBEAT_MS = 30000 have passed; from then on a call restarts the
    timer and transmits one heartbeat if the socket is connected.  With
    the socket down the timer is restarted all the same and the
    heartbeat is lost, not postponed. *)
Theorem X17_heartbeat_timer_across_wrap (d : Device) (t0 : Z) :
  lastHeartbeat d = t0 mod ULONG_MOD ->
  0 <= clock d - t0 < ULONG_MOD ->
  let d' := sendHeartbeat d in
  let due := HEARTBEAT_MS <=? clock d - t0 in
  tx d' = (if due && wsConnected d
           then tx d ++ [MHeartbeat (millis d / 1000) (isOfflineMode d)]
           else tx d)
  /\ lastHeartbeat d' = (if due then millis d else lastHeartbeat d)
  /\ tx (sendHeartbeat d') = tx d'.
Proof.
  intros Hl Hc. cbv zeta.
  assert (Ht : (ulong_sub (millis d) (lastHeartbeat d) <? HEARTBEAT_MS)
               = negb (HEARTBEAT_MS <=? clock d - t0)).
  { unfold millis. rewrite Hl, ulong_sub_elapsed by exact Hc.
    apply Z.ltb_antisym. }
  assert (Hd' : sendHeartbeat d
                = if HEARTBEAT_MS <=? clock d - t0
                  then (if wsConnected d
                        then Serial_print LogWsHeartbeat
                               (sendJson (MHeartbeat (millis d / 1000)
                                            (isOfflineMode d))
                                  (set_lastHeartbeat (millis d) d))
                        else set_lastHeartbeat (millis d) d)
                  else d).
  { unfold sendHeartbeat. cbv zeta. rewrite Ht.
    destruct (HEARTBEAT_MS <=? clock d - t0); reflexivity. }
  rewrite Hd'.
  destruct (HEARTBEAT_MS <=? clock d - t0) eqn:Edue; cbn [andb].
  - assert (Hagain : forall x, lastHeartbeat x = millis x ->
                               sendHeartbeat x = x).
    { intros x Hx. unfold sendHeartbeat. cbv zeta.
      now rewrite Hx, ulong_sub_self. }
    destruct (wsConnected d) eqn:Ews.
    + unfold sendJson, Serial_print. cbn [wsConnected set_lastHeartbeat].
      rewrite Ews. cbn [negb tx lastHeartbeat set_serial set_tx
                          set_lastHeartbeat].
      repeat split; try reflexivity. now rewrite Hagain.
    + cbn [tx lastHeartbeat set_lastHeartbeat].
      repeat split; try reflexivity. now rewrite Hagain.
  - repeat split; try reflexivity.
    unfold sendHeartbeat. cbv zeta. rewrite Ht. reflexivity.
Qed.

Lemma X17_witness :
  tx (sendHeartbeat nearWrap) = []
  /\ tx (sendHeartbeat (delay 1000 nearWrap)) = [MHeartbeat 0 true].
Proof.
  assert (H1 : lastHeartbeat nearWrap = (2 ^ 32 - 29001) mod ULONG_MOD)
    by reflexivity.
  assert (H2 : 0 <= clock nearWrap - (2 ^ 32 - 29001) < ULONG_MOD)
    by (vm_compute; split; [discriminate | reflexivity]).
  assert (H3 : 0 <= clock (delay 1000 nearWrap) - (2 ^ 32 - 29001) < ULONG_MOD)
    by (vm_compute; split; [discriminate | reflexivity]).
  split.
  - exact (proj1 (X17_heartbeat_timer_across_wrap nearWrap _ H1 H2)).
  - exact (proj1 (X17_heartbeat_timer_across_wrap (delay 1000 nearWrap) _
                    H1 H3)).
Defined.

Lemma to_long_cases (x : Z) :
  0 <= x < ULONG_MOD ->
  to_long x = if x <? 2 ^ 31 then x else x - 2 ^ 32.
Proof.
  intros H. unfold to_long, ULONG_MOD in *.
  destruct (x <? 2 ^ 31) eqn:E.
  - apply Z.ltb_lt in E. rewrite Z.mod_small; lia.
  - apply Z.ltb_ge in E.
    replace (x + 2 ^ 31) with (x - 2 ^ 31 + 1 * 2 ^ 32) by lia.
    rewrite Z.mod_add by lia. rewrite Z.mod_small; lia.
Qed.

(** X18.  The seq and ts fields of a state_update are millis() cast to
    long, which is 32 bits wide on the ESP32: they equal millis() while
    it is below 2^31 and millis() - 2^32, a negative number, from then
    until the wrap.  So the "coarse monotonic seq" steps back once every
    2^32 ms: an update sent 2^31 ms after another that was sent in the
    lower half of the range carries a smaller, negative seq. *)
Theorem X18_state_update_seq_is_signed (d : Device) :
  wsConnected d = true ->
  let seq := if millis d <? 2 ^ 31 then millis d else millis d - 2 ^ 32 in
  tx (sendStateUpdate true d)
  = tx d ++ [MStateUpdate seq seq (map stateUpdateEntry (switchesLocal d))]
  /\ (2 ^ 31 <= millis d -> seq < 0)
  /\ (millis d < 2 ^ 31 ->
      to_long (millis (delay (2 ^ 31) d)) < 0 <= seq).
Proof.
  intros Hws seq.
  assert (Hm : forall x, 0 <= millis x < ULONG_MOD)
    by (intros x; apply Z.mod_pos_bound; reflexivity).
  destruct (sendStateUpdate_forced d Hws) as (S1 & _). cbv zeta in S1.
  split; [|split].
  - rewrite S1. unfold stateUpdateOf.
    now rewrite (to_long_cases _ (Hm d)).
  - intros H. subst seq. specialize (Hm d). unfold ULONG_MOD in Hm.
    destruct (millis d <? 2 ^ 31) eqn:E; [apply Z.ltb_lt in E; lia | lia].
  - intros H. subst seq. apply Z.ltb_lt in H as H'. rewrite H'.
    assert (Hd : millis (delay (2 ^ 31) d) = millis d + 2 ^ 31).
    { specialize (Hm d). unfold millis, delay, ULONG_MOD in *.
      cbn [clock set_clock]. change (Z.of_N (2 ^ 31)) with (2 ^ 31).
      rewrite <- Z.add_mod_idemp_l by lia.
      apply Z.mod_small. lia. }
    rewrite Hd. specialize (Hm d). unfold ULONG_MOD in Hm.
    rewrite to_long_cases by (unfold ULONG_MOD; lia).
    destruct (millis d + 2 ^ 31 <? 2 ^ 31) eqn:E;
      [apply Z.ltb_lt in E; lia | lia].
Qed.

Lemma X18_witness :
  tx (sendStateUpdate true nearWrap)
  = [MStateUpdate (-1) (-1) []].
Proof.
  exact (proj1 (X18_state_update_seq_is_signed nearWrap eq_refl)).
Defined.

(** ** Invariants of the running device *)

Lemma relayView_manualStepOf (now : Z) (pins : Z -> Z) (sw : SwitchState) :
  relayView (fst (manualStepOf now pins sw)) = relayView sw.
Proof.
  destruct (manualStepOf_core now pins sw) as [H _]. cbv zeta in H.
  unfold channelCore in H. unfold relayView. congruence.
Qed.

Section Invariant.

(** An invariant is kept by the whole device if it is kept by the
    writes the hypotheses name.  The fields an invariant does not read
    may be written at will; the queue, the registry, the output pins and
    the pending flag are written only in the ways the sketches write
    them. *)
Variable P : Device -> Prop.

Hypothesis P_serial : forall v d, P d -> P (set_serial v d).
Hypothesis P_tx : forall v d, P d -> P (set_tx v d).
Hypothesis P_lastStateSent : forall v d, P d -> P (set_lastStateSent v d).
Hypothesis P_lastHeartbeat : forall v d, P d -> P (set_lastHeartbeat v d).
Hypothesis P_lastIdentifyAttempt :
  forall v d, P d -> P (set_lastIdentifyAttempt v d).
Hypothesis P_lastCommandProcess :
  forall v d, P d -> P (set_lastCommandProcess v d).
Hypothesis P_lastWiFiRetry : forall v d, P d -> P (set_lastWiFiRetry v d).
Hypothesis P_lastCfgSave : forall v d, P d -> P (set_lastCfgSave v d).
Hypothesis P_connState : forall v d, P d -> P (set_connState v d).
Hypothesis P_isOfflineMode : forall v d, P d -> P (set_isOfflineMode v d).
Hypothesis P_identified : forall v d, P d -> P (set_identified v d).
Hypothesis P_cfgDirty : forall v d, P d -> P (set_cfgDirty v d).
Hypothesis P_lastSeqs : forall v d, P d -> P (set_lastSeqs v d).
Hypothesis P_prefs : forall v d, P d -> P (set_prefs v d).
Hypothesis P_nvsCommits : forall v d, P d -> P (set_nvsCommits v d).
Hypothesis P_clock : forall v d, P d -> P (set_clock v d).
Hypothesis P_wsConnected : forall v d, P d -> P (set_wsConnected v d).
Hypothesis P_wifiConnected : forall v d, P d -> P (set_wifiConnected v d).
Hypothesis P_pinIn : forall v d, P d -> P (set_pinIn v d).

Hypothesis P_pendingState : forall d, P d -> P (set_pendingState false d).
Hypothesis P_newQueue : forall d, P d -> P (set_cmdQueue [] d).
Hypothesis P_enqueue : forall cmd d,
  (length (cmdQueue d) < MAX_COMMAND_QUEUE)%nat -> cmd_valid cmd = true ->
  P d -> P (set_cmdQueue (cmdQueue d ++ [cmd]) d).
Hypothesis P_dequeue : forall cmd q d,
  cmdQueue d = cmd :: q -> P d -> P (set_cmdQueue q d).
Hypothesis P_led : forall lvl d, P d -> P (digitalWrite STATUS_LED_PIN lvl d).
Hypothesis P_clear : forall d, P d -> P (set_switchesLocal [] d).
Hypothesis P_install : forall sw d,
  0 <= gpio sw -> P d -> P (installSwitch sw d).
Hypothesis P_manual : forall sws d,
  map relayView sws = map relayView (switchesLocal d) ->
  P d -> P (set_switchesLocal sws d).
Hypothesis P_apply : forall g s sws d,
  setSwitch g s (switchesLocal d) = Some sws ->
  P d -> P (digitalWrite g (relayLevel s) (set_switchesLocal sws d)).
Hypothesis P_default : forall cfg d,
  In cfg defaultSwitchConfigs -> P d -> P (installDefault d cfg).
Hypothesis P_drive : forall sw d,
  In sw (switchesLocal d) ->
  P d -> P (digitalWrite (gpio sw) (relayLevel (state sw)) d).

Lemma pres_compose (f g : Device -> Device) :
  preserves P f -> preserves P g -> preserves P (fun d => g (f d)).
Proof. intros Hf Hg d H. apply Hg, Hf, H. Qed.

Lemma pres_fold {B : Type} (f : Device -> B -> Device) (l : list B) :
  (forall b, preserves P (fun d => f d b)) ->
  preserves P (fun d => fold_left f l d).
Proof.
  intros Hf. induction l as [|b l IH]; intros d H; simpl; [exact H|].
  apply IH, Hf, H.
Qed.

Lemma pres_Serial_print (l : SerialLine) : preserves P (Serial_print l).
Proof. intros d H. unfold Serial_print. auto. Qed.

Lemma pres_sendJson (doc : Msg) : preserves P (sendJson doc).
Proof. intros d H. unfold sendJson. case_if; auto. Qed.

Lemma pres_identify : preserves P identify.
Proof. intros d H. unfold identify. apply P_lastIdentifyAttempt, pres_sendJson, H. Qed.

Lemma pres_sendStateUpdate_forced : preserves P (sendStateUpdate true).
Proof.
  intros d H. unfold sendStateUpdate. cbv zeta. cbn [negb andb].
  case_if; [auto|].
  apply pres_Serial_print, pres_sendJson. auto.
Qed.

Lemma pres_flush :
  preserves P (fun d => if pendingState d then sendStateUpdate true d else d).
Proof.
  intros d H. destruct (pendingState d); [|exact H].
  apply pres_sendStateUpdate_forced, H.
Qed.

Lemma pres_sendHeartbeat : preserves P sendHeartbeat.
Proof.
  intros d H. unfold sendHeartbeat. cbv zeta.
  repeat case_if; auto.
  apply pres_Serial_print, pres_sendJson. auto.
Qed.

Lemma pres_queueSwitchCommand (g : Z) (s : bool) :
  preserves P (queueSwitchCommand g s).
Proof.
  intros d H. unfold queueSwitchCommand, xQueueSend. cbv zeta.
  destruct (length (cmdQueue d) <? MAX_COMMAND_QUEUE)%nat eqn:E.
  - apply pres_Serial_print, P_enqueue; [now apply Nat.ltb_lt | reflexivity | exact H].
  - apply pres_Serial_print, H.
Qed.

Lemma pres_enqueueAll (cs : list (Z * bool)) : preserves P (enqueueAll cs).
Proof.
  unfold enqueueAll. apply pres_fold. intros c. apply pres_queueSwitchCommand.
Qed.

Lemma pres_saveConfigToNVS : preserves P saveConfigToNVS.
Proof.
  intros d H. unfold saveConfigToNVS. cbv zeta.
  apply pres_Serial_print. auto.
Qed.

Lemma pres_handleManualSwitches : preserves P handleManualSwitches.
Proof.
  intros d H. rewrite handleManualSwitches_spec.
  apply P_manual; [|apply pres_enqueueAll, H].
  destruct (enqueueAll_spec
              (manualCommands (millis d) (pinIn d) (switchesLocal d)) d)
    as (_ & _ & E3 & _).
  cbv zeta in E3. rewrite E3, map_map. apply map_ext.
  intros sw. apply relayView_manualStepOf.
Qed.

Lemma pres_blinkStatus : preserves P blinkStatus.
Proof. intros d H. rewrite blinkStatus_level. apply P_led, H. Qed.

Lemma pres_loop_connectivity : preserves P loop_connectivity.
Proof.
  intros d H. unfold loop_connectivity. cbv zeta.
  repeat case_if; auto. apply pres_identify. auto.
Qed.

Lemma pres_install (parse : JsonVariant -> option SwitchState)
    (arr : list JsonVariant) :
  (forall o sw, parse o = Some sw -> 0 <= gpio sw) ->
  preserves P
    (fun d => fold_left (fun d o => match parse o with
                                    | Some sw => installSwitch sw d
                                    | None => d
                                    end) arr d).
Proof.
  intros Hparse. apply pres_fold. intros o d H.
  destruct (parse o) as [sw|] eqn:E; [|exact H].
  apply P_install; [eapply Hparse; exact E | exact H].
Qed.

Lemma pres_Improved_loadConfigFromJsonArray (arr : list JsonVariant) :
  preserves P (Improved.loadConfigFromJsonArray arr).
Proof.
  intros d H. unfold Improved.loadConfigFromJsonArray. cbv zeta.
  apply pres_sendStateUpdate_forced, pres_saveConfigToNVS.
  apply (pres_install Improved.parseSwitch arr Improved_parseSwitch_valid).
  apply P_clear, H.
Qed.

Lemma pres_DebugTest_loadConfigFromJsonArray (arr : list JsonVariant) :
  preserves P (DebugTest.loadConfigFromJsonArray arr).
Proof.
  intros d H. unfold DebugTest.loadConfigFromJsonArray. cbv zeta.
  apply (pres_install DebugTest.parseSwitch arr DebugTest_parseSwitch_valid).
  apply P_clear, H.
Qed.

Lemma pres_loadConfigFromNVS : preserves P loadConfigFromNVS.
Proof.
  intros d H. unfold loadConfigFromNVS. cbv zeta.
  case_if; [apply pres_Serial_print, H|].
  apply pres_Serial_print.
  apply (pres_fold
           (fun d i => match readSwitchFromNVS (prefs d) i with
                       | Some sw => installSwitch sw d
                       | None => d
                       end)); [|apply P_clear, H].
  intros i d0 H0.
  destruct (readSwitchFromNVS (prefs d0) i) as [sw|] eqn:E; [|exact H0].
  apply P_install; [eapply readSwitchFromNVS_valid; exact E | exact H0].
Qed.

Lemma pres_setupRelays : preserves P setupRelays.
Proof.
  intros d H. apply pres_loadConfigFromNVS in H. unfold setupRelays.
  destruct (switchesLocal (loadConfigFromNVS d)) as [|sw0 sws0] eqn:E.
  - apply pres_saveConfigToNVS.
    assert (G : forall cfgs d0,
              (forall cfg, In cfg cfgs -> In cfg defaultSwitchConfigs) ->
              P d0 -> P (fold_left installDefault cfgs d0)).
    { induction cfgs as [|cfg cfgs IH]; intros d0 Hin H0; simpl; [exact H0|].
      apply IH; [intros c Hc; apply Hin; now right|].
      apply P_default; [apply Hin; now left | exact H0]. }
    apply G; [auto | exact H].
  - rewrite <- E.
    assert (G : forall sws d0,
              (forall sw, In sw sws -> In sw (switchesLocal d0)) ->
              P d0 ->
              P (fold_left
                   (fun d sw => digitalWrite (gpio sw) (relayLevel (state sw)) d)
                   sws d0)).
    { induction sws as [|sw sws IH]; intros d0 Hin H0; simpl; [exact H0|].
      apply IH; [intros c Hc; apply Hin; now right|].
      apply P_drive; [apply Hin; now left | exact H0]. }
    apply G; [auto | exact H].
Qed.

Lemma pres_Improved_applySwitchState (g : Z) (s : bool) :
  preserves P (fun d => snd (Improved.applySwitchState g s d)).
Proof.
  intros d H. unfold Improved.applySwitchState.
  destruct (setSwitch g s (switchesLocal d)) as [sws|] eqn:E; cbn [snd].
  - apply pres_sendStateUpdate_forced, pres_saveConfigToNVS,
      pres_Serial_print, P_apply; assumption.
  - apply pres_Serial_print, H.
Qed.

Lemma pres_DebugTest_applySwitchState (g : Z) (s : bool) :
  preserves P (fun d => snd (DebugTest.applySwitchState g s d)).
Proof.
  intros d H. unfold DebugTest.applySwitchState.
  destruct (setSwitch g s (switchesLocal d)) as [sws|] eqn:E; cbn [snd].
  - apply pres_sendStateUpdate_forced, P_cfgDirty,
      pres_Serial_print, P_apply; assumption.
  - apply pres_Serial_print, H.
Qed.

Lemma pres_Improved_processCommandQueue :
  preserves P Improved.processCommandQueue.
Proof.
  intros d H. unfold Improved.processCommandQueue. cbv zeta.
  case_if; [exact H|].
  cbn [cmdQueue set_lastCommandProcess].
  destruct (cmdQueue d) as [|cmd q] eqn:Eq; cbn [xQueueReceive];
    [apply P_lastCommandProcess, H|].
  assert (H1 : P (set_cmdQueue q (set_lastCommandProcess (millis d) d))).
  { apply (P_dequeue cmd); [exact Eq | apply P_lastCommandProcess, H]. }
  destruct (cmd_valid cmd); [|exact H1].
  apply (pres_Improved_applySwitchState _ _ _ H1).
Qed.

Lemma pres_DebugTest_drainQueue (k : nat) :
  preserves P (DebugTest.drainQueue k).
Proof.
  induction k as [|k IH]; intros d H; simpl; [exact H|].
  destruct (cmdQueue d) as [|cmd q] eqn:Eq; cbn [xQueueReceive]; [exact H|].
  apply IH.
  assert (H1 : P (set_cmdQueue q d)) by (apply (P_dequeue cmd); assumption).
  destruct (cmd_valid cmd); [|exact H1].
  apply (pres_DebugTest_applySwitchState _ _ _ H1).
Qed.

Lemma pres_DebugTest_processCommandQueue :
  preserves P DebugTest.processCommandQueue.
Proof.
  intros d H. unfold DebugTest.processCommandQueue. cbv zeta.
  case_if; [exact H|].
  apply pres_DebugTest_drainQueue, P_lastCommandProcess, H.
Qed.

Lemma pres_DebugTest_maybeSaveConfig : preserves P DebugTest.maybeSaveConfig.
Proof.
  intros d H. unfold DebugTest.maybeSaveConfig. cbv zeta.
  repeat case_if; auto.
  apply P_cfgDirty, P_lastCfgSave, pres_saveConfigToNVS, H.
Qed.

Lemma pres_bulk (cmds : list JsonVariant) :
  forall acc : Z * Device,
    P (snd acc) -> P (snd (fold_left bulkEntry cmds acc)).
Proof.
  induction cmds as [|c cmds IH]; intros acc H; simpl; [exact H|].
  apply IH. rewrite bulkEntry_step.
  destruct (bulkCommand c) as [[g s]|]; cbn [fst snd].
  - apply pres_queueSwitchCommand, H.
  - apply pres_Serial_print, H.
Qed.

Lemma pres_onBulkSwitchCommand (doc : JsonVariant) :
  preserves P (onBulkSwitchCommand doc).
Proof.
  intros d H. unfold onBulkSwitchCommand.
  destruct (doc.["commands"]) as [| | | |cmds|]; try exact H.
  pose proof (pres_bulk cmds (0, d) H) as L.
  destruct (fold_left bulkEntry cmds (0, d)) as [processed d1].
  cbn [snd] in L. apply pres_sendJson, pres_Serial_print, L.
Qed.

Lemma pres_onWsText (load : list JsonVariant -> Device -> Device)
    (payload : option JsonVariant) :
  (forall arr, preserves P (load arr)) ->
  preserves P (onWsText load payload).
Proof.
  intros Hload d H. unfold onWsText.
  destruct payload as [doc|]; [|exact H]. cbv zeta.
  repeat case_if; try exact H.
  - unfold onIdentified. cbv zeta.
    assert (H1 : P (set_lastSeqs []
                      (digitalWrite STATUS_LED_PIN HIGH
                         (set_isOfflineMode false (set_identified true d)))))
      by auto.
    destruct (doc.["switches"]); try exact H1. apply Hload, H1.
  - unfold onConfigUpdate.
    destruct (doc.["switches"]); try exact H. apply Hload. auto.
  - unfold onSwitchCommand. apply pres_queueSwitchCommand, H.
  - apply pres_onBulkSwitchCommand, H.
Qed.

Lemma pres_connected :
  preserves P
    (fun d => sendStateUpdate true
                (identify
                   (digitalWrite STATUS_LED_PIN HIGH
                      (set_connState BACKEND_CONNECTED
                         (set_isOfflineMode false (set_identified false d)))))).
Proof.
  intros d H. apply pres_sendStateUpdate_forced, pres_identify. auto.
Qed.

Lemma pres_Improved_onWsEvent (ev : WsEvent) :
  preserves P (fun d => Improved.onWsEvent ev (ws_status ev d)).
Proof.
  intros d H. destruct ev as [| |payload|];
    unfold Improved.onWsEvent, ws_status.
  - apply pres_connected. auto.
  - auto 10.
  - apply pres_onWsText; [apply pres_Improved_loadConfigFromJsonArray | exact H].
  - exact H.
Qed.

Lemma pres_DebugTest_onWsEvent (ev : WsEvent) :
  preserves P (fun d => DebugTest.onWsEvent ev (ws_status ev d)).
Proof.
  intros d H. destruct ev as [| |payload|];
    unfold DebugTest.onWsEvent, ws_status.
  - apply pres_connected. auto.
  - apply pres_DebugTest_maybeSaveConfig. auto 10.
  - apply pres_onWsText; [apply pres_DebugTest_loadConfigFromJsonArray | exact H].
  - exact H.
Qed.

Lemma pres_Improved_loop (evs : list WsEvent) :
  preserves P (Improved.loop evs).
Proof.
  intros d H. unfold Improved.loop, Improved.ws_loop, delay. cbv zeta.
  apply P_clock. apply pres_flush, pres_blinkStatus, pres_sendHeartbeat,
    pres_handleManualSwitches, pres_Improved_processCommandQueue.
  apply (pres_fold (fun d ev => Improved.onWsEvent ev (ws_status ev d)));
    [intros ev; apply pres_Improved_onWsEvent|].
  apply pres_loop_connectivity, H.
Qed.

Lemma pres_DebugTest_loop (evs : list WsEvent) :
  preserves P (DebugTest.loop evs).
Proof.
  intros d H. unfold DebugTest.loop, DebugTest.ws_loop, delay. cbv zeta.
  apply P_clock, pres_DebugTest_maybeSaveConfig.
  apply pres_flush, pres_blinkStatus, pres_sendHeartbeat,
    pres_handleManualSwitches, pres_DebugTest_processCommandQueue.
  apply (pres_fold (fun d ev => DebugTest.onWsEvent ev (ws_status ev d)));
    [intros ev; apply pres_DebugTest_onWsEvent|].
  apply pres_loop_connectivity, H.
Qed.

Lemma pres_runWith (loop : list WsEvent -> Device -> Device)
    (acts : list Action) :
  (forall evs, preserves P (loop evs)) ->
  preserves P (runWith loop acts).
Proof.
  intros Hloop. unfold runWith. apply pres_fold.
  intros [ms|ws wifi pins|evs] d H.
  - unfold delay. auto.
  - unfold surroundings. auto.
  - apply Hloop, H.
Qed.

Lemma pres_awaitWiFi (polls : nat) (wifi : Z -> bool) (startAttempt : Z) :
  preserves P (awaitWiFi polls wifi startAttempt).
Proof.
  induction polls as [|n IH]; intros d H; simpl; [exact H|].
  case_if; [|exact H]. apply IH. unfold delay. auto.
Qed.

Lemma pres_setup (wifi : Z -> bool) : preserves P (setup wifi).
Proof.
  intros d H. unfold setup. cbv zeta.
  apply P_lastWiFiRetry, P_lastCommandProcess, P_lastHeartbeat.
  assert (H1 : P (awaitWiFi 21 wifi
                    (millis (digitalWrite STATUS_LED_PIN LOW
                       (setupRelays
                          (set_connState WIFI_DISCONNECTED
                             (set_isOfflineMode true (set_cmdQueue [] d))))))
                    (digitalWrite STATUS_LED_PIN LOW
                       (setupRelays
                          (set_connState WIFI_DISCONNECTED
                             (set_isOfflineMode true (set_cmdQueue [] d))))))).
  { apply pres_awaitWiFi, P_led, pres_setupRelays. auto. }
  case_if; auto.
Qed.

(** The device from power-up on: [setup()], then any run of [loop()]
    passes, waits and changes of the surroundings, in either sketch. *)
Lemma pres_device (wifi : Z -> bool) (acts : list Action) (d : Device) :
  P d ->
  P (setup wifi d)
  /\ P (runWith Improved.loop acts d)
  /\ P (runWith DebugTest.loop acts d).
Proof.
  intros H. split; [apply pres_setup, H|]. split.
  - apply (pres_runWith _ acts pres_Improved_loop), H.
  - apply (pres_runWith _ acts pres_DebugTest_loop), H.
Qed.

End Invariant.

(** *** The queue *)

(** X19.  The command queue never holds more than MAX_COMMAND_QUEUE = 16
    commands, and every command in it has valid = true, at every moment
    of every run: through setup() and through any sequence of loop()
    passes with any socket events, waits and changes of the
    surroundings, in both sketches.  (So the test of cmd.valid in
    processCommandQueue never rejects a command.) *)
Theorem X19_queue_within_capacity_always (wifi : Z -> bool)
    (acts : list Action) (d : Device) :
  queueOk d ->
  queueOk (setup wifi d)
  /\ queueOk (runWith Improved.loop acts d)
  /\ queueOk (runWith DebugTest.loop acts d).
Proof.
  apply (pres_device queueOk); try (intros; assumption).
  - intros d0 _. split; [simpl; lia | constructor].
  - intros cmd d0 Hlen Hv [H1 H2]. unfold queueOk.
    cbn [cmdQueue set_cmdQueue]. split.
    + rewrite length_app. simpl. lia.
    + apply Forall_app. split; [exact H2|]. constructor; [exact Hv|constructor].
  - intros cmd q d0 Eq [H1 H2]. unfold queueOk in *.
    cbn [cmdQueue set_cmdQueue]. rewrite Eq in H1, H2. split.
    + simpl in H1. lia.
    + now inversion H2.
Qed.

(** *** The pending flag *)

(** X20.  pendingState is never set.  The only writer that sets it is a
    sendStateUpdate call that is not forced, and every call in both
    sketches passes force = true; so from a start with the flag clear
    it is clear after setup() and after any run of loop() passes, and
    the "send pending state updates" branch at the end of loop() never
    fires. *)
Theorem X20_no_broadcast_is_ever_pending (wifi : Z -> bool)
    (acts : list Action) (d : Device) :
  nothingPending d ->
  nothingPending (setup wifi d)
  /\ nothingPending (runWith Improved.loop acts d)
  /\ nothingPending (runWith DebugTest.loop acts d).
Proof.
  apply (pres_device nothingPending); try (intros; assumption).
  intros d0 _. reflexivity.
Qed.

(** *** The registry *)

Lemma map_eq_In {A B : Type} (f : A -> B) (a b : list A) (x : A) :
  map f a = map f b -> In x a -> exists y, In y b /\ f y = f x.
Proof.
  intros H Hx. apply (in_map f) in Hx. rewrite H in Hx.
  apply in_map_iff in Hx as (y & Hy & Hin). eauto.
Qed.

(** X21.  Every channel of the registry has a non-negative relay pin at
    every moment of every run: all three loaders skip an entry whose pin
    is missing or negative, the factory table holds valid pins, and
    nothing else writes a pin number. *)
Theorem X21_registry_pins_valid_always (wifi : Z -> bool)
    (acts : list Action) (d : Device) :
  registryValid d ->
  registryValid (setup wifi d)
  /\ registryValid (runWith Improved.loop acts d)
  /\ registryValid (runWith DebugTest.loop acts d).
Proof.
  apply (pres_device registryValid); try (intros; assumption).
  - intros d0 _. constructor.
  - intros sw d0 Hg H. now apply installSwitch_valid.
  - intros sws d0 Hm H. unfold registryValid, validRegistry in *.
    cbn [switchesLocal set_switchesLocal].
    apply List.Forall_forall. intros sw Hsw.
    destruct (map_eq_In relayView _ _ sw Hm Hsw) as (old & Hold & Hv).
    rewrite List.Forall_forall in H. specialize (H old Hold).
    unfold relayView in Hv. congruence.
  - intros g s sws d0 Hset H. unfold registryValid in *.
    cbn [switchesLocal digitalWrite set_pinOut set_switchesLocal].
    eapply setSwitch_valid; eauto.
  - intros cfg d0 Hcfg H. unfold registryValid, validRegistry in *.
    unfold installDefault, digitalWrite.
    cbn [switchesLocal set_switchesLocal set_pinOut].
    apply Forall_app. split; [exact H|]. constructor; [|constructor].
    cbn [gpio].
    pose proof factory_pins_valid as F. rewrite List.Forall_forall in F.
    apply F. now apply in_map.
Qed.

(** *** The relays *)

Lemma relaysFollow_write (pin level : Z) (d : Device) :
  (forall sw, In sw (switchesLocal d) -> outputPin sw = uint8 pin ->
              outputPin sw <> STATUS_LED_PIN ->
              exists sw', In sw' (switchesLocal d) /\ outputPin sw' = uint8 pin
                          /\ relayLevel (state sw') = uint8 level) ->
  relaysFollow d -> relaysFollow (digitalWrite pin level d).
Proof.
  intros Hpin H sw Hsw Hled. unfold digitalWrite in *.
  cbn [switchesLocal pinOut set_pinOut] in *.
  destruct (Z.eq_dec (outputPin sw) (uint8 pin)) as [E|E].
  - destruct (Hpin sw Hsw E Hled) as (sw' & H1 & H2 & H3).
    exists sw'. rewrite E, lookup_insert_eq, H3. auto.
  - destruct (H sw Hsw Hled) as (sw' & H1 & H2 & H3).
    exists sw'. rewrite lookup_insert_ne by congruence. auto.
Qed.

Lemma relaysFollow_append (g : Z) (s : bool) (sw0 : SwitchState)
    (d : Device) :
  gpio sw0 = g -> state sw0 = s ->
  relaysFollow d ->
  relaysFollow
    (set_switchesLocal (switchesLocal d ++ [sw0])
       (digitalWrite g (relayLevel s) d)).
Proof.
  intros Hg Hs H sw Hsw Hled. rewrite digitalWrite_relay in *.
  cbn [switchesLocal pinOut set_pinOut set_switchesLocal] in *.
  assert (H0 : outputPin sw0 = uint8 g) by (unfold outputPin; now rewrite Hg).
  destruct (Z.eq_dec (outputPin sw) (uint8 g)) as [E|E].
  - exists sw0. rewrite E, lookup_insert_eq, Hs.
    split; [apply in_or_app; right; now left | auto].
  - apply in_app_or in Hsw as [Hsw|[<-|[]]]; [|congruence].
    destruct (H sw Hsw Hled) as (sw' & H1 & H2 & H3).
    exists sw'. rewrite lookup_insert_ne by congruence.
    split; [apply in_or_app; now left | auto].
Qed.

Lemma relayView_initManualInput (d : Device) (sw : SwitchState) :
  relayView (initManualInput d sw) = relayView sw.
Proof.
  unfold initManualInput.
  destruct (manualEnabled sw && (0 <=? manualGpio sw)); reflexivity.
Qed.

Lemma relaysFollow_apply (g : Z) (s : bool) (sws : list SwitchState)
    (d : Device) :
  setSwitch g s (switchesLocal d) = Some sws ->
  relaysFollow d ->
  relaysFollow (digitalWrite g (relayLevel s) (set_switchesLocal sws d)).
Proof.
  intros Hset H.
  destruct (setSwitch_Some g s _ _ Hset) as (l1 & sw0 & l2 & E & _ & Hg & ->).
  intros sw Hsw Hled. rewrite digitalWrite_relay in *.
  cbn [switchesLocal pinOut set_pinOut set_switchesLocal] in *.
  assert (H0 : outputPin sw0 = uint8 g) by (unfold outputPin; now rewrite Hg).
  assert (H0' : outputPin (switched s sw0) = uint8 g) by exact H0.
  destruct (Z.eq_dec (outputPin sw) (uint8 g)) as [Eg|Eg].
  - exists (switched s sw0). rewrite Eg, lookup_insert_eq.
    split; [apply in_or_app; right; now left | auto].
  - assert (Hold : In sw (switchesLocal d)).
    { rewrite E. apply in_app_or in Hsw as [Hsw|[<-|Hsw]].
      - apply in_or_app; now left.
      - contradiction Eg.
      - apply in_or_app; right; now right. }
    destruct (H sw Hold Hled) as (sw' & H1 & H2 & H3).
    exists sw'. rewrite lookup_insert_ne by congruence.
    split; [|auto].
    rewrite E in H1. apply in_app_or in H1 as [H1|[<-|H1]].
    + apply in_or_app; now left.
    + congruence.
    + apply in_or_app; right; now right.
Qed.

Lemma relaysFollow_manual (sws : list SwitchState) (d : Device) :
  map relayView sws = map relayView (switchesLocal d) ->
  relaysFollow d -> relaysFollow (set_switchesLocal sws d).
Proof.
  intros Hm H sw Hsw Hled. cbn [switchesLocal pinOut set_switchesLocal] in *.
  destruct (map_eq_In relayView _ _ sw Hm Hsw) as (old & Hold & Hv).
  unfold relayView in Hv. injection Hv as Hg Hs.
  assert (Ho : outputPin old = outputPin sw) by (unfold outputPin; now rewrite Hg).
  destruct (H old Hold ltac:(congruence)) as (old' & H1 & H2 & H3).
  destruct (map_eq_In relayView _ _ old' (eq_sym Hm) H1) as (new' & Hn & Hv').
  unfold relayView in Hv'. injection Hv' as Hg' Hs'.
  assert (Ho' : outputPin new' = outputPin old')
    by (unfold outputPin; now rewrite Hg').
  exists new'. rewrite <- Ho, H3, Hs'. split; [exact Hn|]. split; congruence.
Qed.

(** With no two channels on one pin and none on the LED pin, the
    channel a pin follows is the channel itself. *)
Lemma relaysFollow_distinct (d : Device) :
  relaysFollow d -> distinctPins (switchesLocal d) -> relaysAgree d.
Proof.
  intros H [Hnd Hled]. unfold relaysAgree. apply List.Forall_forall.
  intros sw Hsw.
  assert (Hne : outputPin sw <> STATUS_LED_PIN).
  { intros E. apply Hled. rewrite <- E. now apply in_map. }
  destruct (H sw Hsw Hne) as (sw' & H1 & H2 & H3).
  assert (Heq : sw' = sw).
  { clear H3 Hled Hne H. revert Hnd Hsw H1 H2.
    induction (switchesLocal d) as [|x l IH]; simpl; [tauto|].
    intros Hnd Hsw H1 H2. inversion Hnd as [|? ? Hx Hnd']; subst.
    destruct Hsw as [->|Hsw], H1 as [->|H1]; auto.
    - exfalso. apply Hx. rewrite <- H2. now apply in_map.
    - exfalso. apply Hx. rewrite H2. now apply in_map. }
  now rewrite H3, Heq.
Qed.

(** X22.  The relays follow the registry at every moment of every run.
    The pin a channel drives is its registry number converted to
    uint8_t, as digitalWrite takes it (channels registered on 4 and on
    260 drive the same pin).  After setup() and after any sequence of
    loop() passes, with any socket events (configuration messages and
    commands included), every pin a channel drives, the status LED's
    pin apart, carries the relay level of the state of a channel that
    drives it; when no two channels drive one pin and none drives the
    LED pin, every relay carries the level of its own channel's
    state. *)
Theorem X22_relays_follow_registry_always (wifi : Z -> bool)
    (acts : list Action) (d : Device) :
  relaysFollow d ->
  let d0 := setup wifi d in
  let d1 := runWith Improved.loop acts d in
  let d2 := runWith DebugTest.loop acts d in
  (relaysFollow d0 /\ relaysFollow d1 /\ relaysFollow d2)
  /\ (distinctPins (switchesLocal d0) -> relaysAgree d0)
  /\ (distinctPins (switchesLocal d1) -> relaysAgree d1)
  /\ (distinctPins (switchesLocal d2) -> relaysAgree d2).
Proof.
  intros H. cbv zeta.
  assert (G : relaysFollow (setup wifi d)
              /\ relaysFollow (runWith Improved.loop acts d)
              /\ relaysFollow (runWith DebugTest.loop acts d)).
  { revert H. apply (pres_device relaysFollow); try (intros; assumption).
    - intros lvl d0 H. apply relaysFollow_write; [|exact H].
      intros sw _ E Hne. exfalso. apply Hne. exact E.
    - intros d0 _ sw [].
    - intros sw d0 _ H. unfold installSwitch. cbv zeta.
      assert (Hv := relayView_initManualInput
                      (digitalWrite (gpio sw) (relayLevel (state sw)) d0) sw).
      unfold relayView in Hv. injection Hv as Hg Hs.
      exact (relaysFollow_append (gpio sw) (state sw) _ d0 Hg Hs H).
    - intros sws d0. apply relaysFollow_manual.
    - intros g s sws d0. apply relaysFollow_apply.
    - intros cfg d0 _ H. unfold installDefault. cbv zeta.
      refine (relaysFollow_append (relayPin cfg) false _ d0 _ _ H);
        reflexivity.
    - intros sw d0 Hsw H. apply relaysFollow_write; [|exact H].
      intros sw1 _ E _. exists sw. rewrite uint8_relayLevel. auto. }
  destruct G as (G0 & G1 & G2).
  repeat split; try assumption; intros Hd; now apply relaysFollow_distinct.
Qed.

(** The factory device after [setup()] with a link that comes up late. *)
Lemma X19_witness :
  queueOk (runWith Improved.loop busyDay (setup wifiAfter1200 boot))
  /\ queueOk (runWith DebugTest.loop busyDay (setup wifiAfter1200 boot)).
Proof.
  assert (H0 : queueOk boot) by (split; [simpl; lia | constructor]).
  pose proof (proj1 (X19_queue_within_capacity_always wifiAfter1200 [] boot
                       H0)) as H1.
  exact (proj2 (X19_queue_within_capacity_always wifiAfter1200 busyDay
                  (setup wifiAfter1200 boot) H1)).
Defined.

Lemma X20_witness :
  pendingState (runWith Improved.loop busyDay (setup wifiAfter1200 boot))
  = false
  /\ pendingState (runWith DebugTest.loop busyDay (setup wifiAfter1200 boot))
     = false.
Proof.
  assert (H0 : nothingPending boot) by reflexivity.
  pose proof (proj1 (X20_no_broadcast_is_ever_pending wifiAfter1200 [] boot
                       H0)) as H1.
  exact (proj2 (X20_no_broadcast_is_ever_pending wifiAfter1200 busyDay
                  (setup wifiAfter1200 boot) H1)).
Defined.

Lemma X21_witness :
  registryValid (runWith Improved.loop busyDay (setup wifiAfter1200 boot))
  /\ registryValid (runWith DebugTest.loop busyDay (setup wifiAfter1200 boot)).
Proof.
  assert (H0 : registryValid boot) by constructor.
  pose proof (proj1 (X21_registry_pins_valid_always wifiAfter1200 [] boot
                       H0)) as H1.
  exact (proj2 (X21_registry_pins_valid_always wifiAfter1200 busyDay
                  (setup wifiAfter1200 boot) H1)).
Defined.

Lemma X22_witness :
  relaysAgree (setup wifiAfter1200 boot)
  /\ relaysAgree (runWith Improved.loop busyDay (setup wifiAfter1200 boot)).
Proof.
  assert (H0 : relaysFollow boot) by (intros sw []).
  destruct (X22_relays_follow_registry_always wifiAfter1200 [] boot H0)
    as ((H1 & _) & A0 & _).
  destruct (X22_relays_follow_registry_always wifiAfter1200 busyDay
              (setup wifiAfter1200 boot) H1)
    as (_ & _ & A1 & _).
  split.
  - apply A0. vm_compute.
    split; [repeat constructor; simpl; intuition discriminate
           | intuition discriminate].
  - apply A1. vm_compute.
    split; [repeat constructor; simpl; intuition discriminate
           | intuition discriminate].
Defined.

(** Channels registered on 4 and on 260 drive the same pin: a command
    for 260 switches the relay on pin 4 while channel 4 stays off in the
    registry, in both sketches. *)
Example aliased_pins_share_a_relay :
  let d := Improved.loadConfigFromJsonArray aliasedChannels boot in
  let d1 := snd (Improved.applySwitchState 260 true d) in
  let d2 := snd (DebugTest.applySwitchState 260 true d) in
  map relayView (switchesLocal d1) = [(4, false); (260, true)]
  /\ pinOut d1 !! 4 = Some RELAY_ON_LEVEL /\ pinOut d1 !! 260 = None
  /\ map relayView (switchesLocal d2) = [(4, false); (260, true)]
  /\ pinOut d2 !! 4 = Some RELAY_ON_LEVEL /\ pinOut d2 !! 260 = None
  /\ ~ distinctPins (switchesLocal d1) /\ ~ relaysAgree d1.
Proof.
  cbv zeta. repeat (split; [reflexivity|]). split.
  - intros [H _]. vm_compute in H.
    inversion H as [|? ? Hx _]. apply Hx. now left.
  - intros H. vm_compute in H. inversion H as [|? ? Hx _]. discriminate Hx.
Qed.

(** What [busyDay] leaves behind: the one channel of the backend's
    configuration, switched on, its relay at the ON level, and an empty
    queue.  improved_esp32.cpp has saved the snapshot four times by
    then, esp32debugtest.cpp only at start-up. *)
Example busyDay_outcome :
  let d1 := runWith Improved.loop busyDay (setup wifiAfter1200 boot) in
  let d2 := runWith DebugTest.loop busyDay (setup wifiAfter1200 boot) in
  map relayView (switchesLocal d1) = [(4, true)]
  /\ pinOut d1 !! 4 = Some RELAY_ON_LEVEL /\ cmdQueue d1 = []
  /\ map relayView (switchesLocal d2) = [(4, true)]
  /\ pinOut d2 !! 4 = Some RELAY_ON_LEVEL /\ cmdQueue d2 = []
  /\ length (nvsCommits d1) = 4%nat /\ length (nvsCommits d2) = 1%nat.
Proof. vm_compute. auto 10. Qed.

(** ** What a text message does to the NVS in esp32debugtest.cpp *)

Lemma DebugTest_onWsText_keeps {A : Type} (obs : Device -> A)
    (payload : option JsonVariant) :
  (forall v d, obs (set_serial v d) = obs d) ->
  (forall v d, obs (set_tx v d) = obs d) ->
  (forall v d, obs (set_cmdQueue v d) = obs d) ->
  (forall v d, obs (set_pinOut v d) = obs d) ->
  (forall v d, obs (set_identified v d) = obs d) ->
  (forall v d, obs (set_isOfflineMode v d) = obs d) ->
  (forall v d, obs (set_lastSeqs v d) = obs d) ->
  (forall v d, obs (set_switchesLocal v d) = obs d) ->
  keeps obs (DebugTest.onWsEvent (WStype_TEXT payload)).
Proof.
  intros H1 H2 H3 H4 H5 H6 H7 H8. unfold DebugTest.onWsEvent.
  apply keeps_onWsText; try assumption.
  intros arr. now apply keeps_DebugTest_loadConfigFromJsonArray.
Qed.

(** X23.  In esp32debugtest.cpp no text message - identified and
    config_update included - writes the NVS or sets cfgDirty:
    loadConfigFromJsonArray there replaces the registry and drives the
    relays, and that is all.  A configuration received from the backend
    is therefore lost by a restart unless a later command or a
    disconnect has set cfgDirty and maybeSaveConfig has flushed it. *)
Theorem X23_debug_build_config_is_not_saved (payload : option JsonVariant)
    (d : Device) :
  let d' := DebugTest.onWsEvent (WStype_TEXT payload) d in
  prefs d' = prefs d /\ nvsCommits d' = nvsCommits d
  /\ cfgDirty d' = cfgDirty d /\ lastCfgSave d' = lastCfgSave d
  /\ powerCycle d' = powerCycle d.
Proof.
  cbv zeta.
  assert (Hp : prefs (DebugTest.onWsEvent (WStype_TEXT payload) d) = prefs d)
    by (apply (DebugTest_onWsText_keeps prefs); intros; reflexivity).
  repeat split; try exact Hp.
  - apply (DebugTest_onWsText_keeps nvsCommits); intros; reflexivity.
  - apply (DebugTest_onWsText_keeps cfgDirty); intros; reflexivity.
  - apply (DebugTest_onWsText_keeps lastCfgSave); intros; reflexivity.
  - unfold powerCycle. now rewrite Hp.
Qed.

(** The same message in improved_esp32.cpp is saved at once. *)
Example improved_build_saves_config :
  let d := Improved.onWsEvent (WStype_TEXT (Some identifiedOne))
             (set_wsConnected true (setupRelays boot)) in
  let d' := DebugTest.onWsEvent (WStype_TEXT (Some identifiedOne))
              (set_wsConnected true (setupRelays boot)) in
  length (nvsCommits d) = 2%nat
  /\ length (nvsCommits d') = 1%nat
  /\ map gpio (switchesLocal d') = [4]
  /\ map gpio (switchesLocal (setupRelays (powerCycle d')))
     = [4; 16; 17; 5; 19; 18; 21; 22].
Proof. vm_compute. auto. Qed.

(** ** [setup()] *)

Lemma set_clock_eta (d : Device) : set_clock (clock d) d = d.
Proof. destruct d; reflexivity. Qed.

Lemma awaitWiFi_spec (wifi : Z -> bool) (c0 : Z) (n : nat) :
  forall (k : nat) (d0 : Device),
    (k + n = 21)%nat -> (k <= 20)%nat ->
    clock d0 = c0 + 500 * Z.of_nat k ->
    let d' := awaitWiFi n wifi (c0 mod ULONG_MOD) d0 in
    exists j : nat,
      (k <= j <= 20)%nat
      /\ d' = set_clock (c0 + 500 * Z.of_nat j) d0
      /\ stillWaiting wifi (c0 mod ULONG_MOD) d' = false
      /\ (wifi (clock d') = true \/ j = 20%nat).
Proof.
  induction n as [|n IH]; intros k d0 Hkn Hk Hc; [lia|]. cbv zeta.
  assert (He : ulong_sub (millis d0) (c0 mod ULONG_MOD) = 500 * Z.of_nat k).
  { unfold millis. rewrite Hc, ulong_sub_elapsed; [lia|].
    unfold ULONG_MOD. lia. }
  simpl awaitWiFi. rewrite He.
  destruct (negb (wifi (clock d0)) && (500 * Z.of_nat k <? 10000)) eqn:E.
  - apply andb_true_iff in E as [_ E]. apply Z.ltb_lt in E.
    destruct (IH (S k) (delay 500 d0)) as (j & Hj & Hd & Hs & Hw);
      [lia | lia | unfold delay; cbn [clock set_clock]; lia |].
    exists j. split; [lia|]. split; [|split; assumption].
    rewrite Hd. reflexivity.
  - exists k. split; [lia|]. split; [|split].
    + rewrite <- Hc. symmetry. apply set_clock_eta.
    + unfold stillWaiting. now rewrite He.
    + apply andb_false_iff in E as [E|E].
      * left. now apply negb_false_iff.
      * right. apply Z.ltb_ge in E. lia.
Qed.

Lemma setupRelays_clock_queue (d : Device) :
  clock (setupRelays d) = clock d /\ cmdQueue (setupRelays d) = cmdQueue d.
Proof.
  split.
  - apply (pres_setupRelays (fun x => clock x = clock d));
      try (intros; assumption); reflexivity.
  - apply (pres_setupRelays (fun x => cmdQueue x = cmdQueue d));
      try (intros; assumption); reflexivity.
Qed.

(** X24.  setup() waits for the WiFi link no longer than 10 s: the wait
    loop tests the link at most 21 times, 500 apart, and it ends because
    its own condition fails - the link is up, or 10000 have passed since
    the wait began.  setup() then leaves connState = WIFI_ONLY and
    isOfflineMode = false if the link is up at that moment and
    WIFI_DISCONNECTED and isOfflineMode = true otherwise, the three
    timers of loop() started at the time it returns, and an empty
    queue. *)
Theorem X24_setup_waits_at_most_ten_seconds (wifi : Z -> bool) (d : Device) :
  let d' := setup wifi d in
  let up := wifi (clock d') in
  (exists j : nat, (j <= 20)%nat /\ clock d' = clock d + 500 * Z.of_nat j)
  /\ (up = true \/ clock d' = clock d + 10000)
  /\ connState d' = (if up then WIFI_ONLY else WIFI_DISCONNECTED)
  /\ isOfflineMode d' = negb up
  /\ lastHeartbeat d' = millis d'
  /\ lastCommandProcess d' = millis d'
  /\ lastWiFiRetry d' = millis d'
  /\ cmdQueue d' = []
  /\ (forall d0 : Device,
        stillWaiting wifi (millis d0) (awaitWiFi 21 wifi (millis d0) d0)
        = false).
Proof.
  cbv zeta. unfold setup. cbv zeta.
  set (d0 := digitalWrite STATUS_LED_PIN LOW
               (setupRelays
                  (set_connState WIFI_DISCONNECTED
                     (set_isOfflineMode true (set_cmdQueue [] d))))).
  assert (H0 : clock d0 = clock d /\ cmdQueue d0 = []).
  { subst d0. unfold digitalWrite. cbn [clock cmdQueue set_pinOut].
    destruct (setupRelays_clock_queue
                (set_connState WIFI_DISCONNECTED
                   (set_isOfflineMode true (set_cmdQueue [] d)))) as [-> ->].
    split; reflexivity. }
  destruct H0 as [Hc0 Hq0].
  destruct (awaitWiFi_spec wifi (clock d0) 21 0 d0 eq_refl ltac:(lia)
              ltac:(simpl; lia)) as (j & Hj & Hd & Hs & Hw).
  cbv zeta in *. fold (millis d0) in Hd, Hs, Hw.
  set (d2 := awaitWiFi 21 wifi (millis d0) d0) in *.
  assert (Hc2 : clock d2 = clock d + 500 * Z.of_nat j)
    by (rewrite Hd, <- Hc0; reflexivity).
  assert (Hq2 : cmdQueue d2 = []) by (rewrite Hd; exact Hq0).
  assert (Hfinal :
    forall x : Device,
      let y := set_lastWiFiRetry (millis x)
                 (set_lastCommandProcess (millis x)
                    (set_lastHeartbeat (millis x) x)) in
      clock y = clock x /\ connState y = connState x
      /\ isOfflineMode y = isOfflineMode x /\ cmdQueue y = cmdQueue x
      /\ lastHeartbeat y = millis y /\ lastCommandProcess y = millis y
      /\ lastWiFiRetry y = millis y).
  { intros x. cbv zeta. unfold millis. simpl. repeat split; reflexivity. }
  match goal with
  | |- context [set_lastHeartbeat (millis ?x) ?x] =>
      destruct (Hfinal x) as (F1 & F2 & F3 & F4 & F5 & F6 & F7);
      assert (Hx : clock x = clock d2 /\ cmdQueue x = cmdQueue d2
                   /\ connState x = (if wifi (clock d2) then WIFI_ONLY
                                     else connState d2)
                   /\ isOfflineMode x = negb (wifi (clock d2)))
        by (destruct (wifi (clock d2)); simpl; repeat split; reflexivity)
  end.
  cbv zeta in *. destruct Hx as (X1 & X2 & X3 & X4).
  change (millis
            (set_lastCommandProcess _ (set_lastHeartbeat _ ?x)))
    with (millis x) in *.
  change (millis (set_lastHeartbeat _ ?x)) with (millis x) in *.
  rewrite F1, F2, F3, F4, F5, F6, F7, X1, X2, X3, X4, Hc2, Hq2.
  assert (Hconn : connState d2 = WIFI_DISCONNECTED).
  { rewrite Hd. subst d0. unfold digitalWrite.
    cbn [connState set_clock set_pinOut].
    apply (pres_setupRelays (fun x => connState x = WIFI_DISCONNECTED));
      try (intros; assumption); reflexivity. }
  rewrite Hconn, <- Hc2.
  split; [exists j; split; [lia | exact Hc2]|].
  split; [destruct Hw as [Hw| ->]; [now left | right; rewrite Hc2; lia]|].
  split; [now destruct (wifi (clock d2))|].
  repeat split; try reflexivity.
  intros x.
  destruct (awaitWiFi_spec wifi (clock x) 21 0 x eq_refl ltac:(lia)
              ltac:(simpl; lia)) as (j' & _ & _ & Hs' & _).
  exact Hs'.
Qed.

(** With a link that comes up after 1.2 s, setup() returns at 1.5 s
    with WIFI_ONLY. *)
Example setup_with_late_link :
  clock (setup wifiAfter1200 boot) = 1500
  /\ connState (setup wifiAfter1200 boot) = WIFI_ONLY
  /\ clock (setup (fun _ => false) boot) = 10000
  /\ isOfflineMode (setup (fun _ => false) boot) = true.
Proof. vm_compute. auto. Qed.

(** ** Repeated operation of a manual input *)

Lemma manualSwitchStep_command (now rawLevel : Z) (sw : SwitchState) :
  let r := manualSwitchStep now rawLevel sw in
  relayView (fst r) = relayView sw
  /\ (snd r = None \/ snd r = Some (gpio sw, negb (state sw))).
Proof.
  unfold manualSwitchStep, manualActive, relayView.
  repeat case_if; simpl; (split; [reflexivity|]); auto.
  all: right; do 2 f_equal.
  all: simpl in *;
    match goal with
    | |- ?a = negb ?b =>
        destruct a eqn:Ea, b eqn:Eb; try reflexivity;
        rewrite ?Ea, ?Eb in *; simpl in *; congruence
    end.
Qed.

(** X25.  As long as no command has been applied to its channel, every
    command a manual input generates asks for the same thing: the
    opposite of the channel's state as it stands (for a push button,
    !state; for a maintained switch, the position that differs from
    state).  So a push button pressed twice before its first command is
    applied - the queue is drained one command per 100 - queues the same
    state twice and does not toggle back. *)
Theorem X25_manual_commands_repeat_until_applied
    (samples : list (Z * Z)) (sw : SwitchState) :
  Forall (fun c => c = (gpio sw, negb (state sw))) (sampleCommands samples sw).
Proof.
  revert sw. induction samples as [|[t rawLevel] samples IH]; intros sw;
    simpl; [constructor|].
  destruct (manualSwitchStep_command (t mod ULONG_MOD) rawLevel sw)
    as [Hv Hc]. cbv zeta in *.
  unfold relayView in Hv. injection Hv as Hg Hs.
  specialize (IH (fst (manualSwitchStep (t mod ULONG_MOD) rawLevel sw))).
  rewrite Hg, Hs in IH.
  destruct Hc as [-> | ->]; [exact IH|]. constructor; [reflexivity|exact IH].
Qed.

(** A push button pressed twice within 100: two commands, both OFF. *)
Example two_presses_one_toggle :
  sampleCommands
    (pressAndRelease ++ [(1300, 0); (1340, 0)]) pushButton
  = [(16, false); (16, false)].
Proof. reflexivity. Qed.
